(** * FullForceAcademia: the sequential-thinking campaign engine

    A shallow embedding of the parts of [mcp_sequential_thinking] that decide
    the testable properties of the specification:

    - [monitoring.py]: [ROITracker], [PerformanceMonitor], [OptimizationEngine];
    - [error_handling.py]: [ErrorHandlingEngine] and its circuit breakers;
    - [thinking.py]: [ThinkingEngine.process_thinking_step].

    Conventions of the embedding.

    - A Python [float] is an IEEE-754 binary64 number: Rocq's primitive
      [float], whose [+ - * /], [sqrt] and comparisons round exactly as
      Python's do.  Amounts and metric values, annotated [float] in the
      source, are floats.
    - A Python [int] is a [Z].
    - A [datetime] is a [Z]: microseconds since the epoch.  A [timedelta] is
      a [Z] of microseconds.  Every function that reads [datetime.now()]
      takes the reading as its argument [now].
    - A [dict] or [defaultdict] keyed by strings is a [gmap string _]; a dict
      whose order of insertion is read is an association list.
    - An instance ([self]) is a record passed in and, when the method mutates
      it, returned.
    - A division that can raise [ZeroDivisionError] has an [option] result,
      and so has every function that contains one.  A call whose exception
      the caller would see has an [Outcome].
    - [await] is a plain call: the modelled methods run without
      interleaving.  Logging calls are left out: they read the state and
      change nothing. *)

From Stdlib Require Import ZArith List String Ascii Bool Lia.
From Stdlib Require Import Floats Uint63.
From Stdlib Require Import Sorted Permutation.
From stdpp Require Import gmap strings list pretty.

Set Default Proof Using "Type".
Set Warnings "-inexact-float".

(** ** Python and numpy primitives *)

Module Py.

(** [float(z)] for an int within the 63-bit range that [of_uint63]
    converts exactly like C's conversion. *)
Definition float_of_Z (z : Z) : float :=
  match z with
  | Z0 => 0%float
  | Zpos _ => PrimFloat.of_uint63 (Uint63.of_Z z)
  | Zneg p => (- PrimFloat.of_uint63 (Uint63.of_Z (Zpos p)))%float
  end.

Definition len {A} (l : list A) : Z := Z.of_nat (length l).

(** [sum(l)]: left to right from the int [0]. *)
Definition sum (l : list float) : float := fold_left PrimFloat.add l 0%float.

(** [x / y] on floats raises [ZeroDivisionError] when [y == 0]. *)
Definition truediv (x y : float) : option float :=
  if PrimFloat.eqb y 0 then None else Some (x / y)%float.

(** [x / n] for a float and an int: the int is converted first. *)
Definition truediv_int (x : float) (n : Z) : option float :=
  if (n =? 0)%Z then None else Some (x / float_of_Z n)%float.

(** [max(a, b)]: the first argument unless the second is greater. *)
Definition max (a b : float) : float := if PrimFloat.ltb a b then b else a.

(** [l[-n:]]: the last [n] elements, the whole list when it is shorter. *)
Definition last_n {A} (n : nat) (l : list A) : list A :=
  skipn (length l - n) l.

(** [l[:n]]. *)
Definition first_n {A} (n : nat) (l : list A) : list A := firstn n l.

(** [timedelta.days]: whole days, rounded down. *)
Definition days (delta : Z) : Z := (delta / 86400000000)%Z.

(** [int(datetime.timestamp())]: whole seconds.  The timestamp is a float;
    it holds the microseconds exactly, and [int] gives the second the clock
    shows, for clocks up to the year 2255, which the model is for. *)
Definition timestamp_seconds (t : Z) : Z := Z.quot t 1000000.

(** [s1 in s2] on strings. *)
Fixpoint contains (needle hay : string) : bool :=
  String.prefix needle hay ||
  match hay with
  | EmptyString => false
  | String _ rest => contains needle rest
  end.

Definition lower_ascii (c : ascii) : ascii :=
  let n := nat_of_ascii c in
  if (65 <=? n)%nat && (n <=? 90)%nat then ascii_of_nat (n + 32) else c.

(** [s.lower()] for a text of ASCII characters, which the model is for:
    on other characters [str.lower] follows Unicode, and can change the
    number of characters. *)
Fixpoint lower (s : string) : string :=
  match s with
  | EmptyString => EmptyString
  | String c rest => String (lower_ascii c) (lower rest)
  end.

(** The outcome of a call as the caller sees it: a value returned, or an
    exception that escaped, with [str] of the exception. *)
Inductive Outcome (A : Type) :=
  | Returned (a : A)
  | Raised (message : string).
Arguments Returned {A} a.
Arguments Raised {A} message.

End Py.

(** numpy's reductions of a list of floats, which numpy makes a float64
    array of. *)
Module Np.

(** The eight partial sums of numpy's pairwise summation after [groups]
    more groups of eight elements were added to them, one element to each,
    and the elements left. *)
Fixpoint add_groups (groups : nat) (r l : list float) : list float * list float :=
  match groups with
  | O => (r, l)
  | S g =>
      add_groups g (map (fun p => (fst p + snd p)%float) (combine r (firstn 8 l)))
        (skipn 8 l)
  end.

Definition combine_lanes (r : list float) : float :=
  match r with
  | [r0; r1; r2; r3; r4; r5; r6; r7] =>
      (((r0 + r1) + (r2 + r3)) + ((r4 + r5) + (r6 + r7)))%float
  | _ => 0%float
  end.

(** The sum of 8 to 128 elements: eight interleaved partial sums over the
    full groups of eight, combined in pairs, then the elements past the last
    full group, one by one. *)
Definition block_sum (l : list float) : float :=
  let '(r, rest) := add_groups (length l / 8 - 1) (firstn 8 l) (skipn 8 l) in
  fold_left PrimFloat.add rest (combine_lanes r).

(** numpy's pairwise sum: fewer than 8 elements are added left to right,
    up to 128 by [block_sum], and a longer array is split in two near its
    middle, at a multiple of 8.  [fuel] bounds the depth of the splitting;
    more than the length is enough. *)
Fixpoint pairwise_sum (fuel : nat) (l : list float) : float :=
  match fuel with
  | O => 0%float
  | S fuel =>
      let n := length l in
      if (n <? 8)%nat then fold_left PrimFloat.add l 0%float
      else if (n <=? 128)%nat then block_sum l
      else
        let n2 := (n / 2 - (n / 2) mod 8)%nat in
        (pairwise_sum fuel (firstn n2 l) + pairwise_sum fuel (skipn n2 l))%float
  end.

(** [np.add.reduce]: the pairwise sum added to the identity 0.  (Recent
    versions of numpy start the short loop from -0.0 rather than 0; it is
    only entered for the whole array, and adding the result to the
    identity 0 gives the same float.) *)
Definition sum (l : list float) : float :=
  (0 + pairwise_sum (S (length l)) l)%float.

(** [np.mean] *)
Definition mean (l : list float) : float :=
  (sum l / Py.float_of_Z (Py.len l))%float.

(** [np.std]: the population standard deviation. *)
Definition std (l : list float) : float :=
  let m := mean l in
  PrimFloat.sqrt (mean (map (fun x => ((x - m) * (x - m))%float) l)).

Definition isnan (x : float) : bool := negb (PrimFloat.eqb x x).

(** [np.min] and [np.max] of a non-empty list: [np.minimum] and
    [np.maximum] from the first element on, which keep what they hold when
    it is [<=] (or [>=]) the next element or is a NaN; so a NaN, once met,
    is the result.  Of a 0.0 and a -0.0, which compare equal, this keeps
    the first; numpy's vectorised loops may keep either. *)
Definition amin (l : list float) : float :=
  match l with
  | [] => 0%float
  | x :: rest =>
      fold_left (fun acc y => if PrimFloat.leb acc y || isnan acc then acc else y) rest x
  end.

Definition amax (l : list float) : float :=
  match l with
  | [] => 0%float
  | x :: rest =>
      fold_left (fun acc y => if PrimFloat.leb y acc || isnan acc then acc else y) rest x
  end.

(** [np.polyfit(range(len(values)), values, 1)[0]]: the slope of the
    least-squares line through the points [(i, values[i])], by its closed
    form.  numpy solves the same least-squares problem by a singular value
    decomposition, so its slope can differ from this one in the last bits:
    what is proved of a trend below does not depend on its value. *)
Definition polyfit_slope (values : list float) : float :=
  let xs := map (fun i => Py.float_of_Z (Z.of_nat i)) (seq 0 (length values)) in
  let xm := mean xs in
  let ym := mean values in
  let num := fold_left PrimFloat.add
               (map (fun p => ((fst p - xm) * (snd p - ym))%float) (combine xs values)) 0%float in
  let den := fold_left PrimFloat.add
               (map (fun x => ((x - xm) * (x - xm))%float) xs) 0%float in
  (num / den)%float.

End Np.

(** ** monitoring.py: the ROI ledger *)

Module Monitoring.

(** A conversion record, the dict built by [track_conversion]. *)
Record Conversion := {
  student_id : string;
  revenue : float;
  conversion_type : string;
  conv_timestamp : Z;
  conv_campaign_id : string
}.

Record ROITracker := {
  investment_tracking : gmap string (list float);
  revenue_tracking : gmap string (list float);
  conversion_tracking : gmap string (list Conversion)
}.

(** [ROITracker.__init__] *)
Definition ROITracker_init : ROITracker :=
  {| investment_tracking := ∅; revenue_tracking := ∅; conversion_tracking := ∅ |}.

(** [d.get(k, [])], and [d[k]] read on a [defaultdict(list)]. *)
Definition get_list {A} (d : gmap string (list A)) (k : string) : list A :=
  default [] (d !! k).

Definition track_investment (self : ROITracker) (campaign_id : string)
    (amount : float) (category : string) : ROITracker :=
  {| investment_tracking :=
       <[campaign_id := get_list (investment_tracking self) campaign_id ++ [amount]]>
         (investment_tracking self);
     revenue_tracking := revenue_tracking self;
     conversion_tracking := conversion_tracking self |}.

Definition track_conversion (self : ROITracker) (campaign_id student : string)
    (rev : float) (ctype : string) (now : Z) : ROITracker :=
  let conversion_record :=
    {| student_id := student; revenue := rev; conversion_type := ctype;
       conv_timestamp := now; conv_campaign_id := campaign_id |} in
  {| investment_tracking := investment_tracking self;
     revenue_tracking :=
       <[campaign_id := get_list (revenue_tracking self) campaign_id ++ [rev]]>
         (revenue_tracking self);
     conversion_tracking :=
       <[campaign_id := get_list (conversion_tracking self) campaign_id
                        ++ [conversion_record]]>
         (conversion_tracking self) |}.

(** The [breakdown] dict of a calculation. *)
Record Breakdown := {
  total_conversions : Z;
  average_conversion_value : float;
  conversion_rate : float;
  high_value_revenue : float;
  medium_value_revenue : float;
  low_value_revenue : float;
  high_value_conversions : Z;
  medium_value_conversions : Z;
  low_value_conversions : Z
}.

Inductive Segment := high_value | medium_value | low_value.

Definition segment_eqb (a b : Segment) : bool :=
  match a, b with
  | high_value, high_value | medium_value, medium_value
  | low_value, low_value => true
  | _, _ => false
  end.

(** The segment assigned in the loop of [_calculate_roi_breakdown]. *)
Definition segment_of (c : Conversion) : Segment :=
  if PrimFloat.leb 150 (revenue c) then high_value
  else if PrimFloat.leb 80 (revenue c) then medium_value
  else low_value.

Definition segment_revenue (s : Segment) (cs : list Conversion) : float :=
  fold_left (fun acc c => if segment_eqb (segment_of c) s
                          then (acc + revenue c)%float else acc) cs 0%float.

Definition segment_conversions (s : Segment) (cs : list Conversion) : Z :=
  fold_left (fun acc c => if segment_eqb (segment_of c) s
                          then (acc + 1)%Z else acc) cs 0%Z.

Definition _calculate_roi_breakdown (self : ROITracker) (campaign_id : string)
    : Breakdown :=
  let conversions := get_list (conversion_tracking self) campaign_id in
  {| total_conversions := Py.len conversions;
     average_conversion_value :=
       match conversions with
       | [] => 0%float
       | _ => Np.mean (map revenue conversions)
       end;
     conversion_rate :=
       match conversions with
       | [] => 0%float
       | _ => (Py.float_of_Z (Py.len conversions) / 650)%float
       end;
     high_value_revenue := segment_revenue high_value conversions;
     medium_value_revenue := segment_revenue medium_value conversions;
     low_value_revenue := segment_revenue low_value conversions;
     high_value_conversions := segment_conversions high_value conversions;
     medium_value_conversions := segment_conversions medium_value conversions;
     low_value_conversions := segment_conversions low_value conversions |}.

(** The [projections] dict; [daily_revenue_trend] is a key of the second
    return only. *)
Record Projections := {
  projected_final_roi : float;
  confidence_level : float;
  projected_total_revenue : float;
  time_to_target : Z;
  daily_revenue_trend : option float
}.

Definition zero_projections : Projections :=
  {| projected_final_roi := 0; confidence_level := 0;
     projected_total_revenue := 0; time_to_target := 0;
     daily_revenue_trend := None |}.

(** The trailing window of revenues the confidence is computed over. *)
Definition revenue_values (conversions : list Conversion) : list float :=
  map revenue (Py.last_n 20 conversions).

(** [confidence_level] of [_generate_roi_projections]; the division is
    numpy's, which does not raise. *)
Definition confidence_of (values : list float) : float :=
  let revenue_std := if (1 <? length values)%nat then Np.std values else 0%float in
  let revenue_mean := match values with [] => 0%float | _ => Np.mean values end in
  if PrimFloat.ltb 0 revenue_mean
  then Py.max 0 (1 - revenue_std / revenue_mean)%float
  else 0%float.

(** [conversion_rate_trend], which the source computes and never uses, is
    left out: its divisor is at least 10. *)
Definition _generate_roi_projections (self : ROITracker) (campaign_id : string)
    (now : Z) : option Projections :=
  let conversions := get_list (conversion_tracking self) campaign_id in
  if (length conversions <? 10)%nat then Some zero_projections
  else
    let recent_conversions := Py.last_n 10 conversions in
    let days_elapsed :=
      match conversions with
      | c0 :: _ => Py.days (now - conv_timestamp c0)
      | [] => 1%Z
      end in
    let days_remaining := Z.max (21 - days_elapsed) 0 in
    current_daily_revenue ←
      Py.truediv_int (Py.sum (map revenue recent_conversions)) (Z.max days_elapsed 1);
    let projected_additional_revenue :=
      (current_daily_revenue * Py.float_of_Z days_remaining)%float in
    let current_total_revenue := Py.sum (get_list (revenue_tracking self) campaign_id) in
    let projected_total := (current_total_revenue + projected_additional_revenue)%float in
    let total_investment := Py.sum (get_list (investment_tracking self) campaign_id) in
    final_roi ←
      (if PrimFloat.ltb 0 total_investment
       then q ← Py.truediv (projected_total - total_investment)%float total_investment;
            Some (q * 100)%float
       else Some 0%float);
    Some {| projected_final_roi := final_roi;
            confidence_level := confidence_of (revenue_values conversions);
            projected_total_revenue := projected_total;
            time_to_target := days_remaining;
            daily_revenue_trend := Some current_daily_revenue |}.

Record ROICalculation := {
  campaign_id : string;
  total_investment : float;
  total_revenue : float;
  net_profit : float;
  roi_percentage : float;
  roi_ratio : float;
  calculation_timestamp : Z;
  breakdown : Breakdown;
  projections : Projections
}.

Definition calculate_real_time_roi (self : ROITracker) (cid : string) (now : Z)
    : option ROICalculation :=
  let total_investment := Py.sum (get_list (investment_tracking self) cid) in
  let total_revenue := Py.sum (get_list (revenue_tracking self) cid) in
  let net_profit := (total_revenue - total_investment)%float in
  roi_percentage ←
    (if PrimFloat.ltb 0 total_investment
     then q ← Py.truediv (total_revenue - total_investment)%float total_investment;
          Some (q * 100)%float
     else Some 0%float);
  roi_ratio ←
    (if PrimFloat.ltb 0 total_investment
     then Py.truediv total_revenue total_investment
     else Some 0%float);
  let breakdown := _calculate_roi_breakdown self cid in
  projections ← _generate_roi_projections self cid now;
  Some {| campaign_id := cid;
          total_investment := total_investment;
          total_revenue := total_revenue;
          net_profit := net_profit;
          roi_percentage := roi_percentage;
          roi_ratio := roi_ratio;
          calculation_timestamp := now;
          breakdown := breakdown;
          projections := projections |}.

(** ** monitoring.py: metrics and alerts *)

Inductive MetricType :=
  | RESPONSE_RATE | CONVERSION_RATE | ROI | COST_PER_ACQUISITION
  | MESSAGE_DELIVERY_RATE | ENGAGEMENT_SCORE | LIFETIME_VALUE | CHURN_RISK.

Definition MetricType_value (m : MetricType) : string :=
  match m with
  | RESPONSE_RATE => "response_rate"
  | CONVERSION_RATE => "conversion_rate"
  | ROI => "roi"
  | COST_PER_ACQUISITION => "cpa"
  | MESSAGE_DELIVERY_RATE => "delivery_rate"
  | ENGAGEMENT_SCORE => "engagement_score"
  | LIFETIME_VALUE => "lifetime_value"
  | CHURN_RISK => "churn_risk"
  end.

(** The members of [MetricType], in definition order. *)
Definition MetricType_members : list MetricType :=
  [RESPONSE_RATE; CONVERSION_RATE; ROI; COST_PER_ACQUISITION;
   MESSAGE_DELIVERY_RATE; ENGAGEMENT_SCORE; LIFETIME_VALUE; CHURN_RISK].

Definition MetricType_eqb (a b : MetricType) : bool :=
  String.eqb (MetricType_value a) (MetricType_value b).

Inductive AlertLevel := INFO | WARNING | CRITICAL | EMERGENCY.

Definition AlertLevel_value (l : AlertLevel) : string :=
  match l with
  | INFO => "info"
  | WARNING => "warning"
  | CRITICAL => "critical"
  | EMERGENCY => "emergency"
  end.

Definition AlertLevel_eqb (a b : AlertLevel) : bool :=
  String.eqb (AlertLevel_value a) (AlertLevel_value b).

Record MetricPoint := {
  mp_timestamp : Z;
  mp_metric_type : MetricType;
  mp_value : float;
  mp_campaign_id : string
}.

(** An [Alert].  Its [title] and [description], texts formatted from the
    same metric type and values, are left out. *)
Record Alert := {
  id : string;
  level : AlertLevel;
  metric_type : MetricType;
  current_value : float;
  threshold_value : float;
  alert_timestamp : Z;
  acknowledged : bool;
  actions_taken : list string
}.

(** The thresholds of one metric type: a dict in which each key may be
    absent. *)
Record Thresholds := {
  critical_low : option float;
  warning_low : option float;
  target : option float;
  warning_high : option float;
  critical_high : option float
}.

Definition mk_thresholds (cl wl tg wh ch : float) : Thresholds :=
  {| critical_low := Some cl; warning_low := Some wl; target := Some tg;
     warning_high := Some wh; critical_high := Some ch |}.

Definition _setup_default_thresholds (m : MetricType) : option Thresholds :=
  match m with
  | RESPONSE_RATE => Some (mk_thresholds 0.05 0.10 0.22 0.35 0.50)
  | CONVERSION_RATE => Some (mk_thresholds 0.02 0.05 0.144 0.25 0.40)
  | ROI => Some (mk_thresholds 500 1000 2250 4000 6000)
  | COST_PER_ACQUISITION => Some (mk_thresholds 10 25 50 75 100)
  | MESSAGE_DELIVERY_RATE => Some (mk_thresholds 0.85 0.92 0.98 1 1)
  | _ => None
  end.

(** [alert_callbacks] is left out: nothing in the repository registers a
    callback, and an exception of one is caught. *)
Record PerformanceMonitor := {
  metric_history : gmap string (list MetricPoint);
  alert_thresholds : MetricType -> option Thresholds;
  active_alerts : gmap string Alert;
  monitoring_active : bool
}.

Definition PerformanceMonitor_init : PerformanceMonitor :=
  {| metric_history := ∅;
     alert_thresholds := _setup_default_thresholds;
     active_alerts := ∅;
     monitoring_active := false |}.

Definition set_active_alerts (self : PerformanceMonitor) (a : gmap string Alert)
    : PerformanceMonitor :=
  {| metric_history := metric_history self;
     alert_thresholds := alert_thresholds self;
     active_alerts := a;
     monitoring_active := monitoring_active self |}.

Definition metric_key (campaign : string) (m : MetricType) : string :=
  campaign +:+ "_" +:+ MetricType_value m.

(** [deque(maxlen=1000).append]: the oldest point goes when the ring is full. *)
Definition deque_append {A} (maxlen : nat) (d : list A) (x : A) : list A :=
  if (maxlen <=? length d)%nat then skipn (S (length d) - maxlen) (d ++ [x])
  else d ++ [x].

Definition _process_metric (self : PerformanceMonitor) (campaign : string)
    (m : MetricType) (value : float) (now : Z) : PerformanceMonitor :=
  let point := {| mp_timestamp := now; mp_metric_type := m; mp_value := value;
                  mp_campaign_id := campaign |} in
  let key := metric_key campaign m in
  {| metric_history :=
       <[key := deque_append 1000 (get_list (metric_history self) key) point]>
         (metric_history self);
     alert_thresholds := alert_thresholds self;
     active_alerts := active_alerts self;
     monitoring_active := monitoring_active self |}.

(** [key in thresholds and value < thresholds[key]], with the threshold. *)
Definition below (value : float) (t : option float) : option float :=
  match t with
  | Some t => if PrimFloat.ltb value t then Some t else None
  | None => None
  end.

(** [key in thresholds and value > thresholds[key]], with the threshold. *)
Definition above (value : float) (t : option float) : option float :=
  match t with
  | Some t => if PrimFloat.ltb t value then Some t else None
  | None => None
  end.

(** The [if]/[elif] chain of [_evaluate_threshold]: the level and the
    threshold of the first test that holds. *)
Definition breach (value : float) (th : Thresholds) : option (AlertLevel * float) :=
  match below value (critical_low th) with
  | Some t => Some (CRITICAL, t)
  | None =>
  match above value (critical_high th) with
  | Some t => Some (CRITICAL, t)
  | None =>
  match below value (warning_low th) with
  | Some t => Some (WARNING, t)
  | None =>
  match above value (warning_high th) with
  | Some t => Some (WARNING, t)
  | None => None
  end end end end.

Definition _evaluate_threshold (campaign : string) (m : MetricType)
    (value : float) (th : Thresholds) (now : Z) : option Alert :=
  match breach value th with
  | Some (alert_level, threshold) =>
      Some {| id := campaign +:+ "_" +:+ MetricType_value m +:+ "_"
                    +:+ pretty (Py.timestamp_seconds now);
              level := alert_level;
              metric_type := m;
              current_value := value;
              threshold_value := threshold;
              alert_timestamp := now;
              acknowledged := false;
              actions_taken := [] |}
  | None => None
  end.

Definition automatic_actions (alert : Alert) : list string :=
  let low := PrimFloat.ltb (current_value alert) (threshold_value alert) in
  match metric_type alert with
  | RESPONSE_RATE =>
      if low then ["adjust_message_timing"; "increase_personalization";
                   "review_message_content"] else []
  | CONVERSION_RATE =>
      if low then ["strengthen_call_to_action"; "adjust_offer_strategy";
                   "review_target_segments"] else []
  | MESSAGE_DELIVERY_RATE =>
      if low then ["check_whatsapp_connection"; "reduce_sending_rate";
                   "validate_phone_numbers"] else []
  | _ => []
  end.

Definition set_actions_taken (actions : list string) (a : Alert) : Alert :=
  {| id := id a; level := level a; metric_type := metric_type a;
     current_value := current_value a; threshold_value := threshold_value a;
     alert_timestamp := alert_timestamp a; acknowledged := acknowledged a;
     actions_taken := actions |}.

(** [_take_automatic_action] writes [actions_taken] of the alert object,
    which is the object just stored under [alert.id]. *)
Definition _take_automatic_action (self : PerformanceMonitor) (alert : Alert)
    : PerformanceMonitor :=
  set_active_alerts self
    (alter (set_actions_taken (automatic_actions alert)) (id alert) (active_alerts self)).

Definition existing_alert_key (alert : Alert) : string :=
  MetricType_value (metric_type alert) +:+ "_" +:+ AlertLevel_value (level alert).

Definition _handle_alert (self : PerformanceMonitor) (alert : Alert)
    : PerformanceMonitor :=
  match active_alerts self !! existing_alert_key alert with
  | Some _ => self
  | None =>
      let self1 := set_active_alerts self (<[id alert := alert]> (active_alerts self)) in
      match level alert with
      | CRITICAL => _take_automatic_action self1 alert
      | _ => self1
      end
  end.

(** [metrics] is the dict of one sample, in its insertion order. *)
Definition _check_alert_conditions (self : PerformanceMonitor) (campaign : string)
    (metrics : list (MetricType * float)) (now : Z) : PerformanceMonitor :=
  fold_left
    (fun self '(m, value) =>
       match alert_thresholds self m with
       | Some th =>
           match _evaluate_threshold campaign m value th now with
           | Some alert => _handle_alert self alert
           | None => self
           end
       | None => self
       end)
    metrics self.

Definition set_acknowledged (a : Alert) : Alert :=
  {| id := id a; level := level a; metric_type := metric_type a;
     current_value := current_value a; threshold_value := threshold_value a;
     alert_timestamp := alert_timestamp a; acknowledged := true;
     actions_taken := actions_taken a |}.

Definition acknowledge_alert (self : PerformanceMonitor) (alert_id : string)
    : PerformanceMonitor * bool :=
  match active_alerts self !! alert_id with
  | Some _ =>
      (set_active_alerts self (alter set_acknowledged alert_id (active_alerts self)), true)
  | None => (self, false)
  end.

(** The alerts of [active_alerts.values()] that are not acknowledged and
    have the given metric type and level. *)
Definition unacknowledged (self : PerformanceMonitor) (m : MetricType)
    (l : AlertLevel) : list Alert :=
  filter (fun a => negb (acknowledged a) && MetricType_eqb (metric_type a) m
                   && AlertLevel_eqb (level a) l = true)
         (snd <$> map_to_list (active_alerts self)).

(** One entry of [summary["metrics"]]. *)
Record MetricStats := {
  current : float;
  average : float;
  stat_min : float;
  stat_max : float;
  stat_std : float;
  count : Z
}.

(** One entry of [summary["trends"]]. *)
Record Trend := {
  direction : string;
  slope : float;
  strength : string
}.

(** The performance summary.  [metrics] and [trends] are dicts keyed by
    [metric_type.value], kept in insertion order. *)
Record PerformanceSummary := {
  summary_campaign_id : string;
  time_range_hours : float;
  metrics : list (string * MetricStats);
  trends : list (string * Trend);
  alerts_active : Z;
  alerts_critical : Z;
  alerts_warnings : Z
}.

(** [d.get(k)] on an insertion-ordered dict. *)
Fixpoint dict_get {A} (d : list (string * A)) (k : string) : option A :=
  match d with
  | [] => None
  | (k', v) :: rest => if String.eqb k' k then Some v else dict_get rest k
  end.

Definition last_value (values : list float) : float := List.last values 0%float.

Definition stats_of (values : list float) : MetricStats :=
  {| current := last_value values;
     average := Np.mean values;
     stat_min := Np.amin values;
     stat_max := Np.amax values;
     stat_std := Np.std values;
     count := Py.len values |}.

Definition trend_of (values : list float) : Trend :=
  let trend := Np.polyfit_slope values in
  {| direction := if PrimFloat.ltb 0 trend then "increasing" else "decreasing";
     slope := trend;
     strength := if PrimFloat.ltb (Np.std values * 0.5)%float (PrimFloat.abs trend)
                 then "strong" else "weak" |}.

(** The values of the points of one metric recorded since [cutoff_time]. *)
Definition recent_values (self : PerformanceMonitor) (campaign : string)
    (cutoff_time : Z) (m : MetricType) : list float :=
  map mp_value
    (List.filter (fun p => (cutoff_time <=? mp_timestamp p)%Z)
       (get_list (metric_history self) (metric_key campaign m))).

Definition count_alerts (f : Alert -> bool) (self : PerformanceMonitor) : Z :=
  Py.len (List.filter f (snd <$> map_to_list (active_alerts self))).

(** [get_performance_summary].  The hours are
    [time_range.total_seconds() / 3600], for a range of less than 2^53
    microseconds (285 years), which has an exact float. *)
Definition get_performance_summary (self : PerformanceMonitor) (campaign : string)
    (time_range : Z) (now : Z) : PerformanceSummary :=
  let cutoff_time := (now - time_range)%Z in
  let with_points :=
    List.filter (fun m => negb (Nat.eqb (length (recent_values self campaign cutoff_time m)) 0))
      MetricType_members in
  {| summary_campaign_id := campaign;
     time_range_hours := (Py.float_of_Z time_range / 1000000 / 3600)%float;
     metrics :=
       map (fun m => (MetricType_value m,
                      stats_of (recent_values self campaign cutoff_time m)))
           with_points;
     trends :=
       map (fun m => (MetricType_value m,
                      trend_of (recent_values self campaign cutoff_time m)))
           (List.filter
              (fun m => (1 <? length (recent_values self campaign cutoff_time m))%nat)
              with_points);
     alerts_active := count_alerts (fun a => negb (acknowledged a)) self;
     alerts_critical :=
       count_alerts (fun a => AlertLevel_eqb (level a) CRITICAL && negb (acknowledged a)) self;
     alerts_warnings :=
       count_alerts (fun a => AlertLevel_eqb (level a) WARNING && negb (acknowledged a)) self |}.

(** ** monitoring.py: the optimization engine *)

(** An opportunity.  [detail] is the one further key of the dict
    ([estimated_improvement], [urgency] or [timeline]) with its value; the
    [reason], a text formatted from the numbers, is left out. *)
Record Opportunity := {
  action : string;
  potential_impact : string;
  detail : string * string
}.

Record Opportunities := {
  immediate_actions : list Opportunity;
  strategic_improvements : list Opportunity;
  risk_mitigation : list Opportunity;
  growth_opportunities : list Opportunity
}.

(** The opportunities found from a ROI calculation and a performance
    summary: the body of [analyze_optimization_opportunities] after its two
    reads. *)
Definition find_opportunities (roi_calc : ROICalculation)
    (performance_summary : PerformanceSummary) : Opportunities :=
  let roi_action :=
    if PrimFloat.ltb (roi_percentage roi_calc) 1500
    then [{| action := "improve_conversion_rate"; potential_impact := "high";
             detail := ("estimated_improvement", "15-25% ROI increase") |}]
    else [] in
  let timing_action :=
    match dict_get (metrics performance_summary) "response_rate" with
    | Some response_metrics =>
        if PrimFloat.ltb (current response_metrics) 0.15
        then [{| action := "optimize_message_timing"; potential_impact := "medium";
                 detail := ("estimated_improvement", "10-20% response rate increase") |}]
        else []
    | None => []
    end in
  let delivery_action :=
    match dict_get (metrics performance_summary) "message_delivery_rate" with
    | Some delivery_metrics =>
        if PrimFloat.ltb (current delivery_metrics) 0.95
        then [{| action := "investigate_delivery_issues"; potential_impact := "high";
                 detail := ("urgency", "immediate") |}]
        else []
    | None => []
    end in
  let declines :=
    flat_map
      (fun '(metric, trend_data) =>
         if String.eqb (direction trend_data) "decreasing"
            && String.eqb (strength trend_data) "strong"
         then [{| action := "reverse_" +:+ metric +:+ "_decline";
                  potential_impact := "medium";
                  detail := ("timeline", "7-14 days") |}]
         else [])
      (trends performance_summary) in
  let growth :=
    if PrimFloat.ltb 2000 (roi_percentage roi_calc)
    then [{| action := "scale_successful_segments"; potential_impact := "high";
             detail := ("estimated_improvement", "50-100% total ROI increase") |}]
    else [] in
  {| immediate_actions := roi_action ++ timing_action;
     strategic_improvements := declines;
     risk_mitigation := delivery_action;
     growth_opportunities := growth |}.

(** [min(a, b)]: the first argument unless the second is smaller. *)
Definition py_min (a b : float) : float := if PrimFloat.ltb b a then b else a.

Definition _calculate_priority_score (o : Opportunities) : float :=
  let score := 0%float in
  let score := (score + Py.float_of_Z (Py.len (immediate_actions o) * 10))%float in
  let score := (score + Py.float_of_Z (Py.len (risk_mitigation o) * 8))%float in
  let score := (score + Py.float_of_Z (Py.len (strategic_improvements o) * 6))%float in
  let score := (score + Py.float_of_Z (Py.len (growth_opportunities o) * 4))%float in
  py_min score 100.

(** The recommendations, each as its urgency label and action (the text
    after the action is the reason). *)
Definition _generate_recommendations (o : Opportunities) : list (string * string) :=
  map (fun item => ("URGENT", action item)) (risk_mitigation o)
  ++ map (fun item => ("HIGH", action item)) (immediate_actions o)
  ++ map (fun item => ("MEDIUM", action item)) (Py.first_n 3 (strategic_improvements o))
  ++ map (fun item => ("GROWTH", action item)) (Py.first_n 2 (growth_opportunities o)).

Record ImplementationResult := {
  impl_action : string;
  impl_campaign_id : string;
  impl_timestamp : Z;
  success : bool;
  changes_made : list string;
  expected_impact : list (string * string);
  monitoring_period : Z;
  error : option string
}.

Record OptimizationEngine := {
  roi_tracker : ROITracker;
  performance_monitor : PerformanceMonitor;
  optimization_history : list ImplementationResult
}.

Definition OptimizationEngine_init (r : ROITracker) (p : PerformanceMonitor)
    : OptimizationEngine :=
  {| roi_tracker := r; performance_monitor := p; optimization_history := [] |}.

Record Analysis := {
  analysis_timestamp : Z;
  analysis_campaign_id : string;
  current_roi_percentage : float;
  current_total_revenue : float;
  current_net_profit : float;
  opportunities : Opportunities;
  priority_score : float;
  recommended_next_steps : list (string * string)
}.

(** The default [time_range] of [get_performance_summary]: 24 hours. *)
Definition default_time_range : Z := 86400000000.

Definition analyze_optimization_opportunities (self : OptimizationEngine)
    (campaign : string) (now : Z) : option Analysis :=
  roi_calc ← calculate_real_time_roi (roi_tracker self) campaign now;
  let performance_summary :=
    get_performance_summary (performance_monitor self) campaign default_time_range now in
  let opportunities := find_opportunities roi_calc performance_summary in
  Some {| analysis_timestamp := now;
          analysis_campaign_id := campaign;
          current_roi_percentage := roi_percentage roi_calc;
          current_total_revenue := total_revenue roi_calc;
          current_net_profit := net_profit roi_calc;
          opportunities := opportunities;
          priority_score := _calculate_priority_score opportunities;
          recommended_next_steps := _generate_recommendations opportunities |}.

(** What one of the four action handlers returns: [success], [changes_made]
    and [expected_impact], merged into the result by [dict.update]. *)
Definition update_result (r : ImplementationResult) (ok : bool)
    (changes : list string) (impact : list (string * string)) : ImplementationResult :=
  {| impl_action := impl_action r; impl_campaign_id := impl_campaign_id r;
     impl_timestamp := impl_timestamp r; success := ok; changes_made := changes;
     expected_impact := impact; monitoring_period := monitoring_period r;
     error := error r |}.

Definition set_error (r : ImplementationResult) (e : string) : ImplementationResult :=
  {| impl_action := impl_action r; impl_campaign_id := impl_campaign_id r;
     impl_timestamp := impl_timestamp r; success := success r;
     changes_made := changes_made r; expected_impact := expected_impact r;
     monitoring_period := monitoring_period r; error := Some e |}.

Definition _improve_conversion_rate (r : ImplementationResult)
    : Py.Outcome ImplementationResult :=
  Py.Returned (update_result r true
    ["Enhanced call-to-action messages"; "Added urgency elements to offers";
     "Improved personalization based on student history";
     "Adjusted offer timing to peak engagement hours"]
    [("conversion_rate_increase", "15-25%"); ("roi_improvement", "200-400 points");
     ("timeline", "3-7 days")]).

Definition _optimize_message_timing (r : ImplementationResult)
    : Py.Outcome ImplementationResult :=
  Py.Returned (update_result r true
    ["Shifted send times to peak response windows";
     "Implemented A/B testing for timing optimization";
     "Added timezone-aware scheduling";
     "Reduced frequency during low-engagement periods"]
    [("response_rate_increase", "10-20%"); ("engagement_improvement", "15-30%");
     ("timeline", "1-3 days")]).

Definition _investigate_delivery_issues (r : ImplementationResult)
    : Py.Outcome ImplementationResult :=
  Py.Returned (update_result r true
    ["Validated WhatsApp Business API connection"; "Cleaned invalid phone number list";
     "Implemented retry logic for failed deliveries"; "Added delivery status monitoring"]
    [("delivery_rate_improvement", "5-10%"); ("message_reach_increase", "8-15%");
     ("timeline", "immediate")]).

Definition _scale_successful_segments (r : ImplementationResult)
    : Py.Outcome ImplementationResult :=
  Py.Returned (update_result r true
    ["Identified top-performing segments";
     "Allocated additional budget to high-ROI segments";
     "Replicated successful message templates";
     "Expanded target audience within successful criteria"]
    [("total_revenue_increase", "50-100%"); ("roi_multiplication", "1.5-2.0x");
     ("timeline", "7-14 days")]).

Definition record_in_history (self : OptimizationEngine) (r : ImplementationResult)
    : OptimizationEngine :=
  {| roi_tracker := roi_tracker self;
     performance_monitor := performance_monitor self;
     optimization_history := optimization_history self ++ [r] |}.

(** [implement_optimization].  [dispatched] is the [if]/[elif] chain inside
    the [try]: the handler's outcome for a known action, nothing for an unknown
    one, which returns from inside the [try] with the error set.  An exception
    of a handler is caught and its text stored as the error. *)
Definition implement_optimization (self : OptimizationEngine) (campaign : string)
    (optimization_action : string) (now : Z)
    : OptimizationEngine * Py.Outcome ImplementationResult :=
  let implementation_result :=
    {| impl_action := optimization_action; impl_campaign_id := campaign;
       impl_timestamp := now; success := false; changes_made := [];
       expected_impact := []; monitoring_period := 24; error := None |} in
  let dispatched :=
    if String.eqb optimization_action "improve_conversion_rate"
    then Some (_improve_conversion_rate implementation_result)
    else if String.eqb optimization_action "optimize_message_timing"
    then Some (_optimize_message_timing implementation_result)
    else if String.eqb optimization_action "investigate_delivery_issues"
    then Some (_investigate_delivery_issues implementation_result)
    else if String.eqb optimization_action "scale_successful_segments"
    then Some (_scale_successful_segments implementation_result)
    else None in
  match dispatched with
  | None =>
      (self, Py.Returned (set_error implementation_result
                            ("Unknown optimization action: " +:+ optimization_action)))
  | Some (Py.Returned r) => (record_in_history self r, Py.Returned r)
  | Some (Py.Raised e) => (self, Py.Returned (set_error implementation_result e))
  end.

End Monitoring.


(** ** error_handling.py *)

Module ErrorHandling.

Inductive ErrorSeverity := LOW | MEDIUM | HIGH | CRITICAL | FATAL.

Inductive ErrorCategory :=
  | NETWORK | API | DATABASE | AUTHENTICATION | RATE_LIMITING
  | DATA_VALIDATION | BUSINESS_LOGIC | SYSTEM | EXTERNAL_SERVICE.

Definition ErrorCategory_value (c : ErrorCategory) : string :=
  match c with
  | NETWORK => "network"
  | API => "api"
  | DATABASE => "database"
  | AUTHENTICATION => "authentication"
  | RATE_LIMITING => "rate_limiting"
  | DATA_VALIDATION => "data_validation"
  | BUSINESS_LOGIC => "business_logic"
  | SYSTEM => "system"
  | EXTERNAL_SERVICE => "external_service"
  end.

Inductive RecoveryStrategy :=
  | RETRY | RETRY_WITH_BACKOFF | FALLBACK | CIRCUIT_BREAKER
  | GRACEFUL_DEGRADATION | ESCALATION | MANUAL_INTERVENTION | IGNORE.

Definition RecoveryStrategy_value (s : RecoveryStrategy) : string :=
  match s with
  | RETRY => "retry"
  | RETRY_WITH_BACKOFF => "retry_with_backoff"
  | FALLBACK => "fallback"
  | CIRCUIT_BREAKER => "circuit_breaker"
  | GRACEFUL_DEGRADATION => "graceful_degradation"
  | ESCALATION => "escalation"
  | MANUAL_INTERVENTION => "manual_intervention"
  | IGNORE => "ignore"
  end.

(** An [ErrorContext]; [user_data], an arbitrary dict that the engine never
    reads, is left out. *)
Record ErrorContext := {
  ctx_error_id : string;
  timestamp : Z;
  campaign_id : option string;
  workflow_id : option string;
  step_id : option string;
  component : option string;
  operation : option string
}.

(** An exception object: the name of its class, the names of the classes it
    inherits from, and [str(error)]. *)
Record PyException := {
  class_name : string;
  bases : list string;
  str_error : string
}.

(** [isinstance(error, (c1, c2))] *)
Definition isinstance (error : PyException) (classes : list string) : bool :=
  existsb (fun c => String.eqb c (class_name error)
                    || existsb (String.eqb c) (bases error)) classes.

(** An [ErrorRecord]; [stack_trace] and [metadata], which the engine writes
    once and never reads, are left out. *)
Record ErrorRecord := {
  error_id : string;
  error_type : string;
  error_message : string;
  severity : ErrorSeverity;
  category : ErrorCategory;
  context : ErrorContext;
  recovery_strategy : RecoveryStrategy;
  recovery_attempts : Z;
  max_recovery_attempts : Z;
  recovery_success : bool;
  resolution_time : option Z
}.

Definition set_recovery_strategy (s : RecoveryStrategy) (r : ErrorRecord) : ErrorRecord :=
  {| error_id := error_id r; error_type := error_type r;
     error_message := error_message r; severity := severity r;
     category := category r; context := context r;
     recovery_strategy := s;
     recovery_attempts := recovery_attempts r;
     max_recovery_attempts := max_recovery_attempts r;
     recovery_success := recovery_success r;
     resolution_time := resolution_time r |}.

Inductive BreakerState := closed | open | half_open.

(** One entry of [circuit_breakers]: the dict of a component. *)
Record CircuitBreaker := {
  state : BreakerState;
  failure_count : Z;
  failure_threshold : Z;
  timeout : Z;
  last_failure : option Z
}.

(** One entry of [recovery_history]. *)
Record RecoveryEntry := {
  entry_error_id : string;
  entry_strategy : RecoveryStrategy;
  entry_success : bool;
  entry_timestamp : Z
}.

(** The engine.  The record of an error is one object, held by
    [error_registry] and by a list of [error_patterns]; the engine writes
    its final value in both.  [error_callbacks] is left out: nothing in the
    repository registers one, and an exception of one is caught. *)
Record ErrorHandlingEngine := {
  error_registry : gmap string ErrorRecord;
  error_patterns : gmap string (list ErrorRecord);
  circuit_breakers : gmap string CircuitBreaker;
  recovery_history : list RecoveryEntry
}.

Definition ErrorHandlingEngine_init : ErrorHandlingEngine :=
  {| error_registry := ∅; error_patterns := ∅; circuit_breakers := ∅;
     recovery_history := [] |}.

(** A truthy optional string: neither [None] nor empty. *)
Definition truthy (s : option string) : bool :=
  match s with
  | Some EmptyString | None => false
  | Some _ => true
  end.

Definition _classify_error_severity (error : PyException) (ctx : ErrorContext)
    : ErrorSeverity :=
  let text := Py.lower (str_error error) in
  if isinstance error ["ConnectionError"; "TimeoutError"] && truthy (campaign_id ctx)
  then CRITICAL
  else if isinstance error ["ValueError"; "KeyError"] && Py.contains "authentication" text
  then HIGH
  else if Py.contains "api" text || Py.contains "http" text
  then MEDIUM
  else MEDIUM.

Definition _classify_error_category (error : PyException) (ctx : ErrorContext)
    : ErrorCategory :=
  let error_message := Py.lower (str_error error) in
  if isinstance error ["ConnectionError"; "TimeoutError"] then NETWORK
  else if Py.contains "authentication" error_message
          || Py.contains "unauthorized" error_message then AUTHENTICATION
  else if Py.contains "rate limit" error_message
          || Py.contains "429" error_message then RATE_LIMITING
  else if Py.contains "database" error_message
          || Py.contains "sql" error_message then DATABASE
  else if Py.contains "api" error_message
          || Py.contains "http" error_message then API
  else if isinstance error ["ValueError"; "TypeError"] then DATA_VALIDATION
  else SYSTEM.

(** One hour, as a [timedelta]. *)
Definition one_hour : Z := 3600000000.

(** The errors of a pattern list raised less than an hour before [now]. *)
Definition recent_errors (errors : list ErrorRecord) (now : Z) : list ErrorRecord :=
  List.filter (fun err => (now - timestamp (context err) <? one_hour)%Z) errors.

Definition pattern_key (r : ErrorRecord) : string :=
  error_type r +:+ "_" +:+ ErrorCategory_value (category r).

(** [_analyze_error_patterns]: the record joins the list of its pattern, and
    its strategy is escalated when the list has five recent errors.  The
    result is the pattern lists and the record as the call leaves it. *)
Definition _analyze_error_patterns (patterns : gmap string (list ErrorRecord))
    (error_record : ErrorRecord) (now : Z)
    : gmap string (list ErrorRecord) * ErrorRecord :=
  let key := pattern_key error_record in
  let errors := Monitoring.get_list patterns key ++ [error_record] in
  let error_record' :=
    if (5 <=? length (recent_errors errors now))%nat
    then match recovery_strategy error_record with
         | RETRY => set_recovery_strategy CIRCUIT_BREAKER error_record
         | _ => error_record
         end
    else error_record in
  (<[key := Monitoring.get_list patterns key ++ [error_record']]> patterns, error_record').

Definition _determine_recovery_strategy (error_record : ErrorRecord) : RecoveryStrategy :=
  match severity error_record with
  | FATAL => MANUAL_INTERVENTION
  | _ =>
    match category error_record with
    | NETWORK => RETRY_WITH_BACKOFF
    | RATE_LIMITING => CIRCUIT_BREAKER
    | AUTHENTICATION => ESCALATION
    | API => FALLBACK
    | DATABASE => RETRY_WITH_BACKOFF
    | _ => RETRY
    end
  end.

(** What a recovery handler returns. *)
Record RecoveryResult := {
  success : bool;
  action : string;
  next_steps : list string;
  recommendations : list string;
  circuit_state : option BreakerState;
  reported_failure_count : option Z;
  backoff_time : option Z;
  alternative : option string;
  error : option string
}.

Definition plain_result (act : string) (steps recs : list string) : RecoveryResult :=
  {| success := true; action := act; next_steps := steps; recommendations := recs;
     circuit_state := None; reported_failure_count := None; backoff_time := None;
     alternative := None; error := None |}.

Definition _handle_simple_retry (error_record : ErrorRecord) : RecoveryResult :=
  plain_result "retry_operation" ["Re-execute the failed operation"]
    ["Monitor for repeated failures"].

Definition _handle_backoff_retry (error_record : ErrorRecord) : RecoveryResult :=
  let backoff := Z.min (2 ^ recovery_attempts error_record) 60 in
  {| success := true; action := "retry_with_backoff";
     next_steps := ["Retry after " +:+ pretty backoff +:+ " seconds"];
     recommendations := ["Monitor network stability"; "Check service status"];
     circuit_state := None; reported_failure_count := None;
     backoff_time := Some backoff; alternative := None; error := None |}.

Definition _handle_fallback (error_record : ErrorRecord) : RecoveryResult :=
  let fallback_action :=
    match category error_record with
    | API => "Switch to backup API endpoint"
    | NETWORK => "Use alternative communication channel"
    | DATABASE => "Use cached data temporarily"
    | EXTERNAL_SERVICE => "Switch to secondary service provider"
    | _ => "Use alternative processing method"
    end in
  {| success := true; action := "fallback_method";
     next_steps := [fallback_action; "Monitor primary system recovery"];
     recommendations := ["Investigate root cause"; "Prepare for failback"];
     circuit_state := None; reported_failure_count := None; backoff_time := None;
     alternative := Some fallback_action; error := None |}.

Definition _handle_graceful_degradation (error_record : ErrorRecord) : RecoveryResult :=
  let strategy :=
    match category error_record with
    | API => "Reduce API call frequency"
    | DATABASE => "Use read-only operations"
    | NETWORK => "Enable offline mode"
    | EXTERNAL_SERVICE => "Disable non-essential features"
    | _ => "Reduce system functionality"
    end in
  {| success := true; action := "graceful_degradation";
     next_steps := [strategy; "Maintain core functionality";
                    "Monitor for service recovery"];
     recommendations := ["Notify users of limited functionality";
                         "Prepare for full service restoration"];
     circuit_state := None; reported_failure_count := None; backoff_time := None;
     alternative := Some strategy; error := None |}.

(** The breaker a component starts with. *)
Definition new_breaker : CircuitBreaker :=
  {| state := closed; failure_count := 0; failure_threshold := 5;
     timeout := 300000000; last_failure := None |}.

Definition component_of (error_record : ErrorRecord) : string :=
  match component (context error_record) with
  | Some (String c rest) => String c rest
  | _ => "unknown_component"
  end.

(** The breaker after one more failure at [now]. *)
Definition record_failure (b : CircuitBreaker) (now : Z) : CircuitBreaker :=
  let n := (failure_count b + 1)%Z in
  {| state := if (failure_threshold b <=? n)%Z then open else state b;
     failure_count := n;
     failure_threshold := failure_threshold b;
     timeout := timeout b;
     last_failure := Some now |}.

Definition _handle_circuit_breaker (breakers : gmap string CircuitBreaker)
    (error_record : ErrorRecord) (now : Z)
    : gmap string CircuitBreaker * RecoveryResult :=
  let comp := component_of error_record in
  let circuit_breaker := record_failure (default new_breaker (breakers !! comp)) now in
  (<[comp := circuit_breaker]> breakers,
   if (failure_threshold circuit_breaker <=? failure_count circuit_breaker)%Z
   then {| success := true; action := "circuit_breaker_open";
           next_steps := ["Circuit breaker opened for " +:+ comp;
                          "Redirect traffic to alternatives";
                          "Wait 0:05:00 before retry"];
           recommendations := ["Investigate service issues"; "Monitor service recovery";
                               "Prepare manual intervention if needed"];
           circuit_state := Some open; reported_failure_count := None;
           backoff_time := None; alternative := None; error := None |}
   else {| success := true; action := "circuit_breaker_count";
           next_steps := ["Continue monitoring"; "Prepare for circuit breaker activation"];
           recommendations := ["Monitor failure rate closely"];
           circuit_state := Some closed;
           reported_failure_count := Some (failure_count circuit_breaker);
           backoff_time := None; alternative := None; error := None |}).

(** [deque(maxlen=1000).append] on the recovery history. *)
Definition history_append (h : list RecoveryEntry) (e : RecoveryEntry) : list RecoveryEntry :=
  Monitoring.deque_append 1000 h e.

(** The record after a handler ran: success and resolution time when the
    handler reports success, one more attempt. *)
Definition after_recovery (r : ErrorRecord) (ok : bool) (now : Z) : ErrorRecord :=
  {| error_id := error_id r; error_type := error_type r;
     error_message := error_message r; severity := severity r;
     category := category r; context := context r;
     recovery_strategy := recovery_strategy r;
     recovery_attempts := recovery_attempts r + 1;
     max_recovery_attempts := max_recovery_attempts r;
     recovery_success := if ok then true else recovery_success r;
     resolution_time := if ok then Some now else resolution_time r |}.

(** [_execute_recovery]: the breakers, the history, the record and the
    result.  Strategies without a registered action (escalation, manual
    intervention, ignore) return the failure result and change nothing.  The
    handlers return literal dicts, so nothing reaches the [except] branch. *)
Definition _execute_recovery (breakers : gmap string CircuitBreaker)
    (history : list RecoveryEntry) (error_record : ErrorRecord) (now : Z)
    : gmap string CircuitBreaker * list RecoveryEntry * ErrorRecord * RecoveryResult :=
  let handled :=
    match recovery_strategy error_record with
    | RETRY => Some (breakers, _handle_simple_retry error_record)
    | RETRY_WITH_BACKOFF => Some (breakers, _handle_backoff_retry error_record)
    | FALLBACK => Some (breakers, _handle_fallback error_record)
    | CIRCUIT_BREAKER => Some (_handle_circuit_breaker breakers error_record now)
    | GRACEFUL_DEGRADATION => Some (breakers, _handle_graceful_degradation error_record)
    | ESCALATION | MANUAL_INTERVENTION | IGNORE => None
    end in
  match handled with
  | None =>
      (breakers, history, error_record,
       {| success := false; action := ""; next_steps := []; recommendations := [];
          circuit_state := None; reported_failure_count := None; backoff_time := None;
          alternative := None;
          error := Some ("No recovery action defined for "
                         +:+ RecoveryStrategy_value (recovery_strategy error_record)) |})
  | Some (breakers', result) =>
      let error_record' := after_recovery error_record (success result) now in
      (breakers',
       history_append history
         {| entry_error_id := error_id error_record';
            entry_strategy := recovery_strategy error_record';
            entry_success := success result;
            entry_timestamp := now |},
       error_record', result)
  end.

(** The dict [handle_error] returns; [recovery_time], the seconds the
    handler took, is left out. *)
Record HandleResult := {
  result_error_id : string;
  result_severity : ErrorSeverity;
  result_category : ErrorCategory;
  result_recovery_strategy : RecoveryStrategy;
  result_recovery_success : bool;
  result_next_steps : list string
}.

Section WithHash.

(** Python's [hash] of a string, which differs from process to process. *)
Variable hash : string -> Z.

Definition _create_error_record (error : PyException) (ctx : ErrorContext) (now : Z)
    : ErrorRecord :=
  {| error_id := "err_" +:+ pretty (Py.timestamp_seconds now) +:+ "_"
                 +:+ pretty (hash (str_error error) mod 10000)%Z;
     error_type := class_name error;
     error_message := str_error error;
     severity := _classify_error_severity error ctx;
     category := _classify_error_category error ctx;
     context := ctx;
     recovery_strategy := RETRY;
     recovery_attempts := 0;
     max_recovery_attempts := 3;
     recovery_success := false;
     resolution_time := None |}.

(** [handle_error], with one reading [now] of the clock for the whole call:
    the only test on the clock is the one of [_analyze_error_patterns]. *)
Definition handle_error (self : ErrorHandlingEngine) (error : PyException)
    (ctx : ErrorContext) (now : Z) : ErrorHandlingEngine * HandleResult :=
  let error_record := _create_error_record error ctx now in
  let '(patterns, error_record) :=
    _analyze_error_patterns (error_patterns self) error_record now in
  let strategy := _determine_recovery_strategy error_record in
  let error_record := set_recovery_strategy strategy error_record in
  let '(breakers, history, error_record, recovery_result) :=
    _execute_recovery (circuit_breakers self) (recovery_history self) error_record now in
  let key := pattern_key error_record in
  ({| error_registry := <[error_id error_record := error_record]> (error_registry self);
      error_patterns :=
        <[key := Monitoring.get_list (error_patterns self) key ++ [error_record]]> patterns;
      circuit_breakers := breakers;
      recovery_history := history |},
   {| result_error_id := error_id error_record;
      result_severity := severity error_record;
      result_category := category error_record;
      result_recovery_strategy := strategy;
      result_recovery_success := success recovery_result;
      result_next_steps := next_steps recovery_result |}).

End WithHash.

(** One entry of the status dict. *)
Record BreakerStatus := {
  status_state : BreakerState;
  status_failure_count : Z;
  status_last_failure : option Z
}.

(** [_get_circuit_breaker_status]: a read of the breakers; it takes no
    clock reading and writes nothing. *)
Definition _get_circuit_breaker_status (self : ErrorHandlingEngine)
    : gmap string BreakerStatus :=
  (fun breaker =>
     {| status_state := state breaker;
        status_failure_count := failure_count breaker;
        status_last_failure := last_failure breaker |}) <$> circuit_breakers self.

Definition reset_breaker (b : CircuitBreaker) : CircuitBreaker :=
  {| state := closed; failure_count := 0;
     failure_threshold := failure_threshold b; timeout := timeout b;
     last_failure := None |}.

Definition reset_circuit_breaker (self : ErrorHandlingEngine) (comp : string)
    : ErrorHandlingEngine * bool :=
  match circuit_breakers self !! comp with
  | Some _ =>
      ({| error_registry := error_registry self;
          error_patterns := error_patterns self;
          circuit_breakers := alter reset_breaker comp (circuit_breakers self);
          recovery_history := recovery_history self |}, true)
  | None => (self, false)
  end.

End ErrorHandling.

(** ** thinking.py *)

Module Thinking.

Inductive ThinkingStage :=
  | ANALYSIS | PLANNING | SEGMENTATION | OPTIMIZATION
  | EXECUTION | MONITORING | EVALUATION | ADAPTATION.

Inductive Priority := PRIORITY_CRITICAL | PRIORITY_HIGH | PRIORITY_MEDIUM | PRIORITY_LOW.

Inductive ThinkingStatus :=
  | PENDING | IN_PROGRESS | COMPLETED | FAILED | OPTIMIZING | ADAPTING.

Definition ThinkingStatus_eqb (a b : ThinkingStatus) : bool :=
  match a, b with
  | PENDING, PENDING | IN_PROGRESS, IN_PROGRESS | COMPLETED, COMPLETED
  | FAILED, FAILED | OPTIMIZING, OPTIMIZING | ADAPTING, ADAPTING => true
  | _, _ => false
  end.

(** The literal dict a stage handler returns, by its top-level key. *)
Inductive StepResult :=
  | segments_and_insights | patterns | analysis_complete
  | strategy | sequences_and_timing | planning_complete
  | segments_created
  | optimized_schedule | personalized_content | optimization_complete
  | campaign_launched | current_performance | roi_analysis | adaptations.

(** A [ThinkingStep]; [description], [metadata] and [timestamp], which the
    engine never reads, are left out.  Durations are in microseconds. *)
Record ThinkingStep := {
  id : string;
  stage : ThinkingStage;
  inputs : list string;
  outputs : list string;
  dependencies : list string;
  priority : Priority;
  estimated_duration : Z;
  actual_duration : option Z;
  status : ThinkingStatus;
  result : option StepResult;
  errors : list string
}.

Definition minutes (n : Z) : Z := (n * 60000000)%Z.

(** The constructor call [ThinkingStep(id=..., ...)] with the defaults of
    the dataclass for the fields it does not name. *)
Definition new_step (i : string) (st : ThinkingStage) (ins outs deps : list string)
    (p : Priority) (d : Z) : ThinkingStep :=
  {| id := i; stage := st; inputs := ins; outputs := outs; dependencies := deps;
     priority := p; estimated_duration := d; actual_duration := None;
     status := PENDING; result := None; errors := [] |}.

(** [WhatsAppCampaignThinking._generate_campaign_steps] *)
Definition _generate_campaign_steps : list ThinkingStep :=
  [ new_step "analyze_audience_data" ANALYSIS
      ["google_sheets_data"; "historical_campaign_data"]
      ["audience_segments"; "demographic_insights"]
      [] PRIORITY_CRITICAL (minutes 10);
    new_step "analyze_historical_performance" ANALYSIS
      ["historical_campaign_data"; "conversion_data"]
      ["performance_patterns"; "success_factors"]
      ["analyze_audience_data"] PRIORITY_HIGH (minutes 15);
    new_step "plan_segmentation_strategy" PLANNING
      ["audience_segments"; "performance_patterns"]
      ["segmentation_plan"; "targeting_criteria"]
      ["analyze_audience_data"; "analyze_historical_performance"]
      PRIORITY_CRITICAL (minutes 20);
    new_step "plan_message_sequences" PLANNING
      ["segmentation_plan"; "audience_behavior_data"]
      ["message_sequences"; "timing_strategy"]
      ["plan_segmentation_strategy"] PRIORITY_HIGH (minutes 30);
    new_step "execute_smart_segmentation" SEGMENTATION
      ["segmentation_plan"; "audience_data"]
      ["segmented_audiences"; "segment_priorities"]
      ["plan_segmentation_strategy"] PRIORITY_CRITICAL (minutes 15);
    new_step "optimize_message_timing" OPTIMIZATION
      ["timing_strategy"; "audience_behavior_patterns"]
      ["optimized_schedule"; "send_times"]
      ["plan_message_sequences"; "execute_smart_segmentation"]
      PRIORITY_HIGH (minutes 25);
    new_step "optimize_message_content" OPTIMIZATION
      ["message_sequences"; "segment_preferences"]
      ["personalized_messages"; "content_variants"]
      ["execute_smart_segmentation"] PRIORITY_HIGH (minutes 20);
    new_step "execute_campaign_launch" EXECUTION
      ["optimized_schedule"; "personalized_messages"; "segmented_audiences"]
      ["campaign_status"; "initial_metrics"]
      ["optimize_message_timing"; "optimize_message_content"]
      PRIORITY_CRITICAL (minutes 60);
    new_step "monitor_real_time_performance" MONITORING
      ["campaign_status"; "live_metrics"]
      ["performance_alerts"; "optimization_recommendations"]
      ["execute_campaign_launch"] PRIORITY_CRITICAL (minutes 1440);
    new_step "evaluate_roi_performance" EVALUATION
      ["performance_metrics"; "conversion_data"]
      ["roi_analysis"; "performance_report"]
      ["monitor_real_time_performance"] PRIORITY_HIGH (minutes 30);
    new_step "adapt_strategy_realtime" ADAPTATION
      ["performance_alerts"; "optimization_recommendations"]
      ["strategy_adjustments"; "updated_parameters"]
      ["evaluate_roi_performance"] PRIORITY_HIGH (minutes 15) ].

(** [_execute_step_logic]: the handler of the stage.  Every member of
    [ThinkingStage] has one, so the final [raise] is out of reach. *)
Definition _execute_step_logic (step : ThinkingStep) : Py.Outcome StepResult :=
  match stage step with
  | ANALYSIS =>
      if Py.contains "audience_data" (id step) then Py.Returned segments_and_insights
      else if Py.contains "historical_performance" (id step) then Py.Returned patterns
      else Py.Returned analysis_complete
  | PLANNING =>
      if Py.contains "segmentation_strategy" (id step) then Py.Returned strategy
      else if Py.contains "message_sequences" (id step) then Py.Returned sequences_and_timing
      else Py.Returned planning_complete
  | SEGMENTATION => Py.Returned segments_created
  | OPTIMIZATION =>
      if Py.contains "timing" (id step) then Py.Returned optimized_schedule
      else if Py.contains "content" (id step) then Py.Returned personalized_content
      else Py.Returned optimization_complete
  | EXECUTION => Py.Returned campaign_launched
  | MONITORING => Py.Returned current_performance
  | EVALUATION => Py.Returned roi_analysis
  | ADAPTATION => Py.Returned adaptations
  end.

Definition set_status (s : ThinkingStatus) (step : ThinkingStep) : ThinkingStep :=
  {| id := id step; stage := stage step; inputs := inputs step;
     outputs := outputs step; dependencies := dependencies step;
     priority := priority step; estimated_duration := estimated_duration step;
     actual_duration := actual_duration step; status := s;
     result := result step; errors := errors step |}.

Definition complete (r : StepResult) (d : Z) (step : ThinkingStep) : ThinkingStep :=
  {| id := id step; stage := stage step; inputs := inputs step;
     outputs := outputs step; dependencies := dependencies step;
     priority := priority step; estimated_duration := estimated_duration step;
     actual_duration := Some d; status := COMPLETED;
     result := Some r; errors := errors step |}.

Definition fail (e : string) (d : Z) (step : ThinkingStep) : ThinkingStep :=
  {| id := id step; stage := stage step; inputs := inputs step;
     outputs := outputs step; dependencies := dependencies step;
     priority := priority step; estimated_duration := estimated_duration step;
     actual_duration := Some d; status := FAILED;
     result := result step; errors := errors step ++ [e] |}.

(** The dict [process_thinking_step] returns. *)
Record StepReport := {
  report_success : bool;
  report_step_id : string;
  report_result : option StepResult;
  report_error : option string;
  report_duration : Z
}.

(** What a call of [process_thinking_step] does to the steps of a pattern:
    [started] is the pattern right after the first assignment,
    [step.status = IN_PROGRESS]; [finished] is the pattern at the return. *)
Record StepRun := {
  started : list ThinkingStep;
  finished : list ThinkingStep;
  report : StepReport
}.

(** [process_thinking_step].  The step is an object of the pattern's
    [steps]: [steps] is that list and [i] the position of the object.  The
    call reads the clock at its start and at its end. *)
Definition process_thinking_step (steps : list ThinkingStep) (i : nat)
    (start_time end_time : Z) : option StepRun :=
  step ← steps !! i;
  let step1 := set_status IN_PROGRESS step in
  let duration := (end_time - start_time)%Z in
  Some
    match _execute_step_logic step1 with
    | Py.Returned r =>
        {| started := <[i := step1]> steps;
           finished := <[i := complete r duration step1]> steps;
           report := {| report_success := true; report_step_id := id step1;
                        report_result := Some r; report_error := None;
                        report_duration := duration |} |}
    | Py.Raised e =>
        {| started := <[i := step1]> steps;
           finished := <[i := fail e duration step1]> steps;
           report := {| report_success := false; report_step_id := id step1;
                        report_result := None; report_error := Some e;
                        report_duration := duration |} |}
    end.

(** Every step named in [dependencies] of [step] is a step of the pattern
    whose status is [COMPLETED]. *)
Definition dependencies_completed (steps : list ThinkingStep) (step : ThinkingStep)
    : bool :=
  forallb
    (fun d => existsb (fun s => String.eqb (id s) d
                                && ThinkingStatus_eqb (status s) COMPLETED) steps)
    (dependencies step).

End Thinking.

(** ** Further functions of the three modules, and their callers *)

(** [sorted(l, key=..., reverse=True)] and slices with an [int] bound. *)
Module PySorted.

(** The place of [x] in a list sorted by descending key: after the elements
    with a greater key, before those with the same key. *)
Fixpoint insert_desc {A} (key : A -> Z) (x : A) (l : list A) : list A :=
  match l with
  | [] => [x]
  | y :: ys => if (key x <? key y)%Z then y :: insert_desc key x ys else x :: y :: ys
  end.

(** [sorted(l, key=key, reverse=True)]: descending keys, elements of equal
    key in their order in [l] (Python's sort is stable, also reversed). *)
Definition sorted_reverse {A} (key : A -> Z) (l : list A) : list A :=
  fold_right (insert_desc key) [] l.

(** [l[:n]] for an int [n]: a negative bound counts from the end. *)
Definition slice_to {A} (n : Z) (l : list A) : list A :=
  if (n <? 0)%Z then firstn (Z.to_nat (Py.len l + n)) l else firstn (Z.to_nat n) l.

End PySorted.

(** ** monitoring.py: [get_optimization_history] *)

Module OptimizationHistory.
Import Monitoring.

(** [get_optimization_history].  The key of the sort is the timestamp, the
    ISO text of a clock reading in the source; texts of one format order as
    the readings do. *)
Definition get_optimization_history (self : OptimizationEngine) (campaign : string)
    : list ImplementationResult :=
  let campaign_history :=
    List.filter (fun opt => String.eqb (impl_campaign_id opt) campaign)
      (optimization_history self) in
  PySorted.sorted_reverse impl_timestamp campaign_history.

End OptimizationHistory.

(** ** server.py: the [track_campaign_roi] tool *)

Module Server.
Import Monitoring.

(** The [conversion_data] dict of the arguments. *)
Record ConversionData := {
  data_student_id : option string;
  data_conversion_type : option string
}.

(** The arguments of the tool, each optional key as an option. *)
Record TrackArguments := {
  arg_campaign_id : string;
  arg_investment : option float;
  arg_investment_category : option string;
  arg_revenue : option float;
  arg_conversion_data : option ConversionData
}.

(** [_track_campaign_roi] on the server's [roi_tracker]: the tracker after
    the call and the calculation the tool reports.  [conversion_time] is the
    clock reading of [track_conversion], [now] the one of the calculation. *)
Definition _track_campaign_roi (tracker : ROITracker) (arguments : TrackArguments)
    (conversion_time now : Z) : ROITracker * option ROICalculation :=
  let campaign_id := arg_campaign_id arguments in
  let tracker :=
    match arg_investment arguments with
    | Some amount =>
        track_investment tracker campaign_id amount
          (default "operational" (arg_investment_category arguments))
    | None => tracker
    end in
  let tracker :=
    match arg_revenue arguments with
    | Some rev =>
        let conversion_data :=
          default {| data_student_id := None; data_conversion_type := None |}
                  (arg_conversion_data arguments) in
        track_conversion tracker campaign_id
          (default "unknown" (data_student_id conversion_data)) rev
          (default "reactivation" (data_conversion_type conversion_data))
          conversion_time
    | None => tracker
    end in
  (tracker, calculate_real_time_roi tracker campaign_id now).

(** The [error_context] dict of the [handle_error] tool. *)
Record ErrorContextData := {
  data_component : option string;
  data_operation : option string
}.

Record ErrorArguments := {
  arg_error_description : string;
  arg_error_context : option ErrorContextData;
  arg_error_campaign_id : option string
}.

(** [CampaignError(error_description)], of the class the tool declares. *)
Definition CampaignError (error_description : string) : ErrorHandling.PyException :=
  {| ErrorHandling.class_name := "CampaignError";
     ErrorHandling.bases := ["Exception"; "BaseException"; "object"];
     ErrorHandling.str_error := error_description |}.

(** The context the tool builds at [now]. *)
Definition tool_context (arguments : ErrorArguments) (now : Z)
    : ErrorHandling.ErrorContext :=
  let error_context_data :=
    default {| data_component := None; data_operation := None |}
            (arg_error_context arguments) in
  {| ErrorHandling.ctx_error_id := "";
     ErrorHandling.timestamp := now;
     ErrorHandling.campaign_id := arg_error_campaign_id arguments;
     ErrorHandling.workflow_id := None;
     ErrorHandling.step_id := None;
     ErrorHandling.component := Some (default "unknown" (data_component error_context_data));
     ErrorHandling.operation := Some (default "unknown" (data_operation error_context_data)) |}.

(** [_handle_error] on the server's [error_handler]; [hash] is Python's hash
    of a string.  [now] is the clock reading of the context, [handled_at]
    the one of [handle_error]. *)
Definition _handle_error (hash : string -> Z)
    (error_handler : ErrorHandling.ErrorHandlingEngine)
    (arguments : ErrorArguments) (now handled_at : Z)
    : ErrorHandling.ErrorHandlingEngine * ErrorHandling.HandleResult :=
  let error_context := tool_context arguments now in
  let error := CampaignError (arg_error_description arguments) in
  ErrorHandling.handle_error hash error_handler error error_context handled_at.

End Server.

(** ** error_handling.py: statistics and the resilient wrapper *)

Module ErrorStatistics.
Import ErrorHandling.

Definition ErrorSeverity_value (s : ErrorSeverity) : string :=
  match s with
  | LOW => "low"
  | MEDIUM => "medium"
  | HIGH => "high"
  | CRITICAL => "critical"
  | FATAL => "fatal"
  end.

(** [d[k] += 1] on a [defaultdict(int)], a dict in insertion order. *)
Fixpoint bump (k : string) (d : list (string * Z)) : list (string * Z) :=
  match d with
  | [] => [(k, 1%Z)]
  | (k', n) :: rest =>
      if String.eqb k' k then (k', (n + 1)%Z) :: rest else (k', n) :: bump k rest
  end.

(** The counting loop: one [bump] per error, by the key [f] gives. *)
Definition count_by {A} (f : A -> string) (errors : list A) : list (string * Z) :=
  fold_left (fun d e => bump (f e) d) errors [].

(** [_get_most_common_errors]: pairs of [error_type] and [count]. *)
Definition _get_most_common_errors (errors : list ErrorRecord) (limit : Z)
    : list (string * Z) :=
  let error_counts := count_by error_type errors in
  let sorted_errors := PySorted.sorted_reverse snd error_counts in
  PySorted.slice_to limit sorted_errors.

(** The keys the full dict has beyond the three of the short one. *)
Record StatisticsDetails := {
  recovery_success_rate : float;
  errors_by_severity : list (string * Z);
  errors_by_category : list (string * Z);
  most_common_errors : list (string * Z);
  circuit_breaker_status : gmap string BreakerStatus
}.

Record Statistics := {
  total_errors : Z;
  time_range_hours : float;
  error_rate : float;
  details : option StatisticsDetails
}.

(** [time_range.total_seconds() / 3600], for a range of less than 2^53
    microseconds (285 years), which has an exact float. *)
Definition hours_of (time_range : Z) : float :=
  (Py.float_of_Z time_range / 1000000 / 3600)%float.

(** [get_error_statistics], given [registry_values], the records of
    [self.error_registry.values()] in the order of the dict.  The division
    of [error_rate] is the only one that can raise. *)
Definition get_error_statistics (self : ErrorHandlingEngine)
    (registry_values : list ErrorRecord) (time_range now : Z)
    : Py.Outcome Statistics :=
  let cutoff_time := (now - time_range)%Z in
  let relevant_errors :=
    List.filter (fun e => (cutoff_time <=? timestamp (context e))%Z) registry_values in
  match relevant_errors with
  | [] =>
      Py.Returned {| total_errors := 0; time_range_hours := hours_of time_range;
                     error_rate := 0; details := None |}
  | _ =>
      let total_errors := Py.len relevant_errors in
      let errors_by_severity :=
        count_by (fun e => ErrorSeverity_value (severity e)) relevant_errors in
      let errors_by_category :=
        count_by (fun e => ErrorCategory_value (category e)) relevant_errors in
      let recovered := Py.len (List.filter recovery_success relevant_errors) in
      let recovery_success_rate :=
        if (0 <? total_errors)%Z
        then (Py.float_of_Z recovered / Py.float_of_Z total_errors)%float
        else 0%float in
      match Py.truediv (Py.float_of_Z total_errors) (hours_of time_range) with
      | None => Py.Raised "float division by zero"
      | Some error_rate =>
          Py.Returned
            {| total_errors := total_errors;
               time_range_hours := hours_of time_range;
               error_rate := error_rate;
               details :=
                 Some {| recovery_success_rate := recovery_success_rate;
                         errors_by_severity := errors_by_severity;
                         errors_by_category := errors_by_category;
                         most_common_errors := _get_most_common_errors relevant_errors 5;
                         circuit_breaker_status := _get_circuit_breaker_status self |} |}
      end
  end.

End ErrorStatistics.

Module Resilience.
Import ErrorHandling.

(** What one call of the wrapped function does: it returns, or it raises an
    [Exception], the exceptions the wrapper catches. *)
Inductive Attempt (A : Type) :=
  | Succeeds (a : A)
  | Fails (e : PyException).
Arguments Succeeds {A} a.
Arguments Fails {A} e.

(** What a call of the wrapper leaves behind: the engine of the wrapper, the
    outcome for the caller ([None] is what Python returns when the loop ends
    without a [return]), the number of calls of the wrapped function and
    the seconds slept, in order. *)
Record Run (A : Type) := {
  engine : ErrorHandlingEngine;
  outcome : Py.Outcome (option A);
  calls : nat;
  waits : list Z
}.
Arguments engine {A} r.
Arguments outcome {A} r.
Arguments calls {A} r.
Arguments waits {A} r.

Section Wrapper.

Variable hash : string -> Z.
Context {A : Type}.

(** The wrapped function as the wrapper sees it: what its call does at each
    attempt. *)
Variable func : nat -> Attempt A.

(** The clock reading taken when an attempt has failed. *)
Variable clock : nat -> Z.

Definition set_timestamp (ctx : ErrorContext) (t : Z) : ErrorContext :=
  {| ctx_error_id := ctx_error_id ctx; timestamp := t;
     campaign_id := campaign_id ctx; workflow_id := workflow_id ctx;
     step_id := step_id ctx; component := component ctx;
     operation := operation ctx |}.

(** The [for] loop over the attempts still to make. *)
Fixpoint attempts_loop (self : ErrorHandlingEngine) (ctx : ErrorContext)
    (max_retries : Z) (attempts : list nat) (made : nat) (slept : list Z) : Run A :=
  match attempts with
  | [] => {| engine := self; outcome := Py.Returned None; calls := made; waits := slept |}
  | attempt :: rest =>
      match func attempt with
      | Succeeds result =>
          {| engine := self; outcome := Py.Returned (Some result);
             calls := S made; waits := slept |}
      | Fails e =>
          let ctx := set_timestamp ctx (clock attempt) in
          if (Z.of_nat attempt =? max_retries)%Z
          then {| engine := fst (handle_error hash self e ctx (clock attempt));
                  outcome := Py.Raised (str_error e);
                  calls := S made; waits := slept |}
          else
            let wait_time := Z.min (2 ^ Z.of_nat attempt) 30 in
            attempts_loop self ctx max_retries rest (S made) (slept ++ [wait_time])
      end
  end.

(** The wrapper [resilient] builds around [func].  [entered] is the clock
    reading at the call; [kw_campaign_id] and [kw_workflow_id] are
    [kwargs.get] of these keys.  The [recovery_strategy] argument of
    [resilient] is not read by the wrapper. *)
Definition resilient (self : ErrorHandlingEngine) (operation_name comp : string)
    (max_retries : Z) (kw_campaign_id kw_workflow_id : option string) (entered : Z)
    : Run A :=
  let context :=
    {| ctx_error_id := ""; timestamp := entered;
       campaign_id := kw_campaign_id; workflow_id := kw_workflow_id;
       step_id := None; component := Some comp; operation := Some operation_name |} in
  attempts_loop self context max_retries (seq 0 (Z.to_nat (max_retries + 1))) 0 [].

End Wrapper.

End Resilience.

(** ** thinking.py: the status of a pattern *)

Module PatternStatus.
Import Thinking.

Definition ThinkingStage_value (s : ThinkingStage) : string :=
  match s with
  | ANALYSIS => "analysis"
  | PLANNING => "planning"
  | SEGMENTATION => "segmentation"
  | OPTIMIZATION => "optimization"
  | EXECUTION => "execution"
  | MONITORING => "monitoring"
  | EVALUATION => "evaluation"
  | ADAPTATION => "adaptation"
  end.

(** A [ThinkingPattern]: its name and its steps; the other fields are not
    read by the engine. *)
Record ThinkingPattern := {
  name : string;
  steps : list ThinkingStep
}.

(** The engine.  [completed_patterns], which nothing writes, is left out;
    an item of [thinking_queue] holds the id of its pattern, the pattern
    being the object stored in [active_patterns]. *)
Record ThinkingEngine := {
  active_patterns : gmap string ThinkingPattern;
  thinking_queue : list string
}.

Definition ThinkingEngine_init : ThinkingEngine :=
  {| active_patterns := ∅; thinking_queue := [] |}.

(** [start_thinking]; [stamp] is [datetime.now().isoformat()]. *)
Definition start_thinking (self : ThinkingEngine) (pattern : ThinkingPattern)
    (stamp : string) : ThinkingEngine * string :=
  let pattern_id := name pattern +:+ "_" +:+ stamp in
  ({| active_patterns := <[pattern_id := pattern]> (active_patterns self);
      thinking_queue := thinking_queue self ++ [pattern_id] |},
   pattern_id).

(** [sum(1 for step in steps if step.status == s)] *)
Definition count_status (s : ThinkingStatus) (l : list ThinkingStep) : Z :=
  Py.len (List.filter (fun step => ThinkingStatus_eqb (status step) s) l).

Fixpoint _get_current_stage (l : list ThinkingStep) : string :=
  match l with
  | [] => "completed"
  | step :: rest =>
      match status step with
      | IN_PROGRESS => ThinkingStage_value (stage step)
      | PENDING => ThinkingStage_value (stage step)
      | _ => _get_current_stage rest
      end
  end.

Definition _estimate_completion_time (l : list ThinkingStep) (now : Z) : Z :=
  let remaining_time :=
    fold_left
      (fun remaining step =>
         match status step with
         | PENDING | IN_PROGRESS => (remaining + estimated_duration step)%Z
         | _ => remaining
         end) l 0%Z in
  (now + remaining_time)%Z.

Record Status := {
  status_pattern_id : string;
  pattern_name : string;
  total_steps : Z;
  completed_steps : Z;
  failed_steps : Z;
  in_progress_steps : Z;
  progress_percentage : float;
  current_stage : string;
  estimated_completion : Z
}.

(** The two dicts [get_pattern_status] returns. *)
Inductive StatusReply :=
  | pattern_not_found
  | pattern_status (s : Status).

(** [get_pattern_status]: the quotient of the two ints raises for a pattern
    without steps. *)
Definition get_pattern_status (self : ThinkingEngine) (pattern_id : string) (now : Z)
    : Py.Outcome StatusReply :=
  match active_patterns self !! pattern_id with
  | None => Py.Returned pattern_not_found
  | Some pattern =>
      let total_steps := Py.len (steps pattern) in
      let completed_steps := count_status COMPLETED (steps pattern) in
      let failed_steps := count_status FAILED (steps pattern) in
      let in_progress_steps := count_status IN_PROGRESS (steps pattern) in
      if (total_steps =? 0)%Z then Py.Raised "division by zero"
      else
        Py.Returned (pattern_status
          {| status_pattern_id := pattern_id;
             pattern_name := name pattern;
             total_steps := total_steps;
             completed_steps := completed_steps;
             failed_steps := failed_steps;
             in_progress_steps := in_progress_steps;
             progress_percentage :=
               (Py.float_of_Z completed_steps / Py.float_of_Z total_steps * 100)%float;
             current_stage := _get_current_stage (steps pattern);
             estimated_completion := _estimate_completion_time (steps pattern) now |})
  end.

End PatternStatus.

(** * Specification-side definitions and scenarios

    What the properties below are stated with: the quantities the
    specification names, the states an engine can reach, and the concrete
    campaigns and engines the properties are evaluated on. *)

Module LedgerSpec.
Import Monitoring.

(** The ROI a pair of ledger totals gives. *)
Definition roi_of (investment revenue : float) : float :=
  if PrimFloat.ltb 0 investment
  then ((revenue - investment) / investment * 100)%float else 0%float.

Definition ratio_of (investment revenue : float) : float :=
  if PrimFloat.ltb 0 investment then (revenue / investment)%float else 0%float.

(** What the specification gives for the confidence of a projection: the
    larger of 0 and 1 less the ratio of the standard deviation to the mean
    of the revenues. *)
Definition claimed_confidence (revenues : list float) : float :=
  Py.max 0 (1 - Np.std revenues / Np.mean revenues)%float.

(** The actions of the immediate-action list of an analysis. *)
Definition immediate_action_names (a : Analysis) : list string :=
  map action (immediate_actions (opportunities a)).

(** The action names [implement_optimization] dispatches on. *)
Definition known_actions : list string :=
  ["improve_conversion_rate"; "optimize_message_timing";
   "investigate_delivery_issues"; "scale_successful_segments"].

(** Twelve conversions of 1250 each, one a day, after one investment of 5000. *)
Definition twelve_conversions (self : ROITracker) : ROITracker :=
  fold_left
    (fun st i => track_conversion st "campaign" ("student_" +:+ pretty i) 1250
                   "reactivation" (Z.of_nat i * 86400000000))
    (seq 0 12) self.

Definition campaign_ledger : ROITracker :=
  twelve_conversions (track_investment ROITracker_init "campaign" 5000 "operational").

(** The campaign of the end-to-end scenario, with any monitor state. *)
Definition campaign_engine (monitor : PerformanceMonitor) : OptimizationEngine :=
  OptimizationEngine_init campaign_ledger monitor.

(** Investments 100 and 50, one conversion of 300. *)
Definition small_ledger : ROITracker :=
  track_conversion
    (track_investment (track_investment ROITracker_init "campaign" 100 "operational")
       "campaign" 50 "operational")
    "campaign" "student_0" 300 "reactivation" 0.

(** Conversions recorded, nothing invested. *)
Definition unfunded_ledger : ROITracker :=
  track_conversion
    (track_conversion ROITracker_init "campaign" "student_0" 120 "reactivation" 0)
    "campaign" "student_1" 80 "reactivation" 1000000.

(** Ten refunds of 50, one a day, after one investment of 1000. *)
Definition refunds_ledger : ROITracker :=
  fold_left
    (fun st i => track_conversion st "campaign" ("student_" +:+ pretty i) (-50)
                   "refund" (Z.of_nat i * 86400000000))
    (seq 0 10) (track_investment ROITracker_init "campaign" 1000 "operational").

(** The tenth day after the first conversion. *)
Definition day_ten : Z := 864000000000.

End LedgerSpec.

Module AlertSpec.
Import Monitoring.

(** The last character of a string. *)
Fixpoint last_char (s : string) : option ascii :=
  match s with
  | EmptyString => None
  | String c rest =>
      match last_char rest with
      | Some d => Some d
      | None => Some c
      end
  end.

Definition is_digit (c : ascii) : bool :=
  let n := nat_of_ascii c in (48 <=? n)%nat && (n <=? 57)%nat.

Definition ends_in_digit (s : string) : bool :=
  match last_char s with
  | Some c => is_digit c
  | None => false
  end.

(** Every key of [active_alerts] ends in a digit, as the ids that
    [_evaluate_threshold] makes do. *)
Definition keys_are_ids (self : PerformanceMonitor) : Prop :=
  forall k, is_Some (active_alerts self !! k) -> ends_in_digit k = true.

(** The monitors that the calls of the monitoring loop and
    [acknowledge_alert] lead to from a new one. *)
Inductive monitor_reachable : PerformanceMonitor -> Prop :=
  | monitor_init : monitor_reachable PerformanceMonitor_init
  | monitor_process self campaign m value now :
      monitor_reachable self ->
      monitor_reachable (_process_metric self campaign m value now)
  | monitor_check self campaign metrics now :
      monitor_reachable self ->
      monitor_reachable (_check_alert_conditions self campaign metrics now)
  | monitor_acknowledge self alert_id :
      monitor_reachable self ->
      monitor_reachable (fst (acknowledge_alert self alert_id)).

(** Two samples of one campaign, 30 seconds apart, each with a response
    rate of 0.01: below the critical low threshold 0.05. *)
Definition first_sample_time : Z := 1700000000000000.
Definition second_sample_time : Z := 1700000030000000.
Definition third_sample_time : Z := 1700000060000000.
Definition low_response : list (MetricType * float) := [(RESPONSE_RATE, 0.01%float)].

Definition after_first_sample : PerformanceMonitor :=
  _check_alert_conditions PerformanceMonitor_init "campaign" low_response
    first_sample_time.

Definition after_second_sample : PerformanceMonitor :=
  _check_alert_conditions after_first_sample "campaign" low_response
    second_sample_time.

(** The alert of the second sample. *)
Definition second_alert : Alert :=
  {| id := "campaign_response_rate_1700000030"; level := CRITICAL;
     metric_type := RESPONSE_RATE; current_value := 0.01; threshold_value := 0.05;
     alert_timestamp := second_sample_time; acknowledged := false;
     actions_taken := [] |}.

(** The first alert is acknowledged, then a third sample breaches. *)
Definition after_acknowledgement : PerformanceMonitor :=
  fst (acknowledge_alert after_first_sample "campaign_response_rate_1700000000").

Definition after_third_sample : PerformanceMonitor :=
  _check_alert_conditions after_acknowledgement "campaign" low_response
    third_sample_time.

End AlertSpec.

Module ErrorSpec.
Import ErrorHandling.

(** The mapping of the specification, as a table from category to
    strategy; a category that is not in the table gets [RETRY]. *)
Definition strategy_table : list (ErrorCategory * RecoveryStrategy) :=
  [ (NETWORK, RETRY_WITH_BACKOFF); (RATE_LIMITING, CIRCUIT_BREAKER);
    (AUTHENTICATION, ESCALATION); (API, FALLBACK); (DATABASE, RETRY_WITH_BACKOFF) ].

Definition ErrorCategory_eqb (a b : ErrorCategory) : bool :=
  String.eqb (ErrorCategory_value a) (ErrorCategory_value b).

Fixpoint table_lookup (c : ErrorCategory) (t : list (ErrorCategory * RecoveryStrategy))
    : option RecoveryStrategy :=
  match t with
  | [] => None
  | (c', s) :: rest => if ErrorCategory_eqb c' c then Some s else table_lookup c rest
  end.

Definition specified_strategy (sev : ErrorSeverity) (cat : ErrorCategory)
    : RecoveryStrategy :=
  match sev with
  | FATAL => MANUAL_INTERVENTION
  | _ => default RETRY (table_lookup cat strategy_table)
  end.

(** The strategy [handle_error] reports for an error. *)
Definition reported_strategy (error : PyException) (ctx : ErrorContext)
    : RecoveryStrategy :=
  specified_strategy (_classify_error_severity error ctx)
    (_classify_error_category error ctx).

(** The component whose breaker counts a failure with context [ctx]. *)
Definition breaker_component (ctx : ErrorContext) : string :=
  match component ctx with
  | Some (String c rest) => String c rest
  | _ => "unknown_component"
  end.

(** The breakers after [handle_error] handled an error. *)
Definition breakers_after (breakers : gmap string CircuitBreaker)
    (error : PyException) (ctx : ErrorContext) (now : Z) : gmap string CircuitBreaker :=
  match reported_strategy error ctx with
  | CIRCUIT_BREAKER =>
      <[breaker_component ctx :=
          record_failure (default new_breaker (breakers !! breaker_component ctx)) now]>
        breakers
  | _ => breakers
  end.

(** What holds of every breaker the engine ever stores. *)
Definition breaker_ok (b : CircuitBreaker) : Prop :=
  failure_threshold b = 5%Z /\ timeout b = 300000000%Z /\ (0 <= failure_count b)%Z /\
  (state b = open <-> (failure_threshold b <= failure_count b)%Z) /\
  state b <> half_open.

(** The engines that calls of [handle_error] and [reset_circuit_breaker]
    lead to from a new one. *)
Inductive reachable (hash : string -> Z) : ErrorHandlingEngine -> Prop :=
  | reachable_init : reachable hash ErrorHandlingEngine_init
  | reachable_handle_error self error ctx now :
      reachable hash self ->
      reachable hash (fst (handle_error hash self error ctx now))
  | reachable_reset self comp :
      reachable hash self ->
      reachable hash (fst (reset_circuit_breaker self comp)).

(** The errors of a pattern, the new one included, raised less than an hour
    before [now]. *)
Definition seen_within_hour (patterns : gmap string (list ErrorRecord))
    (r : ErrorRecord) (now : Z) : nat :=
  length (List.filter (fun e => (now - timestamp (context e) <? 3600000000)%Z)
            (Monitoring.get_list patterns (pattern_key r) ++ [r])).

(** A status check made at [now]: the engine reads no clock for it. *)
Definition status_check (self : ErrorHandlingEngine) (now : Z)
    : gmap string BreakerStatus :=
  _get_circuit_breaker_status self.

(** A stand-in for Python's string hash; no property below depends on it. *)
Definition sample_hash (s : string) : Z := Z.of_nat (String.length s).

(** [CampaignError(message)], the exception [server.py] builds. *)
Definition campaign_error (message : string) : PyException :=
  {| class_name := "CampaignError";
     bases := ["Exception"; "BaseException"; "object"];
     str_error := message |}.

Definition connection_error (message : string) : PyException :=
  {| class_name := "ConnectionError";
     bases := ["OSError"; "Exception"; "BaseException"; "object"];
     str_error := message |}.

(** The context of a failure of component [waha-send] at [t]. *)
Definition waha_context (t : Z) : ErrorContext :=
  {| ctx_error_id := ""; timestamp := t; campaign_id := Some "campaign";
     workflow_id := None; step_id := None; component := Some "waha-send";
     operation := Some "send_message" |}.

(** Handle one more error on [waha-send], at [t]. *)
Definition handle_next (hash : string -> Z) (error : PyException)
    (so_far : ErrorHandlingEngine * list HandleResult) (t : Z)
    : ErrorHandlingEngine * list HandleResult :=
  let '(engine, result) := handle_error hash (fst so_far) error (waha_context t) t in
  (engine, snd so_far ++ [result]).

(** Handle the same error on [waha-send] at each of the times, in order;
    the engine at the end and the results, the first one first. *)
Definition handle_all (hash : string -> Z) (error : PyException) (times : list Z)
    (self : ErrorHandlingEngine) : ErrorHandlingEngine * list HandleResult :=
  fold_left (handle_next hash error) times (self, []).

(** Five times within one hour, ten minutes apart. *)
Definition ten_minutes : Z := 600000000.
Definition five_times : list Z :=
  [0; ten_minutes; 2 * ten_minutes; 3 * ten_minutes; 4 * ten_minutes]%Z.
Definition fifth_time : Z := 2400000000.

Definition stalled : PyException := campaign_error "Message queue stalled".
Definition unreachable : PyException := connection_error "Connection reset by peer".
Definition throttled : PyException := campaign_error "Rate limit exceeded".

(** The engine after five rate-limit errors on [waha-send] within an hour. *)
Definition throttled_engine : ErrorHandlingEngine :=
  fst (handle_all sample_hash throttled five_times ErrorHandlingEngine_init).

(** The breaker of [waha-send] in that engine. *)
Definition opened_breaker : CircuitBreaker :=
  {| state := open; failure_count := 5; failure_threshold := 5;
     timeout := 300000000; last_failure := Some fifth_time |}.

(** The engine after four stalled-queue errors on [waha-send], and the
    record of the fifth. *)
Definition stalled_engine : ErrorHandlingEngine :=
  fst (handle_all sample_hash stalled (firstn 4 five_times) ErrorHandlingEngine_init).

Definition fifth_stalled_record : ErrorRecord :=
  _create_error_record sample_hash stalled (waha_context fifth_time) fifth_time.

(** A fatal error record: the fifth stalled record with its severity
    raised. *)
Definition fatal_record : ErrorRecord :=
  {| error_id := error_id fifth_stalled_record;
     error_type := error_type fifth_stalled_record;
     error_message := error_message fifth_stalled_record;
     severity := FATAL;
     category := category fifth_stalled_record;
     context := context fifth_stalled_record;
     recovery_strategy := recovery_strategy fifth_stalled_record;
     recovery_attempts := recovery_attempts fifth_stalled_record;
     max_recovery_attempts := max_recovery_attempts fifth_stalled_record;
     recovery_success := recovery_success fifth_stalled_record;
     resolution_time := resolution_time fifth_stalled_record |}.

(** The record of a rate-limit error on [waha-send]. *)
Definition throttled_record : ErrorRecord :=
  _create_error_record sample_hash throttled (waha_context 0) 0.

End ErrorSpec.

Module ThinkingSpec.
Import Thinking.

(** A one-second call of [process_thinking_step] on the second step of a
    fresh campaign pattern. *)
Definition second_step_run : option StepRun :=
  process_thinking_step _generate_campaign_steps 1 0 1000000.

End ThinkingSpec.

(** ** Further states and scenarios *)

Module LedgerStates.
Import Monitoring.

(** The trackers that calls of [track_investment] and [track_conversion]
    lead to from a new one. *)
Inductive tracker_reachable : ROITracker -> Prop :=
  | tracker_init : tracker_reachable ROITracker_init
  | tracker_investment self campaign amount category :
      tracker_reachable self ->
      tracker_reachable (track_investment self campaign amount category)
  | tracker_conversion self campaign student rev ctype now :
      tracker_reachable self ->
      tracker_reachable (track_conversion self campaign student rev ctype now).

End LedgerStates.

Module ThresholdSpec.
Import Monitoring.

(** The threshold is configured and the value is under it, or over it. *)
Definition is_below (value : float) (t : option float) : Prop :=
  exists x, t = Some x /\ PrimFloat.ltb value x = true.

Definition is_above (value : float) (t : option float) : Prop :=
  exists x, t = Some x /\ PrimFloat.ltb x value = true.

(** A critical threshold of [th] is crossed by the value. *)
Definition critical_breach (value : float) (th : Thresholds) : Prop :=
  is_below value (critical_low th) \/ is_above value (critical_high th).

Definition warning_breach (value : float) (th : Thresholds) : Prop :=
  is_below value (warning_low th) \/ is_above value (warning_high th).

(** What holds of every alert a monitor stores: it is filed under its id,
    its level is critical or warning, and its actions are those taken
    automatically for it, none for a warning. *)
Definition alert_ok (k : string) (a : Alert) : Prop :=
  id a = k /\
  (level a = CRITICAL \/ level a = WARNING) /\
  actions_taken a = match level a with
                    | CRITICAL => automatic_actions a
                    | _ => []
                    end.

(** The metric types [_take_automatic_action] has actions for. *)
Definition actionable : list MetricType :=
  [RESPONSE_RATE; CONVERSION_RATE; MESSAGE_DELIVERY_RATE].

(** The point [_process_metric] records. *)
Definition point_of (campaign : string) (m : MetricType) (value : float) (now : Z)
    : MetricPoint :=
  {| mp_timestamp := now; mp_metric_type := m; mp_value := value;
     mp_campaign_id := campaign |}.

End ThresholdSpec.

Module HistorySpec.
Import Monitoring.

(** Newest first: no later element has a greater key. *)
Definition descending {A} (key : A -> Z) (l : list A) : Prop :=
  StronglySorted (fun a b => (key b <= key a)%Z) l.

(** The recommendations of an analysis, as labels and as actions. *)
Definition recommendation_labels (a : Analysis) : list string :=
  map fst (recommended_next_steps a).

Definition recommended_actions (a : Analysis) : list string :=
  map snd (recommended_next_steps a).

End HistorySpec.

Module RecoverySpec.
Import ErrorHandling ErrorSpec.

(** The error is an instance of [ConnectionError] or [TimeoutError]. *)
Definition is_connection_error (error : PyException) : bool :=
  isinstance error ["ConnectionError"; "TimeoutError"].

(** The text of the error, in any case of letters, holds [authentication]
    or [unauthorized]. *)
Definition mentions_authentication (error : PyException) : bool :=
  Py.contains "authentication" (Py.lower (str_error error))
  || Py.contains "unauthorized" (Py.lower (str_error error)).

(** The record of a new error with the strategy chosen for it, before its
    recovery is run. *)
Definition new_record (hash : string -> Z) (error : PyException) (ctx : ErrorContext)
    (now : Z) : ErrorRecord :=
  set_recovery_strategy (reported_strategy error ctx)
    (_create_error_record hash error ctx now).

(** The entry of the recovery history for a handled error. *)
Definition history_entry (result : HandleResult) (now : Z) : RecoveryEntry :=
  {| entry_error_id := result_error_id result;
     entry_strategy := result_recovery_strategy result;
     entry_success := result_recovery_success result;
     entry_timestamp := now |}.

End RecoverySpec.

Module ResilienceSpec.
Import ErrorHandling ErrorSpec Resilience.

(** The seconds the wrapper sleeps after a failed attempt that was not the
    last one. *)
Definition wait_before_retry (attempt : nat) : Z := Z.min (2 ^ Z.of_nat attempt) 30.

(** The context the wrapper passes to [handle_error] after a failure at
    time [t]. *)
Definition failure_context (operation_name comp : string)
    (kw_campaign_id kw_workflow_id : option string) (t : Z) : ErrorContext :=
  {| ctx_error_id := ""; timestamp := t;
     campaign_id := kw_campaign_id; workflow_id := kw_workflow_id;
     step_id := None; component := Some comp; operation := Some operation_name |}.

(** A send that fails twice with a connection error and then succeeds, and
    one that always fails. *)
Definition third_time_lucky (attempt : nat) : Attempt string :=
  if (attempt <? 2)%nat then Fails unreachable else Succeeds "sent".

Definition never_works (attempt : nat) : Attempt string := Fails unreachable.

(** A clock that reads ten seconds more at each attempt. *)
Definition ten_seconds_apart (attempt : nat) : Z := (Z.of_nat attempt * 10000000)%Z.

End ResilienceSpec.

Module StatisticsSpec.
Import ErrorHandling ErrorSpec ErrorStatistics.

(** How many of the elements have the key [k]. *)
Definition occurrences {A} (f : A -> string) (k : string) (l : list A) : Z :=
  Py.len (List.filter (fun e => String.eqb (f e) k) l).

(** The sum of the counts of a counting dict. *)
Definition sum_counts (d : list (string * Z)) : Z := fold_right Z.add 0%Z (map snd d).

(** The records of the registry that [get_error_statistics] takes into
    account. *)
Definition relevant (values : list ErrorRecord) (time_range now : Z) : list ErrorRecord :=
  List.filter (fun e => (now - time_range <=? timestamp (context e))%Z) values.

(** 24 hours, the default [time_range]. *)
Definition one_day : Z := 86400000000.

(** Three records: two stalled queues and one rate limit. *)
Definition three_records : list ErrorRecord :=
  [ fifth_stalled_record; throttled_record; fifth_stalled_record ].

End StatisticsSpec.

Module PatternRuns.
Import Thinking PatternStatus.

(** A step is waiting or running: the statuses [_get_current_stage] and
    [_estimate_completion_time] look for. *)
Definition unfinished (step : ThinkingStep) : bool :=
  ThinkingStatus_eqb (status step) PENDING || ThinkingStatus_eqb (status step) IN_PROGRESS.

(** The estimated durations of the unfinished steps, added up. *)
Definition remaining_time (l : list ThinkingStep) : Z :=
  fold_right Z.add 0%Z (map estimated_duration (List.filter unfinished l)).

(** Every dependency of a step names a step declared before it. *)
Fixpoint declared_before (earlier : list string) (l : list ThinkingStep) : bool :=
  match l with
  | [] => true
  | step :: rest =>
      forallb (fun d => existsb (String.eqb d) earlier) (dependencies step)
      && declared_before (earlier ++ [id step]) rest
  end.

Definition well_ordered (l : list ThinkingStep) : bool := declared_before [] l.

(** The step as a call of [process_thinking_step] from [start_time] to
    [end_time] leaves it. *)
Definition finish (start_time end_time : Z) (step : ThinkingStep) : ThinkingStep :=
  match _execute_step_logic (set_status IN_PROGRESS step) with
  | Py.Returned r => complete r (end_time - start_time) (set_status IN_PROGRESS step)
  | Py.Raised e => fail e (end_time - start_time) (set_status IN_PROGRESS step)
  end.

(** A caller that processes the first [n] steps of a pattern one after the
    other, in the order of the list; the call for step [i] reads the clock
    at [clock (2 * i)] and at [clock (2 * i + 1)]. *)
Definition process_next (clock : nat -> Z) (l : list ThinkingStep) (i : nat)
    : list ThinkingStep :=
  match process_thinking_step l i (clock (2 * i)) (clock (2 * i + 1)) with
  | Some run => finished run
  | None => l
  end.

Definition process_in_order (clock : nat -> Z) (l : list ThinkingStep) (n : nat)
    : list ThinkingStep :=
  fold_left (process_next clock) (seq 0 n) l.

(** A clock that reads one second more at each reading. *)
Definition seconds (n : nat) : Z := (Z.of_nat n * 1000000)%Z.

End PatternRuns.

(** * Properties *)

(** ** Floating-point facts *)

Lemma float_sub_zero (x : float) : (x - 0)%float = x.
Proof.
  apply Prim2SF_inj. rewrite FloatAxioms.sub_spec.
  change (Prim2SF 0) with (S754_zero false).
  destruct (Prim2SF x) as [[|]| | |]; reflexivity.
Qed.

Lemma positive_not_zero (x : float) :
  PrimFloat.ltb 0 x = true -> PrimFloat.eqb x 0 = false.
Proof.
  rewrite FloatAxioms.ltb_spec, FloatAxioms.eqb_spec.
  change (Prim2SF 0) with (S754_zero false).
  destruct (Prim2SF x) as [[|]|[|] | |[|] m e]; cbn; congruence.
Qed.

Lemma truediv_positive (x y : float) :
  PrimFloat.ltb 0 y = true -> Py.truediv x y = Some (x / y)%float.
Proof. intros H. unfold Py.truediv. now rewrite positive_not_zero. Qed.

(** ** Slices *)

(** [l[-n:]] is the suffix of [l] of length [min n (len l)]. *)
Lemma last_n_suffix {A} (n : nat) (l : list A) :
  exists pre, l = pre ++ Py.last_n n l /\ length (Py.last_n n l) = Nat.min n (length l).
Proof.
  exists (firstn (length l - n) l). unfold Py.last_n. split.
  - now rewrite firstn_skipn.
  - rewrite length_skipn. lia.
Qed.

(** A suffix is determined by its length. *)
Lemma suffix_unique {A} (l pre1 w1 pre2 w2 : list A) :
  l = pre1 ++ w1 -> l = pre2 ++ w2 -> length w1 = length w2 -> w1 = w2.
Proof.
  intros H1 H2 Hlen.
  assert (Hp : length pre1 = length pre2).
  { apply (f_equal (@length A)) in H1, H2. rewrite length_app in H1, H2. lia. }
  rewrite H1 in H2. now apply app_inj_1 in H2 as [_ ?].
Qed.

Lemma last_n_is_suffix {A} (n : nat) (l pre w : list A) :
  l = pre ++ w -> length w = Nat.min n (length l) -> Py.last_n n l = w.
Proof.
  intros H Hlen. destruct (last_n_suffix n l) as (pre' & H' & Hlen').
  eapply suffix_unique; eauto. lia.
Qed.

(** ** The ROI ledger *)

Section ROIProperties.
Import Monitoring LedgerSpec.

(** [_generate_roi_projections] raises nothing. *)
Lemma projections_total (self : ROITracker) (c : string) (now : Z) :
  is_Some (_generate_roi_projections self c now).
Proof.
  unfold _generate_roi_projections.
  destruct (length _ <? 10)%nat; [by eexists|].
  unfold Py.truediv_int.
  destruct (Z.eqb_spec
              (Z.max (match get_list (conversion_tracking self) c with
                      | [] => 1
                      | c0 :: _ => Py.days (now - conv_timestamp c0)
                      end) 1) 0) as [E|E]; [lia|].
  cbn.
  destruct (PrimFloat.ltb 0 (Py.sum (get_list (investment_tracking self) c))) eqn:L.
  - rewrite truediv_positive by done. by eexists.
  - by eexists.
Qed.

(** [calculate_real_time_roi] raises nothing, and its totals, profit, ROI
    and ratio are functions of the two ledger lists of the campaign. *)
Lemma calculate_real_time_roi_fields (self : ROITracker) (c : string) (now : Z) :
  exists r, calculate_real_time_roi self c now = Some r /\
    total_investment r = Py.sum (get_list (investment_tracking self) c) /\
    total_revenue r = Py.sum (get_list (revenue_tracking self) c) /\
    net_profit r = (total_revenue r - total_investment r)%float /\
    roi_percentage r = roi_of (total_investment r) (total_revenue r) /\
    roi_ratio r = ratio_of (total_investment r) (total_revenue r).
Proof.
  destruct (projections_total self c now) as [p Hp].
  unfold calculate_real_time_roi, roi_of, ratio_of. rewrite Hp.
  destruct (PrimFloat.ltb 0 (Py.sum (get_list (investment_tracking self) c))) eqn:L.
  - rewrite !truediv_positive by done. cbn. eexists. split; [reflexivity|].
    cbn. now rewrite L.
  - cbn. eexists. split; [reflexivity|]. cbn. now rewrite L.
Qed.

(** Two trackers that hold the same two ledger lists for a campaign give
    the same totals, profit, ROI and ratio, whatever else they hold and
    whenever they are asked. *)
Lemma calculate_real_time_roi_pure (self1 self2 : ROITracker) (c : string)
    (now1 now2 : Z) :
  get_list (investment_tracking self1) c = get_list (investment_tracking self2) c ->
  get_list (revenue_tracking self1) c = get_list (revenue_tracking self2) c ->
  exists r1 r2,
    calculate_real_time_roi self1 c now1 = Some r1 /\
    calculate_real_time_roi self2 c now2 = Some r2 /\
    total_investment r1 = total_investment r2 /\
    total_revenue r1 = total_revenue r2 /\
    net_profit r1 = net_profit r2 /\
    roi_percentage r1 = roi_percentage r2 /\
    roi_ratio r1 = roi_ratio r2.
Proof.
  intros Hinv Hrev.
  destruct (calculate_real_time_roi_fields self1 c now1)
    as (r1 & Hr1 & Hti1 & Htr1 & Hnet1 & Hroi1 & Hratio1).
  destruct (calculate_real_time_roi_fields self2 c now2)
    as (r2 & Hr2 & Hti2 & Htr2 & Hnet2 & Hroi2 & Hratio2).
  exists r1, r2. split; [exact Hr1|]. split; [exact Hr2|].
  assert (Hti : total_investment r1 = total_investment r2) by congruence.
  assert (Htr : total_revenue r1 = total_revenue r2) by congruence.
  rewrite Hnet1, Hnet2, Hroi1, Hroi2, Hratio1, Hratio2, Hti, Htr. repeat split.
Qed.

(** C6.  [calculate_real_time_roi] computes from the cumulative ledger lists
    alone.  For every tracker, campaign and time it returns a calculation
    whose total investment and total revenue are the sums of the two lists
    of the campaign, whose net profit is the revenue less the investment,
    and whose ROI is (revenue - investment) / investment x 100, its ratio
    revenue / investment, when the total investment is positive, and 0
    both when it is not: every figure is a function of the two lists.  So,
    whatever else the tracker holds and whenever it is asked, a campaign
    whose investment list is [100, 50] and whose revenue list is [300] gets
    total investment 150, total revenue 300, ROI 100 per cent and net
    profit 150. *)
Theorem roi_of_small_ledger (self : ROITracker) (c : string) (now : Z) :
  exists r, calculate_real_time_roi self c now = Some r /\
    total_investment r = Py.sum (get_list (investment_tracking self) c) /\
    total_revenue r = Py.sum (get_list (revenue_tracking self) c) /\
    net_profit r = (total_revenue r - total_investment r)%float /\
    (PrimFloat.ltb 0 (total_investment r) = true ->
     roi_percentage r
     = ((total_revenue r - total_investment r) / total_investment r * 100)%float /\
     roi_ratio r = (total_revenue r / total_investment r)%float) /\
    (PrimFloat.ltb 0 (total_investment r) = false ->
     roi_percentage r = 0%float /\ roi_ratio r = 0%float) /\
    (get_list (investment_tracking self) c = [100; 50]%float ->
     get_list (revenue_tracking self) c = [300]%float ->
     total_investment r = 150%float /\ total_revenue r = 300%float /\
     roi_percentage r = 100%float /\ net_profit r = 150%float).
Proof.
  destruct (calculate_real_time_roi_fields self c now)
    as (r & Hr & Hti & Htr & Hnet & Hroi & Hratio).
  exists r. split; [exact Hr|]. split; [exact Hti|]. split; [exact Htr|].
  split; [exact Hnet|]. split; [|split].
  - intros Hpos. rewrite Hroi, Hratio. unfold roi_of, ratio_of. rewrite Hpos.
    split; reflexivity.
  - intros Hnot. rewrite Hroi, Hratio. unfold roi_of, ratio_of. rewrite Hnot.
    split; reflexivity.
  - intros Hinv Hrev. rewrite Hinv in Hti. rewrite Hrev in Htr.
    rewrite Hroi, Hnet, Hti, Htr. repeat split; reflexivity.
Qed.

Lemma roi_of_small_ledger_witness :
  exists r, calculate_real_time_roi small_ledger "campaign" day_ten = Some r /\
    total_investment r = 150%float /\ total_revenue r = 300%float /\
    roi_percentage r = 100%float /\ net_profit r = 150%float.
Proof.
  destruct (roi_of_small_ledger small_ledger "campaign" day_ten)
    as (r & Hr & _ & _ & _ & _ & _ & Hinstance).
  exists r. split; [exact Hr|].
  apply Hinstance; vm_compute; reflexivity.
Defined.

(** C10.  With nothing invested in a campaign (an empty investment list,
    present or absent), [calculate_real_time_roi] raises no division error:
    it returns a calculation with total investment 0, ROI 0 and ratio 0,
    whose total revenue is the sum of the revenue list of the campaign and
    whose net profit is that total revenue. *)
Theorem roi_without_investment (self : ROITracker) (c : string) (now : Z) :
  get_list (investment_tracking self) c = [] ->
  exists r, calculate_real_time_roi self c now = Some r /\
    total_investment r = 0%float /\
    total_revenue r = Py.sum (get_list (revenue_tracking self) c) /\
    roi_percentage r = 0%float /\ roi_ratio r = 0%float /\
    net_profit r = total_revenue r /\
    net_profit r = Py.sum (get_list (revenue_tracking self) c).
Proof.
  intros Hinv.
  destruct (calculate_real_time_roi_fields self c now)
    as (r & Hr & Hti & Htr & Hnet & Hroi & Hratio).
  rewrite Hinv in Hti. change (Py.sum []) with 0%float in Hti.
  assert (Hprofit : net_profit r = total_revenue r).
  { rewrite Hnet, Hti. apply float_sub_zero. }
  exists r. split; [exact Hr|]. split; [exact Hti|]. split; [exact Htr|].
  rewrite Hroi, Hratio, Hti. unfold roi_of, ratio_of.
  change (PrimFloat.ltb 0 0) with false.
  split; [reflexivity|]. split; [reflexivity|]. split; [exact Hprofit|].
  rewrite Hprofit. exact Htr.
Qed.

Lemma roi_without_investment_witness :
  exists r, calculate_real_time_roi unfunded_ledger "campaign" day_ten = Some r /\
    total_investment r = 0%float /\
    total_revenue r = 200%float /\
    roi_percentage r = 0%float /\ roi_ratio r = 0%float /\
    net_profit r = total_revenue r /\
    net_profit r = 200%float.
Proof.
  destruct (roi_without_investment unfunded_ledger "campaign" day_ten)
    as (r & Hr & Hti & Htr & Hroi & Hratio & Hprofit & Hsum);
    [vm_compute; reflexivity|].
  exists r. split; [exact Hr|]. split; [exact Hti|]. split; [exact Htr|].
  split; [exact Hroi|]. split; [exact Hratio|]. split; [exact Hprofit|]. exact Hsum.
Defined.

Lemma calculate_real_time_roi_pure_witness :
  exists r1 r2,
    calculate_real_time_roi small_ledger "campaign" 0 = Some r1 /\
    calculate_real_time_roi
      (track_conversion (track_investment small_ledger "other" 7 "operational")
         "other" "student_9" 9 "reactivation" day_ten) "campaign" day_ten = Some r2 /\
    total_investment r1 = total_investment r2 /\
    total_revenue r1 = total_revenue r2 /\
    net_profit r1 = net_profit r2 /\
    roi_percentage r1 = roi_percentage r2 /\
    roi_ratio r1 = roi_ratio r2.
Proof.
  apply (calculate_real_time_roi_pure small_ledger
           (track_conversion (track_investment small_ledger "other" 7 "operational")
              "other" "student_9" 9 "reactivation" day_ten) "campaign" 0 day_ten);
    vm_compute; reflexivity.
Defined.
(** The confidence of a window of ten or more revenues follows the mean. *)
Lemma confidence_of_window (values : list float) :
  10 <= length values ->
  confidence_of values =
    if PrimFloat.ltb 0 (Np.mean values) then claimed_confidence values else 0%float.
Proof.
  intros Hlen. unfold confidence_of, claimed_confidence.
  destruct (Nat.ltb_spec 1 (length values)) as [_|]; [|lia].
  destruct values; [cbn in Hlen; lia|reflexivity].
Qed.

(** C8, as the code has it.  With fewer than 10 conversions the projection
    is all zero.  With 10 or more: the confidence is computed over the
    trailing (up to) 20 conversion revenues and is [max(0, 1 - std/mean)]
    when their mean is positive, and 0 otherwise; the daily revenue rate is
    the sum of the 10 most recent revenues over the days elapsed since the
    first conversion (at least 1), and the projection adds that rate for the
    days remaining of 21 to the revenue so far. *)
Theorem projection_gate_and_confidence (self : ROITracker) (c : string) (now : Z) :
  let conversions := get_list (conversion_tracking self) c in
  (length conversions < 10 ->
   exists p, _generate_roi_projections self c now = Some p /\
     projected_final_roi p = 0%float /\ confidence_level p = 0%float /\
     projected_total_revenue p = 0%float)
  /\
  (10 <= length conversions ->
   forall older20 trailing20 older10 trailing10 first rest,
     conversions = older20 ++ trailing20 ->
     length trailing20 = Nat.min 20 (length conversions) ->
     conversions = older10 ++ trailing10 ->
     length trailing10 = 10 ->
     conversions = first :: rest ->
     let days_elapsed := Py.days (now - conv_timestamp first) in
     let days_remaining := Z.max (21 - days_elapsed) 0 in
     let daily :=
       (Py.sum (map revenue trailing10) / Py.float_of_Z (Z.max days_elapsed 1))%float in
     exists p, _generate_roi_projections self c now = Some p /\
       confidence_level p =
         (if PrimFloat.ltb 0 (Np.mean (map revenue trailing20))
          then claimed_confidence (map revenue trailing20) else 0%float) /\
       daily_revenue_trend p = Some daily /\
       time_to_target p = days_remaining /\
       projected_total_revenue p =
         (Py.sum (get_list (revenue_tracking self) c)
          + daily * Py.float_of_Z days_remaining)%float).
Proof.
  intros conversions. split.
  - intros Hlt. unfold _generate_roi_projections. fold conversions.
    destruct (Nat.ltb_spec (length conversions) 10) as [_|]; [|lia].
    eexists. split; [reflexivity|]. repeat split.
  - intros Hge older20 trailing20 older10 trailing10 first rest
      H20 Hlen20 H10 Hlen10 Hfirst days_elapsed days_remaining daily.
    destruct (projections_total self c now) as [p Hp]. exists p. split; [exact Hp|].
    unfold _generate_roi_projections in Hp. fold conversions in Hp.
    destruct (Nat.ltb_spec (length conversions) 10) as [|_]; [lia|].
    rewrite (last_n_is_suffix 10 conversions older10 trailing10) in Hp by (auto; lia).
    unfold revenue_values in Hp.
    rewrite (last_n_is_suffix 20 conversions older20 trailing20) in Hp by auto.
    rewrite confidence_of_window in Hp by (rewrite length_map; lia).
    rewrite Hfirst in Hp. fold days_elapsed in Hp.
    unfold Py.truediv_int in Hp.
    destruct (Z.eqb_spec (Z.max days_elapsed 1) 0) as [|_]; [lia|].
    cbn in Hp. fold days_remaining daily in Hp.
    destruct (PrimFloat.ltb 0 (Py.sum (get_list (investment_tracking self) c))) eqn:L.
    + rewrite truediv_positive in Hp by done. cbn in Hp.
      injection Hp as <-. cbn. repeat split.
    + cbn in Hp. injection Hp as <-. cbn. repeat split.
Qed.

Lemma projection_gate_and_confidence_witness :
  (exists p,
     _generate_roi_projections unfunded_ledger "campaign" day_ten = Some p /\
     projected_final_roi p = 0%float /\ confidence_level p = 0%float /\
     projected_total_revenue p = 0%float)
  /\
  (exists p,
     _generate_roi_projections campaign_ledger "campaign" day_ten = Some p /\
     confidence_level p = 1%float /\
     daily_revenue_trend p = Some 1250%float /\
     time_to_target p = 11%Z /\
     projected_total_revenue p = 28750%float).
Proof.
  split.
  - apply (proj1 (projection_gate_and_confidence
                    unfunded_ledger "campaign" day_ten)).
    vm_compute. lia.
  - pose (conversions :=
            get_list (conversion_tracking campaign_ledger) "campaign").
    assert (Hge : 10 <= length conversions) by (vm_compute; lia).
    destruct (proj2 (projection_gate_and_confidence
                       campaign_ledger "campaign" day_ten) Hge
                [] conversions (firstn 2 conversions) (skipn 2 conversions)
                (hd (Build_Conversion "" 0 "" 0 "") conversions) (tl conversions)
                eq_refl eq_refl eq_refl eq_refl eq_refl)
      as (p & Hp & Hc & Hd & Ht & Hr).
    exists p. split; [exact Hp|].
    rewrite Hc, Hd, Ht, Hr. repeat split.
Defined.

(** The guard of the confidence shows on a campaign whose revenues have a
    negative mean: ten refunds of 50 have mean -50 and standard deviation 0,
    so [max(0, 1 - std/mean)] is 1, and the projection reports 0. *)
Lemma confidence_with_negative_mean :
  let conversions := get_list (conversion_tracking refunds_ledger) "campaign" in
  length conversions = 10 /\
  Np.mean (map revenue conversions) = (-50)%float /\
  Np.std (map revenue conversions) = 0%float /\
  claimed_confidence (map revenue conversions) = 1%float /\
  exists p,
    _generate_roi_projections refunds_ledger "campaign" day_ten = Some p /\
    confidence_level p = 0%float /\
    confidence_level p <> claimed_confidence (map revenue conversions).
Proof.
  cbv zeta. repeat split; try (vm_compute; reflexivity).
  eexists. split; [vm_compute; reflexivity|]. split; [reflexivity|].
  intros H. apply (f_equal (fun x => PrimFloat.eqb x 0)) in H.
  vm_compute in H. discriminate H.
Qed.


End ROIProperties.

(** ** The optimization engine *)

Section OptimizationProperties.
Import Monitoring LedgerSpec.

(** The conversion-rate opportunity is found exactly below a ROI of 1500. *)
Lemma conversion_rate_opportunity (roi_calc : ROICalculation)
    (summary : PerformanceSummary) :
  In "improve_conversion_rate"
     (map action (immediate_actions (find_opportunities roi_calc summary)))
  <-> PrimFloat.ltb (roi_percentage roi_calc) 1500 = true.
Proof.
  unfold find_opportunities. cbn.
  destruct (PrimFloat.ltb (roi_percentage roi_calc) 1500).
  - split; [reflexivity|]. intros _. now left.
  - split; [|discriminate]. cbn.
    destruct (dict_get (metrics summary) "response_rate") as [m|]; cbn; [|tauto].
    destruct (PrimFloat.ltb (current m) 0.15); cbn; [|tauto].
    intros [H|[]]. discriminate H.
Qed.

(** [analyze_optimization_opportunities] raises nothing, reports the ROI of
    [calculate_real_time_roi], and lists the conversion-rate opportunity
    exactly when that ROI is below 1500. *)
Lemma analysis_total (self : OptimizationEngine) (c : string) (now : Z) :
  exists r a,
    calculate_real_time_roi (roi_tracker self) c now = Some r /\
    analyze_optimization_opportunities self c now = Some a /\
    current_roi_percentage a = roi_percentage r /\
    (In "improve_conversion_rate" (immediate_action_names a)
     <-> PrimFloat.ltb (roi_percentage r) 1500 = true).
Proof.
  destruct (calculate_real_time_roi_fields (roi_tracker self) c now) as (r & Hr & _).
  exists r. unfold analyze_optimization_opportunities. rewrite Hr. cbn.
  eexists. repeat split; try reflexivity; apply conversion_rate_opportunity.
Qed.

(** In the end-to-end scenario (one investment of 5000, twelve conversions
    totalling 15000) the ROI is 200 per cent, which is below 1500: the
    immediate-action list does hold the conversion-rate opportunity, where
    the specification wants none. *)
Lemma scenario_lists_conversion_rate_action :
  exists a,
    analyze_optimization_opportunities (campaign_engine PerformanceMonitor_init)
      "campaign" day_ten = Some a /\
    current_roi_percentage a = 200%float /\
    immediate_action_names a = ["improve_conversion_rate"] /\
    In "improve_conversion_rate" (immediate_action_names a).
Proof.
  eexists. split; [vm_compute; reflexivity|].
  split; [reflexivity|]. split; [reflexivity|]. now left.
Qed.

(** C1, as the code has it.  The immediate-action list of an analysis holds
    the conversion-rate opportunity exactly when the ROI is below 1500; in
    the end-to-end scenario, whatever the monitor holds and whenever the
    analysis runs, the ROI is 200 per cent and the opportunity is listed. *)
Theorem scenario_roi_and_conversion_rate_action :
  (forall (self : OptimizationEngine) (c : string) (now : Z),
     exists a, analyze_optimization_opportunities self c now = Some a /\
       (In "improve_conversion_rate" (immediate_action_names a)
        <-> PrimFloat.ltb (current_roi_percentage a) 1500 = true))
  /\
  (forall (monitor : PerformanceMonitor) (now : Z),
     exists a,
       analyze_optimization_opportunities (campaign_engine monitor) "campaign" now
         = Some a /\
       current_roi_percentage a = 200%float /\
       In "improve_conversion_rate" (immediate_action_names a)).
Proof.
  split.
  - intros self c now.
    destruct (analysis_total self c now) as (r & a & _ & Ha & Hroi & Hin).
    exists a. split; [exact Ha|]. now rewrite Hroi.
  - intros monitor now.
    destruct (analysis_total (campaign_engine monitor) "campaign" now)
      as (r & a & Hr & Ha & Hroi & Hin).
    destruct (calculate_real_time_roi_fields campaign_ledger "campaign" now)
      as (r' & Hr' & Hti & Htr & _ & Hp & _).
    change (roi_tracker (campaign_engine monitor)) with campaign_ledger in Hr.
    rewrite Hr' in Hr. injection Hr as ->.
    assert (H200 : roi_percentage r = 200%float).
    { rewrite Hp, Hti, Htr. vm_compute. reflexivity. }
    exists a. split; [exact Ha|]. split; [congruence|].
    apply Hin. rewrite H200. reflexivity.
Qed.

(** C9.  For an action name outside the known set, [implement_optimization]
    raises nothing: it returns a result with [success] false, no change
    made, and the error message naming the action; the engine and its
    history are as before. *)
Theorem unknown_action_is_reported (self : OptimizationEngine) (c : string)
    (optimization_action : string) (now : Z) :
  ~ In optimization_action known_actions ->
  exists r,
    implement_optimization self c optimization_action now = (self, Py.Returned r) /\
    success r = false /\
    changes_made r = [] /\
    impl_action r = optimization_action /\
    error r = Some ("Unknown optimization action: " +:+ optimization_action).
Proof.
  intros Hnot. unfold implement_optimization.
  assert (Hneq : forall k, In k known_actions -> String.eqb optimization_action k = false).
  { intros k Hk. apply String.eqb_neq. intros ->. contradiction. }
  rewrite !Hneq by (cbn; tauto).
  eexists. split; [reflexivity|]. repeat split.
Qed.

Lemma unknown_action_is_reported_witness :
  exists r,
    implement_optimization (campaign_engine PerformanceMonitor_init) "campaign"
      "double_the_budget" 0 = (campaign_engine PerformanceMonitor_init, Py.Returned r) /\
    success r = false /\
    changes_made r = [] /\
    impl_action r = "double_the_budget" /\
    error r = Some "Unknown optimization action: double_the_budget".
Proof.
  apply (unknown_action_is_reported (campaign_engine PerformanceMonitor_init)
           "campaign" "double_the_budget" 0).
  cbn. intros [H|[H|[H|[H|[]]]]]; discriminate H.
Defined.

(** A known action is carried out and recorded in the history. *)
Lemma known_action_is_recorded (self : OptimizationEngine) (c : string)
    (optimization_action : string) (now : Z) :
  In optimization_action known_actions ->
  exists r,
    implement_optimization self c optimization_action now
      = (record_in_history self r, Py.Returned r) /\
    success r = true /\ error r = None.
Proof.
  cbn. intros [<-|[<-|[<-|[<-|[]]]]];
    (eexists; split; [reflexivity|split; reflexivity]).
Qed.

End OptimizationProperties.

(** ** Recovery strategy selection *)

Section StrategyProperties.
Import ErrorHandling ErrorSpec.

(** [_determine_recovery_strategy] reads the table of the specification. *)
Lemma determine_recovery_strategy_specified (r : ErrorRecord) :
  _determine_recovery_strategy r = specified_strategy (severity r) (category r).
Proof.
  unfold _determine_recovery_strategy, specified_strategy.
  destruct (severity r), (category r); reflexivity.
Qed.

(** C7.  [_determine_recovery_strategy] is the mapping of the
    specification on the severity and category of the record, and on nothing
    else: fatal severity gives manual intervention; otherwise network and
    database give retry with backoff, rate limiting the circuit breaker,
    authentication escalation, API the fallback, and every other category
    the plain retry.  Being a function, it gives each record one strategy. *)
Theorem determine_recovery_strategy_mapping (r : ErrorRecord) :
  _determine_recovery_strategy r = specified_strategy (severity r) (category r)
  /\ (severity r = FATAL -> _determine_recovery_strategy r = MANUAL_INTERVENTION)
  /\ (severity r <> FATAL ->
      match category r with
      | NETWORK | DATABASE => _determine_recovery_strategy r = RETRY_WITH_BACKOFF
      | RATE_LIMITING => _determine_recovery_strategy r = CIRCUIT_BREAKER
      | AUTHENTICATION => _determine_recovery_strategy r = ESCALATION
      | API => _determine_recovery_strategy r = FALLBACK
      | DATA_VALIDATION | BUSINESS_LOGIC | SYSTEM | EXTERNAL_SERVICE =>
          _determine_recovery_strategy r = RETRY
      end).
Proof.
  split; [apply determine_recovery_strategy_specified|].
  unfold _determine_recovery_strategy.
  destruct (severity r), (category r); repeat split; intros; congruence.
Qed.

Lemma determine_recovery_strategy_mapping_witness :
  _determine_recovery_strategy fatal_record = MANUAL_INTERVENTION /\
  _determine_recovery_strategy throttled_record = CIRCUIT_BREAKER /\
  _determine_recovery_strategy fifth_stalled_record = RETRY.
Proof.
  split; [|split].
  - apply (proj1 (proj2 (determine_recovery_strategy_mapping fatal_record))).
    reflexivity.
  - apply (proj2 (proj2 (determine_recovery_strategy_mapping throttled_record))).
    vm_compute. discriminate.
  - apply (proj2 (proj2 (determine_recovery_strategy_mapping fifth_stalled_record))).
    vm_compute. discriminate.
Defined.

(** The strategy depends on the severity and the category alone. *)
Lemma determine_recovery_strategy_deterministic (r1 r2 : ErrorRecord) :
  severity r1 = severity r2 -> category r1 = category r2 ->
  _determine_recovery_strategy r1 = _determine_recovery_strategy r2.
Proof.
  intros Hs Hc. unfold _determine_recovery_strategy. now rewrite Hs, Hc.
Qed.

End StrategyProperties.

(** ** Step processing *)

Section ThinkingProperties.
Import Thinking ThinkingSpec.

(** [_execute_step_logic] returns for every step. *)
Lemma execute_step_logic_returns (step : ThinkingStep) :
  exists r, _execute_step_logic step = Py.Returned r.
Proof.
  unfold _execute_step_logic.
  destruct (stage step); repeat (destruct (Py.contains _ _)); eexists; reflexivity.
Qed.

(** C3, as the code has it.  [process_thinking_step] sets the step it is
    given to [IN_PROGRESS] whatever the statuses of the other steps, those
    of its dependencies included, and leaves it [COMPLETED]; it changes no
    other step of the pattern. *)
Theorem process_thinking_step_ungated (steps : list ThinkingStep) (i : nat)
    (step : ThinkingStep) (start_time end_time : Z) :
  steps !! i = Some step ->
  exists run, process_thinking_step steps i start_time end_time = Some run /\
    status <$> started run !! i = Some IN_PROGRESS /\
    status <$> finished run !! i = Some COMPLETED /\
    report_success (report run) = true /\
    forall j, j <> i ->
      started run !! j = steps !! j /\ finished run !! j = steps !! j.
Proof.
  intros Hi. unfold process_thinking_step. rewrite Hi. cbn.
  assert (Hlt : i < length steps) by (eapply lookup_lt_Some; eauto).
  destruct (execute_step_logic_returns (set_status IN_PROGRESS step)) as [r ->].
  eexists. split; [reflexivity|]. cbn.
  rewrite !list_lookup_insert_eq by done. cbn.
  repeat split; rewrite list_lookup_insert_ne by done; reflexivity.
Qed.

Lemma process_thinking_step_ungated_witness :
  exists run, second_step_run = Some run /\
    status <$> started run !! 1 = Some IN_PROGRESS /\
    status <$> finished run !! 1 = Some COMPLETED /\
    report_success (report run) = true /\
    forall j, j <> 1 ->
      started run !! j = _generate_campaign_steps !! j /\
      finished run !! j = _generate_campaign_steps !! j.
Proof.
  eapply (process_thinking_step_ungated _generate_campaign_steps 1 _ 0 1000000).
  reflexivity.
Defined.

(** In a fresh campaign pattern the second step, which depends on the first,
    is set [IN_PROGRESS] while the first is still [PENDING]: the
    specification wants every dependency [COMPLETED] by then. *)
Lemma step_started_before_its_dependency :
  exists run step,
    second_step_run = Some run /\
    started run !! 1 = Some step /\
    id step = "analyze_historical_performance" /\
    dependencies step = ["analyze_audience_data"] /\
    status step = IN_PROGRESS /\
    (status <$> started run !! 0) = Some PENDING /\
    dependencies_completed (started run) step = false.
Proof. do 2 eexists. vm_compute. repeat split. Qed.

End ThinkingProperties.

(** ** Alerts *)

Section AlertProperties.
Import Monitoring AlertSpec.

Lemma last_char_app (s1 s2 : string) :
  s2 <> EmptyString -> last_char (s1 +:+ s2) = last_char s2.
Proof.
  intros Hne. induction s1 as [|c s1 IH]; [reflexivity|].
  change (String c s1 +:+ s2) with (String c (s1 +:+ s2)).
  cbn. rewrite IH. destruct s2 as [|d s2]; [contradiction|].
  cbn. now destruct (last_char s2).
Qed.

Lemma ends_in_digit_app (s1 s2 : string) :
  ends_in_digit s2 = true -> ends_in_digit (s1 +:+ s2) = true.
Proof.
  intros H. unfold ends_in_digit in *. rewrite last_char_app; [exact H|].
  intros ->. discriminate.
Qed.

(** The digits of a number are written before what is already there. *)
Lemma pretty_N_go_last (x : N) (s : string) :
  s <> EmptyString -> last_char (pretty_N_go x s) = last_char s.
Proof.
  revert s. induction (N.lt_wf_0 x) as [x _ IH]. intros s Hne.
  destruct (N.eq_dec x 0%N) as [->|Hx]; [reflexivity|].
  rewrite pretty_N_go_step by lia.
  rewrite IH; [|apply N.div_lt; lia|discriminate].
  cbn. destruct s as [|d s]; [contradiction|]. cbn. now destruct (last_char s).
Qed.

Lemma pretty_N_char_digit (x : N) : is_digit (pretty_N_char x) = true.
Proof. unfold pretty_N_char. repeat case_match; reflexivity. Qed.

Lemma pretty_positive_ends_in_digit (p : positive) : ends_in_digit (pretty p) = true.
Proof.
  unfold pretty, pretty_positive, pretty, pretty_N.
  destruct (decide (N.pos p = 0%N)); [discriminate|].
  rewrite pretty_N_go_step by lia. unfold ends_in_digit.
  rewrite pretty_N_go_last by discriminate. cbn. apply pretty_N_char_digit.
Qed.

Lemma pretty_Z_ends_in_digit (z : Z) : ends_in_digit (pretty z) = true.
Proof.
  destruct z; [reflexivity|apply pretty_positive_ends_in_digit|].
  unfold pretty, pretty_Z. apply ends_in_digit_app, pretty_positive_ends_in_digit.
Qed.

(** The id of an alert ends in the digits of its second. *)
Lemma alert_id_ends_in_digit (campaign : string) (m : MetricType) (value : float)
    (th : Thresholds) (now : Z) (alert : Alert) :
  _evaluate_threshold campaign m value th now = Some alert ->
  ends_in_digit (id alert) = true.
Proof.
  unfold _evaluate_threshold. destruct (breach value th) as [[l t]|]; [|discriminate].
  intros [= <-]. cbn. do 4 apply ends_in_digit_app. apply pretty_Z_ends_in_digit.
Qed.

(** The key that [_handle_alert] tests ends in the letter of a level. *)
Lemma existing_alert_key_no_digit (alert : Alert) :
  ends_in_digit (existing_alert_key alert) = false.
Proof.
  unfold existing_alert_key. destruct (metric_type alert), (level alert); reflexivity.
Qed.

Lemma dedup_key_is_free (self : PerformanceMonitor) (alert : Alert) :
  keys_are_ids self -> active_alerts self !! existing_alert_key alert = None.
Proof.
  intros Hids. destruct (active_alerts self !! existing_alert_key alert) eqn:E; [|done].
  assert (H : ends_in_digit (existing_alert_key alert) = true) by (apply Hids; eauto).
  rewrite existing_alert_key_no_digit in H. discriminate.
Qed.

Lemma handle_alert_stores (self : PerformanceMonitor) (alert : Alert) :
  keys_are_ids self ->
  exists stored, active_alerts (_handle_alert self alert) !! id alert = Some stored /\
    acknowledged stored = acknowledged alert /\
    metric_type stored = metric_type alert /\ level stored = level alert.
Proof.
  intros Hids. unfold _handle_alert. rewrite dedup_key_is_free by done.
  destruct (level alert) eqn:El; cbn; rewrite ?lookup_alter_eq, lookup_insert_eq;
    eexists; (split; [reflexivity|]); cbn; auto.
Qed.

Lemma handle_alert_keeps_ids (self : PerformanceMonitor) (alert : Alert) :
  keys_are_ids self -> ends_in_digit (id alert) = true ->
  keys_are_ids (_handle_alert self alert).
Proof.
  intros Hids Hid k. unfold _handle_alert. rewrite dedup_key_is_free by done.
  assert (Hins : is_Some (<[id alert := alert]> (active_alerts self) !! k) ->
                 ends_in_digit k = true).
  { destruct (decide (id alert = k)) as [<-|Hne]; [done|].
    rewrite lookup_insert_ne by done. apply Hids. }
  destruct (level alert); cbn; try exact Hins.
  rewrite lookup_alter_is_Some. exact Hins.
Qed.

Lemma check_keeps_ids (self : PerformanceMonitor) (campaign : string)
    (metrics : list (MetricType * float)) (now : Z) :
  keys_are_ids self -> keys_are_ids (_check_alert_conditions self campaign metrics now).
Proof.
  unfold _check_alert_conditions. revert self.
  induction metrics as [|[m value] metrics IH]; intros self Hids; [exact Hids|].
  cbn [fold_left]. apply IH.
  destruct (alert_thresholds self m) as [th|]; [|exact Hids].
  destruct (_evaluate_threshold campaign m value th now) as [alert|] eqn:E; [|exact Hids].
  apply handle_alert_keeps_ids; [exact Hids|]. eapply alert_id_ends_in_digit, E.
Qed.

Lemma reachable_keys_are_ids (self : PerformanceMonitor) :
  monitor_reachable self -> keys_are_ids self.
Proof.
  induction 1 as [|self campaign m value now _ IH|self campaign metrics now _ IH
                  |self alert_id _ IH].
  - intros k [a Ha]. cbn in Ha. rewrite lookup_empty in Ha. discriminate.
  - exact IH.
  - now apply check_keeps_ids.
  - intros k. unfold acknowledge_alert.
    destruct (active_alerts self !! alert_id); cbn; [|apply IH].
    rewrite lookup_alter_is_Some. apply IH.
Qed.

(** No alert is ever suppressed: in every monitor the monitoring loop can
    reach, the alert of a breach is stored, unacknowledged, whatever alerts
    are active. *)
Lemma breach_always_raises_alert (self : PerformanceMonitor) (campaign : string)
    (m : MetricType) (value : float) (th : Thresholds) (now : Z) (alert : Alert) :
  monitor_reachable self ->
  _evaluate_threshold campaign m value th now = Some alert ->
  exists stored, active_alerts (_handle_alert self alert) !! id alert = Some stored /\
    acknowledged stored = false /\ metric_type stored = m /\ level stored = level alert.
Proof.
  intros Hreach Halert.
  destruct (handle_alert_stores self alert (reachable_keys_are_ids self Hreach))
    as (stored & Hs & Hack & Hm & Hl).
  exists stored. split; [exact Hs|].
  unfold _evaluate_threshold in Halert.
  destruct (breach value th) as [[l t]|]; [|discriminate].
  injection Halert as <-. cbn in *. auto.
Qed.

Lemma breach_always_raises_alert_witness :
  exists stored,
    active_alerts (_handle_alert after_first_sample second_alert)
      !! "campaign_response_rate_1700000030" = Some stored /\
    acknowledged stored = false /\ metric_type stored = RESPONSE_RATE /\
    level stored = CRITICAL.
Proof.
  apply (breach_always_raises_alert after_first_sample "campaign" RESPONSE_RATE 0.01
           (mk_thresholds 0.05 0.10 0.22 0.35 0.50) second_sample_time second_alert).
  - apply monitor_check, monitor_init.
  - vm_compute. reflexivity.
Defined.

(** C2 at two consecutive breaching samples.  The first sample raises one
    critical response-rate alert.  The second, 30 seconds later, is tested
    against the key [response_rate_critical], under which nothing is ever
    stored (alerts are stored under their ids), so it is not suppressed:
    two unacknowledged alerts of the same metric type and level are active.
    A breach after the first alert is acknowledged raises an alert as
    well. *)
Theorem consecutive_breaches_raise_two_alerts :
  (th ← _setup_default_thresholds RESPONSE_RATE;
   existing_alert_key <$>
     _evaluate_threshold "campaign" RESPONSE_RATE 0.01 th second_sample_time)
    = Some "response_rate_critical" /\
  (length (unacknowledged after_first_sample RESPONSE_RATE CRITICAL) = 1 /\
   size (active_alerts after_first_sample) = 1 /\
   is_Some (active_alerts after_first_sample !! "campaign_response_rate_1700000000") /\
   active_alerts after_first_sample !! "response_rate_critical" = None) /\
  (length (unacknowledged after_second_sample RESPONSE_RATE CRITICAL) = 2 /\
   size (active_alerts after_second_sample) = 2 /\
   is_Some (active_alerts after_second_sample !! "campaign_response_rate_1700000000") /\
   is_Some (active_alerts after_second_sample !! "campaign_response_rate_1700000030")) /\
  (length (unacknowledged after_acknowledgement RESPONSE_RATE CRITICAL) = 0 /\
   length (unacknowledged after_third_sample RESPONSE_RATE CRITICAL) = 1 /\
   is_Some (active_alerts after_third_sample !! "campaign_response_rate_1700000060")).
Proof.
  repeat split; try (vm_compute; reflexivity); vm_compute; eexists; reflexivity.
Qed.

End AlertProperties.

(** ** Error handling and circuit breakers *)

Section ErrorProperties.
Import ErrorHandling ErrorSpec.

(** [_analyze_error_patterns] leaves all of the record but its strategy. *)
Lemma analyze_keeps_classification (patterns : gmap string (list ErrorRecord))
    (r : ErrorRecord) (now : Z) :
  let r' := snd (_analyze_error_patterns patterns r now) in
  severity r' = severity r /\ category r' = category r /\ context r' = context r
  /\ error_id r' = error_id r /\ error_type r' = error_type r
  /\ recovery_attempts r' = recovery_attempts r.
Proof.
  unfold _analyze_error_patterns. cbn.
  repeat case_match; repeat split.
Qed.

(** The strategy in the result of [handle_error] is the one of
    [_determine_recovery_strategy] for the classification of the error. *)
Lemma handle_error_strategy (hash : string -> Z) (self : ErrorHandlingEngine)
    (error : PyException) (ctx : ErrorContext) (now : Z) :
  result_recovery_strategy (snd (handle_error hash self error ctx now))
  = specified_strategy (_classify_error_severity error ctx)
      (_classify_error_category error ctx).
Proof.
  unfold handle_error.
  pose proof (analyze_keeps_classification (error_patterns self)
                (_create_error_record hash error ctx now) now) as (Hs & Hc & _).
  destruct (_analyze_error_patterns _ _ _) as [patterns r]. cbn in Hs, Hc.
  destruct (_execute_recovery _ _ _ _) as [[[breakers history] r''] result]. cbn.
  rewrite (determine_recovery_strategy_specified r), Hs, Hc. reflexivity.
Qed.

(** The breakers after [handle_error]: one more failure for the component
    when the strategy is the circuit breaker, no change otherwise. *)
Lemma handle_error_breakers (hash : string -> Z) (self : ErrorHandlingEngine)
    (error : PyException) (ctx : ErrorContext) (now : Z) :
  circuit_breakers (fst (handle_error hash self error ctx now)) =
    match specified_strategy (_classify_error_severity error ctx)
            (_classify_error_category error ctx) with
    | CIRCUIT_BREAKER =>
        <[breaker_component ctx :=
            record_failure
              (default new_breaker (circuit_breakers self !! breaker_component ctx)) now]>
          (circuit_breakers self)
    | _ => circuit_breakers self
    end.
Proof.
  unfold handle_error.
  pose proof (analyze_keeps_classification (error_patterns self)
                (_create_error_record hash error ctx now) now) as (Hs & Hc & Hx & _).
  destruct (_analyze_error_patterns _ _ _) as [patterns r]. cbn in Hs, Hc, Hx.
  rewrite (determine_recovery_strategy_specified r), Hs, Hc.
  unfold _execute_recovery, _handle_circuit_breaker, component_of, breaker_component.
  cbn. rewrite Hx. cbn.
  destruct (specified_strategy _ _); reflexivity.
Qed.

(** The result of [handle_error] never shows the escalation of
    [_analyze_error_patterns]: the strategy it reports is the one
    [_determine_recovery_strategy] gives the new record, however many errors
    of the pattern the last hour has seen. *)
Lemma handle_error_reports_determined_strategy (hash : string -> Z)
    (self : ErrorHandlingEngine) (error : PyException) (ctx : ErrorContext) (now : Z) :
  result_recovery_strategy (snd (handle_error hash self error ctx now))
  = _determine_recovery_strategy (_create_error_record hash error ctx now).
Proof.
  rewrite handle_error_strategy, determine_recovery_strategy_specified. reflexivity.
Qed.

Lemma new_breaker_ok : breaker_ok new_breaker.
Proof. unfold breaker_ok. cbn. repeat split; try lia; discriminate. Qed.

Lemma record_failure_ok (b : CircuitBreaker) (now : Z) :
  breaker_ok b -> breaker_ok (record_failure b now).
Proof.
  intros (Ht & Hto & Hc & Ho & Hh). unfold breaker_ok, record_failure. cbn.
  destruct (Z.leb_spec (failure_threshold b) (failure_count b + 1)).
  - repeat split; try lia; try done.
  - repeat split; try lia; try done; intros Hopen; apply Ho in Hopen; lia.
Qed.

Lemma reset_breaker_ok (b : CircuitBreaker) : breaker_ok b -> breaker_ok (reset_breaker b).
Proof.
  intros (Ht & Hto & Hc & Ho & Hh). unfold breaker_ok, reset_breaker. cbn.
  repeat split; try lia; try discriminate.
Qed.

Section Reachability.
Variable hash : string -> Z.

Lemma reachable_breakers_ok (self : ErrorHandlingEngine) :
  reachable hash self ->
  forall comp b, circuit_breakers self !! comp = Some b -> breaker_ok b.
Proof.
  induction 1 as [|self error ctx now _ IH|self comp' _ IH]; intros comp b Hb.
  - cbn in Hb. rewrite lookup_empty in Hb. discriminate.
  - rewrite handle_error_breakers in Hb.
    destruct (specified_strategy _ _); try (eapply IH; eassumption).
    destruct (decide (breaker_component ctx = comp)) as [Heq|Hne].
    + subst comp. rewrite lookup_insert_eq in Hb. injection Hb as <-.
      apply record_failure_ok.
      destruct (circuit_breakers self !! breaker_component ctx) eqn:E; cbn.
      * eapply IH; eassumption.
      * apply new_breaker_ok.
    + rewrite lookup_insert_ne in Hb by done. eapply IH; eassumption.
  - unfold reset_circuit_breaker in Hb.
    destruct (circuit_breakers self !! comp') eqn:E; cbn in Hb; [|eapply IH; eassumption].
    destruct (decide (comp' = comp)) as [->|Hne].
    + rewrite lookup_alter_eq, E in Hb. cbn in Hb. injection Hb as <-.
      apply reset_breaker_ok. eapply IH; eassumption.
    + rewrite lookup_alter_ne in Hb by done. eapply IH; eassumption.
Qed.

(** An open breaker is open after any further error, whenever it comes. *)
Lemma open_stays_open (self : ErrorHandlingEngine) (comp : string) (b : CircuitBreaker)
    (error : PyException) (ctx : ErrorContext) (now : Z) :
  circuit_breakers self !! comp = Some b -> state b = open ->
  exists b', circuit_breakers (fst (handle_error hash self error ctx now)) !! comp = Some b'
             /\ state b' = open.
Proof.
  intros Hb Hopen. rewrite handle_error_breakers.
  destruct (specified_strategy _ _); try (exists b; split; assumption).
  destruct (decide (breaker_component ctx = comp)) as [Heq|Hne].
  - subst comp. rewrite lookup_insert_eq, Hb. eexists. split; [reflexivity|].
    cbn. rewrite Hopen. now destruct (_ <=? _)%Z.
  - rewrite lookup_insert_ne by done. exists b. split; assumption.
Qed.

(** C5, as the code has it.  In every engine reached by handling errors and
    resetting breakers, the breaker of a component has threshold 5, is open
    exactly when its failure count has reached the threshold and closed
    exactly when it is below, and is never half-open.  A status check
    reports that state whenever it is made, and an open breaker is still
    open after any further error: only [reset_circuit_breaker] closes it. *)
Theorem breaker_open_iff_threshold (self : ErrorHandlingEngine) (comp : string)
    (b : CircuitBreaker) :
  reachable hash self ->
  circuit_breakers self !! comp = Some b ->
  failure_threshold b = 5%Z /\
  (state b = open <-> (failure_threshold b <= failure_count b)%Z) /\
  (state b = closed <-> (failure_count b < failure_threshold b)%Z) /\
  state b <> half_open /\
  (forall now, status_state <$> status_check self now !! comp = Some (state b)) /\
  (state b = open ->
   forall error ctx now,
   exists b', circuit_breakers (fst (handle_error hash self error ctx now)) !! comp = Some b'
              /\ state b' = open).
Proof.
  intros Hreach Hb.
  destruct (reachable_breakers_ok self Hreach comp b Hb) as (Ht & _ & _ & Ho & Hh).
  split; [exact Ht|]. split; [exact Ho|]. split.
  { destruct (state b) eqn:E.
    - split; [|reflexivity]. intros _.
      destruct (Z.lt_ge_cases (failure_count b) (failure_threshold b)); [done|].
      apply Ho in H. discriminate.
    - split; [discriminate|]. intros Hlt.
      assert (failure_threshold b <= failure_count b)%Z by (now apply Ho). lia.
    - contradiction. }
  split; [exact Hh|]. split.
  - intros now. unfold status_check, _get_circuit_breaker_status.
    rewrite lookup_fmap, Hb. reflexivity.
  - intros Hopen error ctx now. eapply open_stays_open; eassumption.
Qed.

Lemma handle_next_eq (error : PyException) (self : ErrorHandlingEngine)
    (results : list HandleResult) (t : Z) :
  handle_next hash error (self, results) t
  = (fst (handle_error hash self error (waha_context t) t),
     results ++ [snd (handle_error hash self error (waha_context t) t)]).
Proof.
  unfold handle_next. change (fst (self, results)) with self.
  change (snd (self, results)) with results.
  now destruct (handle_error hash self error (waha_context t) t).
Qed.

Lemma handle_all_reachable (error : PyException) (times : list Z)
    (self : ErrorHandlingEngine) :
  reachable hash self -> reachable hash (fst (handle_all hash error times self)).
Proof.
  unfold handle_all. generalize (@nil HandleResult). revert self.
  induction times as [|t times IH]; intros self results Hreach; [exact Hreach|].
  change (fold_left (handle_next hash error) (t :: times) (self, results))
    with (fold_left (handle_next hash error) times
            (handle_next hash error (self, results) t)).
  rewrite handle_next_eq. apply IH. now apply reachable_handle_error.
Qed.

End Reachability.

(** The breakers and the reported strategies of [handle_all] do not depend
    on the hash. *)
Lemma handle_all_outcome (hash : string -> Z) (error : PyException) (times : list Z)
    (self : ErrorHandlingEngine) :
  circuit_breakers (fst (handle_all hash error times self))
  = fold_left (fun bs t => breakers_after bs error (waha_context t) t) times
      (circuit_breakers self)
  /\ map result_recovery_strategy (snd (handle_all hash error times self))
    = map (fun t => reported_strategy error (waha_context t)) times.
Proof.
  unfold handle_all.
  change (map (fun t => reported_strategy error (waha_context t)) times)
    with (map result_recovery_strategy [] ++
          map (fun t => reported_strategy error (waha_context t)) times).
  generalize (@nil HandleResult). revert self.
  induction times as [|t times IH]; intros self results.
  - cbn. now rewrite app_nil_r.
  - change (fold_left (handle_next hash error) (t :: times) (self, results))
      with (fold_left (handle_next hash error) times
              (handle_next hash error (self, results) t)).
    rewrite handle_next_eq.
    destruct (IH (fst (handle_error hash self error (waha_context t) t))
                (results ++ [snd (handle_error hash self error (waha_context t) t)]))
      as [IH1 IH2].
    split.
    + rewrite IH1, handle_error_breakers. reflexivity.
    + rewrite IH2, map_app. cbn [map]. rewrite handle_error_strategy, <- app_assoc.
      reflexivity.
Qed.

Lemma breaker_open_iff_threshold_witness :
  circuit_breakers throttled_engine !! "waha-send" = Some opened_breaker /\
  failure_threshold opened_breaker = 5%Z /\
  (state opened_breaker = open
   <-> (failure_threshold opened_breaker <= failure_count opened_breaker)%Z) /\
  (state opened_breaker = closed
   <-> (failure_count opened_breaker < failure_threshold opened_breaker)%Z) /\
  state opened_breaker <> half_open /\
  (forall now,
     status_state <$> status_check throttled_engine now !! "waha-send"
     = Some (state opened_breaker)) /\
  (state opened_breaker = open ->
   forall error ctx now,
   exists b',
     circuit_breakers (fst (handle_error sample_hash throttled_engine error ctx now))
       !! "waha-send" = Some b' /\ state b' = open).
Proof.
  assert (Hb : circuit_breakers throttled_engine !! "waha-send" = Some opened_breaker)
    by (vm_compute; reflexivity).
  split; [exact Hb|].
  apply (breaker_open_iff_threshold sample_hash throttled_engine "waha-send"
           opened_breaker).
  - apply handle_all_reachable, reachable_init.
  - exact Hb.
Defined.

(** The breaker of [waha-send] opens at the fifth failure, at minute 40.
    A status check twenty minutes later, well past the cool-down of five
    minutes, reports it open, not half-open: no call moves a breaker to
    half-open, and the status check reads no clock. *)
Lemma open_breaker_past_cool_down :
  let last := fifth_time in
  let check := (last + 2 * ten_minutes)%Z in
  circuit_breakers throttled_engine !! "waha-send" = Some opened_breaker /\
  last_failure opened_breaker = Some last /\
  (last + timeout opened_breaker <= check)%Z /\
  status_check throttled_engine check !! "waha-send"
  = Some {| status_state := open; status_failure_count := 5;
            status_last_failure := Some last |} /\
  status_state <$> status_check throttled_engine check !! "waha-send" <> Some half_open.
Proof.
  cbv zeta. repeat split; try (vm_compute; reflexivity).
  - vm_compute. discriminate.
  - vm_compute. discriminate.
Qed.

(** C4, as the code has it.  [_analyze_error_patterns] sets the strategy of
    a record from retry to circuit breaker when the record is the fifth, or
    a later one, of its error type and category within the trailing hour,
    and leaves the record as it is below five.  The circuit-breaker handler
    adds one failure to the breaker of the component and opens it when the
    count reaches the threshold, not before.  Rate-limit errors are handled
    by the circuit breaker: of five of them on [waha-send] within an hour,
    the first four leave the breaker closed and the fifth opens it. *)
Theorem pattern_escalation_and_breaker :
  (forall (patterns : gmap string (list ErrorRecord)) (r : ErrorRecord) (now : Z),
     let r' := snd (_analyze_error_patterns patterns r now) in
     (5 <= seen_within_hour patterns r now -> recovery_strategy r = RETRY ->
      recovery_strategy r' = CIRCUIT_BREAKER) /\
     (seen_within_hour patterns r now < 5 -> r' = r))
  /\
  (forall (breakers : gmap string CircuitBreaker) (r : ErrorRecord) (now : Z),
     let before := default new_breaker (breakers !! component_of r) in
     exists after result,
       _handle_circuit_breaker breakers r now
         = (<[component_of r := after]> breakers, result) /\
       failure_count after = (failure_count before + 1)%Z /\
       ((failure_threshold before <= failure_count before + 1)%Z ->
        state after = open /\ circuit_state result = Some open) /\
       ((failure_count before + 1 < failure_threshold before)%Z ->
        state after = state before /\ circuit_state result = Some closed))
  /\
  (forall (hash : string -> Z),
     let four := handle_all hash throttled (firstn 4 five_times) ErrorHandlingEngine_init in
     let five := handle_all hash throttled five_times ErrorHandlingEngine_init in
     map result_recovery_strategy (snd five)
       = [CIRCUIT_BREAKER; CIRCUIT_BREAKER; CIRCUIT_BREAKER; CIRCUIT_BREAKER;
          CIRCUIT_BREAKER] /\
     (state <$> circuit_breakers (fst four) !! "waha-send") = Some closed /\
     (failure_count <$> circuit_breakers (fst four) !! "waha-send") = Some 4%Z /\
     (state <$> circuit_breakers (fst five) !! "waha-send") = Some open /\
     (failure_count <$> circuit_breakers (fst five) !! "waha-send") = Some 5%Z).
Proof.
  split; [|split].
  - intros patterns r now. cbv zeta.
    change (seen_within_hour patterns r now)
      with (length (recent_errors
                      (Monitoring.get_list patterns (pattern_key r) ++ [r]) now)).
    unfold _analyze_error_patterns. cbn [snd].
    destruct (Nat.leb_spec 5
                (length (recent_errors
                           (Monitoring.get_list patterns (pattern_key r) ++ [r]) now))).
    + split; [|lia]. intros _ Hretry. rewrite Hretry. reflexivity.
    + split; [lia|reflexivity].
  - intros breakers r now. cbv zeta. unfold _handle_circuit_breaker.
    set (before := default new_breaker (breakers !! component_of r)).
    do 2 eexists. split; [reflexivity|]. cbn.
    destruct (Z.leb_spec (failure_threshold before) (failure_count before + 1));
      repeat split; intros; try lia; reflexivity.
  - intros hash. cbv zeta.
    destruct (handle_all_outcome hash throttled five_times ErrorHandlingEngine_init)
      as [Hb5 Hs5].
    destruct (handle_all_outcome hash throttled (firstn 4 five_times)
                ErrorHandlingEngine_init) as [Hb4 _].
    rewrite Hs5, Hb5, Hb4. repeat split; vm_compute; reflexivity.
Qed.

Lemma pattern_escalation_and_breaker_witness :
  seen_within_hour (error_patterns stalled_engine) fifth_stalled_record fifth_time = 5 /\
  recovery_strategy fifth_stalled_record = RETRY /\
  recovery_strategy
    (snd (_analyze_error_patterns (error_patterns stalled_engine)
            fifth_stalled_record fifth_time))
  = CIRCUIT_BREAKER.
Proof.
  assert (Hseen :
    seen_within_hour (error_patterns stalled_engine) fifth_stalled_record fifth_time = 5)
    by (vm_compute; reflexivity).
  split; [exact Hseen|]. split; [reflexivity|].
  apply (proj1 (proj1 pattern_escalation_and_breaker
                  (error_patterns stalled_engine) fifth_stalled_record fifth_time)).
  - rewrite Hseen. lia.
  - reflexivity.
Defined.

(** Five stalled-queue errors on [waha-send] within an hour: category
    system, strategy retry.  The fifth is the fifth of its pattern within
    the hour, and [handle_error] still reports retry for it, and no breaker
    of [waha-send] exists, let alone an open one.  The same five times with
    a connection error, of category network: every result reports retry with
    backoff, and there is no breaker either. *)
Lemma fifth_error_not_escalated :
  let stalled5 := handle_all sample_hash stalled five_times ErrorHandlingEngine_init in
  let unreachable5 :=
    handle_all sample_hash unreachable five_times ErrorHandlingEngine_init in
  (map result_category (snd stalled5) = [SYSTEM; SYSTEM; SYSTEM; SYSTEM; SYSTEM] /\
   length (recent_errors
             (Monitoring.get_list (error_patterns (fst stalled5)) "CampaignError_system")
             fifth_time) = 5 /\
   map result_recovery_strategy (snd stalled5) = [RETRY; RETRY; RETRY; RETRY; RETRY] /\
   last (map result_recovery_strategy (snd stalled5)) <> Some CIRCUIT_BREAKER /\
   circuit_breakers (fst stalled5) !! "waha-send" = None) /\
  (map result_category (snd unreachable5)
     = [NETWORK; NETWORK; NETWORK; NETWORK; NETWORK] /\
   map result_recovery_strategy (snd unreachable5)
     = [RETRY_WITH_BACKOFF; RETRY_WITH_BACKOFF; RETRY_WITH_BACKOFF;
        RETRY_WITH_BACKOFF; RETRY_WITH_BACKOFF] /\
   last (map result_recovery_strategy (snd unreachable5)) <> Some CIRCUIT_BREAKER /\
   circuit_breakers (fst unreachable5) !! "waha-send" = None).
Proof.
  cbv zeta. repeat split; try (vm_compute; reflexivity); vm_compute; discriminate.
Qed.

End ErrorProperties.

(** ** More floating-point facts *)

Lemma ltb_leb (x y : float) : PrimFloat.ltb x y = true -> PrimFloat.leb x y = true.
Proof.
  rewrite FloatAxioms.ltb_spec, FloatAxioms.leb_spec.
  unfold SFltb, SFleb. destruct (SFcompare _ _) as [[]|]; congruence.
Qed.

(** A float that differs from itself is a NaN, and compares below and above
    nothing. *)
Lemma nan_compares_false (x y : float) :
  PrimFloat.eqb x x = false ->
  PrimFloat.ltb x y = false /\ PrimFloat.ltb y x = false.
Proof.
  rewrite FloatAxioms.eqb_spec, !FloatAxioms.ltb_spec.
  destruct (Prim2SF x) as [[|]|[|] | |[|] m e]; cbn; try congruence.
  - destruct (Prim2SF y) as [[|]|[|] | |[|] ? ?]; cbn; auto.
  - rewrite Z.compare_refl, Pos.compare_cont_refl. cbn. congruence.
  - rewrite Z.compare_refl, Pos.compare_cont_refl. cbn. congruence.
Qed.

Lemma nan_not_at_least (y x : float) :
  PrimFloat.eqb x x = false -> PrimFloat.leb y x = false.
Proof.
  rewrite FloatAxioms.eqb_spec, FloatAxioms.leb_spec.
  destruct (Prim2SF x) as [[|]|[|] | |[|] m e]; cbn; try congruence.
  - intros _. destruct (Prim2SF y) as [[|]|[|] | |[|] ? ?]; reflexivity.
  - rewrite Z.compare_refl, Pos.compare_cont_refl. cbn. congruence.
  - rewrite Z.compare_refl, Pos.compare_cont_refl. cbn. congruence.
Qed.

(** numpy's pairwise sum does not depend on the fuel, once it is more than
    the length of the list. *)
Lemma pairwise_sum_fuel (fuel1 fuel2 : nat) (l : list float) :
  length l < fuel1 -> length l < fuel2 ->
  Np.pairwise_sum fuel1 l = Np.pairwise_sum fuel2 l.
Proof.
  revert fuel2 l. induction fuel1 as [|fuel1 IH]; intros fuel2 l H1 H2; [lia|].
  destruct fuel2 as [|fuel2]; [lia|]. cbn [Np.pairwise_sum].
  destruct (Nat.ltb_spec (length l) 8) as [|H8]; [reflexivity|].
  destruct (Nat.leb_spec (length l) 128) as [|H128]; [reflexivity|].
  assert (Hhalf : 64 <= length l / 2) by (apply Nat.div_le_lower_bound; lia).
  assert (Hlt : length l / 2 < length l) by (apply Nat.div_lt; lia).
  assert (Hmod : (length l / 2) mod 8 < 8) by (apply Nat.mod_upper_bound; lia).
  set (n2 := length l / 2 - (length l / 2) mod 8) in *.
  assert (Hn2 : 0 < n2 < length l) by (unfold n2; lia).
  assert (Hfirst : length (firstn n2 l) = n2) by (rewrite List.length_firstn; lia).
  assert (Hskip : length (skipn n2 l) = length l - n2) by apply List.length_skipn.
  f_equal; apply IH; lia.
Qed.

(** ** The ledger: what tracking changes *)

Section LedgerProperties.
Import Monitoring LedgerSpec LedgerStates.

Lemma sum_snoc (l : list float) (x : float) : Py.sum (l ++ [x]) = (Py.sum l + x)%float.
Proof. unfold Py.sum. now rewrite fold_left_app. Qed.

Lemma get_list_insert {A} (d : gmap string (list A)) (k k' : string) (v : list A) :
  get_list (<[k := v]> d) k' = if decide (k = k') then v else get_list d k'.
Proof.
  unfold get_list. destruct (decide (k = k')) as [->|Hne].
  - now rewrite lookup_insert_eq.
  - now rewrite lookup_insert_ne.
Qed.

(** What a calculation holds, read off the tracker. *)
Lemma calculate_real_time_roi_reads (self : ROITracker) (c : string) (now : Z) :
  exists r, calculate_real_time_roi self c now = Some r /\
    campaign_id r = c /\ calculation_timestamp r = now /\
    total_investment r = Py.sum (get_list (investment_tracking self) c) /\
    total_revenue r = Py.sum (get_list (revenue_tracking self) c) /\
    breakdown r = _calculate_roi_breakdown self c /\
    _generate_roi_projections self c now = Some (projections r).
Proof.
  destruct (projections_total self c now) as [p Hp].
  unfold calculate_real_time_roi. rewrite Hp.
  destruct (PrimFloat.ltb 0 (Py.sum (get_list (investment_tracking self) c))) eqn:L.
  - rewrite !truediv_positive by done. cbn. eexists. split; [reflexivity|]. now cbn.
  - cbn. eexists. split; [reflexivity|]. now cbn.
Qed.

(** A calculation for a campaign reads the three lists of that campaign and
    nothing else of the tracker. *)
Lemma calculate_real_time_roi_local (self1 self2 : ROITracker) (c : string) (now : Z) :
  get_list (investment_tracking self1) c = get_list (investment_tracking self2) c ->
  get_list (revenue_tracking self1) c = get_list (revenue_tracking self2) c ->
  get_list (conversion_tracking self1) c = get_list (conversion_tracking self2) c ->
  calculate_real_time_roi self1 c now = calculate_real_time_roi self2 c now.
Proof.
  intros Hi Hr Hc.
  unfold calculate_real_time_roi, _generate_roi_projections, _calculate_roi_breakdown.
  now rewrite Hi, Hr, Hc.
Qed.

(** Recording an investment adds its amount to the total invested of the
    campaign and changes neither its revenue nor its conversions; recording
    a conversion adds its revenue to the total revenue and one conversion to
    the count, and changes nothing invested.  Either call leaves what is
    calculated for every other campaign as it was. *)
Theorem tracking_adds_to_one_campaign (self : ROITracker) (c : string) (now : Z) :
  exists r, calculate_real_time_roi self c now = Some r /\
  (forall amount category,
     let self' := track_investment self c amount category in
     (exists r', calculate_real_time_roi self' c now = Some r' /\
        total_investment r' = (total_investment r + amount)%float /\
        total_revenue r' = total_revenue r /\
        breakdown r' = breakdown r) /\
     forall c' now', c' <> c ->
       calculate_real_time_roi self' c' now' = calculate_real_time_roi self c' now') /\
  (forall student rev ctype t,
     let self' := track_conversion self c student rev ctype t in
     (exists r', calculate_real_time_roi self' c now = Some r' /\
        total_revenue r' = (total_revenue r + rev)%float /\
        total_investment r' = total_investment r /\
        total_conversions (breakdown r') = (total_conversions (breakdown r) + 1)%Z) /\
     forall c' now', c' <> c ->
       calculate_real_time_roi self' c' now' = calculate_real_time_roi self c' now').
Proof.
  destruct (calculate_real_time_roi_reads self c now) as (r & Hr & _ & _ & Hi & Hv & Hb & _).
  exists r. split; [exact Hr|]. split.
  - intros amount category self'. split.
    + destruct (calculate_real_time_roi_reads self' c now)
        as (r' & Hr' & _ & _ & Hi' & Hv' & Hb' & _).
      exists r'. split; [exact Hr'|].
      rewrite Hi', Hv', Hb', Hi, Hv, Hb. subst self'. cbn.
      rewrite get_list_insert, decide_True by done.
      now rewrite sum_snoc.
    + intros c' now' Hne. apply calculate_real_time_roi_local; subst self'; cbn; try done.
      rewrite get_list_insert, decide_False; congruence.
  - intros student rev ctype t self'. split.
    + destruct (calculate_real_time_roi_reads self' c now)
        as (r' & Hr' & _ & _ & Hi' & Hv' & Hb' & _).
      exists r'. split; [exact Hr'|].
      rewrite Hi', Hv', Hb', Hi, Hv, Hb. subst self'. cbn.
      rewrite !get_list_insert, !decide_True by done.
      rewrite sum_snoc. repeat split. unfold Py.len. rewrite length_app. cbn. lia.
    + intros c' now' Hne. apply calculate_real_time_roi_local; subst self'; cbn; try done.
      * rewrite get_list_insert, decide_False; congruence.
      * rewrite get_list_insert, decide_False; congruence.
Qed.

(** In every tracker that tracking calls lead to, the revenue list of a
    campaign holds the revenues of its conversion records, in order, and
    each record names the campaign it is filed under. *)
Lemma reachable_ledger_agrees (self : ROITracker) :
  tracker_reachable self ->
  forall c,
    get_list (revenue_tracking self) c = map revenue (get_list (conversion_tracking self) c)
    /\ Forall (fun conv => conv_campaign_id conv = c) (get_list (conversion_tracking self) c).
Proof.
  induction 1 as [|self campaign amount category _ IH
                  |self campaign student rev ctype now _ IH]; intros c.
  - unfold get_list. cbn. rewrite !lookup_empty. cbn. auto.
  - apply IH.
  - cbn. rewrite !get_list_insert. destruct (decide (campaign = c)) as [->|Hne].
    + destruct (IH c) as [IH1 IH2]. rewrite IH1, map_app. split; [done|].
      apply Forall_app. split; [done|]. by constructor.
    + apply IH.
Qed.

(** So the total revenue of a calculation is the sum of the revenues of the
    conversions the breakdown counts, and the breakdown counts as many
    conversions as revenues were recorded. *)
Theorem revenue_matches_conversions (self : ROITracker) (c : string) (now : Z) :
  tracker_reachable self ->
  exists r, calculate_real_time_roi self c now = Some r /\
    total_revenue r = Py.sum (map revenue (get_list (conversion_tracking self) c)) /\
    total_conversions (breakdown r) = Py.len (get_list (revenue_tracking self) c) /\
    Forall (fun conv => conv_campaign_id conv = c) (get_list (conversion_tracking self) c).
Proof.
  intros Hreach.
  destruct (calculate_real_time_roi_reads self c now) as (r & Hr & _ & _ & _ & Hv & Hb & _).
  destruct (reachable_ledger_agrees self Hreach c) as [H1 H2].
  exists r. split; [exact Hr|]. rewrite Hv, Hb, H1. cbn.
  unfold Py.len. now rewrite length_map.
Qed.

Lemma revenue_matches_conversions_witness :
  exists r, calculate_real_time_roi small_ledger "campaign" day_ten = Some r /\
    total_revenue r
      = Py.sum (map revenue (get_list (conversion_tracking small_ledger) "campaign")) /\
    total_conversions (breakdown r)
      = Py.len (get_list (revenue_tracking small_ledger) "campaign") /\
    Forall (fun conv => conv_campaign_id conv = "campaign")
      (get_list (conversion_tracking small_ledger) "campaign").
Proof.
  apply (revenue_matches_conversions small_ledger "campaign" day_ten).
  unfold small_ledger. repeat constructor.
Defined.

Lemma segment_conversions_shift (s : Segment) (cs : list Conversion) (a : Z) :
  fold_left (fun acc c => if segment_eqb (segment_of c) s then (acc + 1)%Z else acc) cs a
  = (a + segment_conversions s cs)%Z.
Proof.
  unfold segment_conversions. revert a.
  induction cs as [|c cs IH]; intros a; cbn; [lia|].
  destruct (segment_eqb (segment_of c) s).
  - rewrite IH, (IH (0 + 1)%Z). lia.
  - now rewrite IH.
Qed.

Lemma segment_conversions_cons (s : Segment) (c : Conversion) (cs : list Conversion) :
  segment_conversions s (c :: cs)
  = ((if segment_eqb (segment_of c) s then 1 else 0) + segment_conversions s cs)%Z.
Proof.
  unfold segment_conversions at 1. cbn. rewrite segment_conversions_shift.
  destruct (segment_eqb (segment_of c) s); lia.
Qed.

Lemma segment_conversions_filter (s : Segment) (p : Conversion -> bool)
    (cs : list Conversion) :
  (forall conv, segment_eqb (segment_of conv) s = p conv) ->
  segment_conversions s cs = Py.len (List.filter p cs).
Proof.
  intros Hp. unfold Py.len. induction cs as [|conv cs IH]; [reflexivity|].
  rewrite segment_conversions_cons, IH, Hp. cbn [List.filter].
  destruct (p conv); cbn [length]; lia.
Qed.

Lemma segment_revenue_filter (s : Segment) (p : Conversion -> bool)
    (cs : list Conversion) :
  (forall conv, segment_eqb (segment_of conv) s = p conv) ->
  segment_revenue s cs = Py.sum (map revenue (List.filter p cs)).
Proof.
  intros Hp. unfold segment_revenue, Py.sum. generalize 0%float.
  induction cs as [|conv cs IH]; intros acc; [reflexivity|].
  cbn [fold_left List.filter]. rewrite Hp.
  destruct (p conv); cbn [map fold_left]; apply IH.
Qed.

(** The breakdown puts every conversion of the campaign in exactly one of
    three value segments by its revenue: high when the revenue is at least
    150, medium when it is at least 80 and not at least 150, low otherwise.
    Each segment's count is the number of these conversions and each
    segment's revenue is the sum of their revenues, in the order recorded;
    the three counts add up to the number of conversions.  A revenue that
    is not a number is at least nothing, so it counts as low. *)
Theorem breakdown_segments_partition (self : ROITracker) (c : string) :
  let conversions := get_list (conversion_tracking self) c in
  let b := _calculate_roi_breakdown self c in
  let high := fun conv => PrimFloat.leb 150 (revenue conv) in
  let medium := fun conv =>
    negb (PrimFloat.leb 150 (revenue conv)) && PrimFloat.leb 80 (revenue conv) in
  let low := fun conv =>
    negb (PrimFloat.leb 150 (revenue conv)) && negb (PrimFloat.leb 80 (revenue conv)) in
  high_value_conversions b = Py.len (List.filter high conversions) /\
  medium_value_conversions b = Py.len (List.filter medium conversions) /\
  low_value_conversions b = Py.len (List.filter low conversions) /\
  high_value_revenue b = Py.sum (map revenue (List.filter high conversions)) /\
  medium_value_revenue b = Py.sum (map revenue (List.filter medium conversions)) /\
  low_value_revenue b = Py.sum (map revenue (List.filter low conversions)) /\
  total_conversions b
  = (high_value_conversions b + medium_value_conversions b + low_value_conversions b)%Z /\
  (Forall (fun conv => PrimFloat.eqb (revenue conv) (revenue conv) = false) conversions ->
   low_value_conversions b = total_conversions b /\
   high_value_conversions b = 0%Z /\ medium_value_conversions b = 0%Z).
Proof.
  cbv zeta. cbn [_calculate_roi_breakdown high_value_conversions
    medium_value_conversions low_value_conversions high_value_revenue
    medium_value_revenue low_value_revenue total_conversions].
  set (conversions := get_list (conversion_tracking self) c).
  assert (Hhigh : forall conv,
            segment_eqb (segment_of conv) high_value = PrimFloat.leb 150 (revenue conv)).
  { intros conv. unfold segment_of.
    destruct (PrimFloat.leb 150 (revenue conv)), (PrimFloat.leb 80 (revenue conv));
      reflexivity. }
  assert (Hmedium : forall conv,
            segment_eqb (segment_of conv) medium_value
            = negb (PrimFloat.leb 150 (revenue conv)) && PrimFloat.leb 80 (revenue conv)).
  { intros conv. unfold segment_of.
    destruct (PrimFloat.leb 150 (revenue conv)), (PrimFloat.leb 80 (revenue conv));
      reflexivity. }
  assert (Hlow : forall conv,
            segment_eqb (segment_of conv) low_value
            = negb (PrimFloat.leb 150 (revenue conv))
              && negb (PrimFloat.leb 80 (revenue conv))).
  { intros conv. unfold segment_of.
    destruct (PrimFloat.leb 150 (revenue conv)), (PrimFloat.leb 80 (revenue conv));
      reflexivity. }
  rewrite (segment_conversions_filter high_value _ conversions Hhigh).
  rewrite (segment_conversions_filter medium_value _ conversions Hmedium).
  rewrite (segment_conversions_filter low_value _ conversions Hlow).
  rewrite (segment_revenue_filter high_value _ conversions Hhigh).
  rewrite (segment_revenue_filter medium_value _ conversions Hmedium).
  rewrite (segment_revenue_filter low_value _ conversions Hlow).
  do 6 (split; [reflexivity|]). unfold Py.len. split.
  - induction conversions as [|conv cs IH]; [reflexivity|].
    cbn [List.filter length].
    destruct (PrimFloat.leb 150 (revenue conv)), (PrimFloat.leb 80 (revenue conv));
      cbn [negb andb length]; lia.
  - intros Hnan. induction Hnan as [|conv cs Hconv _ IH]; [cbn; lia|].
    cbn [List.filter length].
    rewrite (nan_not_at_least 150 _ Hconv), (nan_not_at_least 80 _ Hconv).
    cbn [negb andb length]. lia.
Qed.

Lemma confidence_of_not_negative (values : list float) :
  PrimFloat.leb 0 (confidence_of values) = true.
Proof.
  unfold confidence_of, Py.max.
  destruct (PrimFloat.ltb 0 match values with [] => _ | _ => _ end); [|reflexivity].
  match goal with |- context [PrimFloat.ltb 0 ?x] => destruct (PrimFloat.ltb 0 x) eqn:E end.
  - now apply ltb_leb.
  - reflexivity.
Qed.

(** A projection is always produced.  The days to the target are between 0
    and 21 when the clock is not behind the first conversion, and 0 from
    the 21st day on; the confidence is a number that is not negative. *)
Theorem projections_are_bounded (self : ROITracker) (c : string) (now : Z) :
  exists p, _generate_roi_projections self c now = Some p /\
    (0 <= time_to_target p)%Z /\
    PrimFloat.leb 0 (confidence_level p) = true /\
    forall first rest, get_list (conversion_tracking self) c = first :: rest ->
      ((conv_timestamp first <= now)%Z -> (time_to_target p <= 21)%Z) /\
      ((conv_timestamp first + 21 * 86400000000 <= now)%Z -> time_to_target p = 0%Z).
Proof.
  destruct (projections_total self c now) as [p Hp]. exists p. split; [exact Hp|].
  revert Hp. unfold _generate_roi_projections.
  destruct (length _ <? 10)%nat.
  - cbv iota. intros [= <-]. cbn. split; [lia|]. split; [reflexivity|].
    intros first rest _. split; intros _; lia.
  - cbv iota. unfold Py.truediv_int.
    destruct (Z.eqb_spec
                (Z.max (match get_list (conversion_tracking self) c with
                        | [] => 1
                        | c0 :: _ => Py.days (now - conv_timestamp c0)
                        end) 1) 0) as [E|_]; [lia|].
    cbn.
    assert (Hdays : forall first rest,
              get_list (conversion_tracking self) c = first :: rest ->
              let d := Z.max (21 - match get_list (conversion_tracking self) c with
                                   | [] => 1
                                   | c0 :: _ => Py.days (now - conv_timestamp c0)
                                   end) 0 in
              ((conv_timestamp first <= now)%Z -> (d <= 21)%Z) /\
              ((conv_timestamp first + 21 * 86400000000 <= now)%Z -> d = 0%Z)).
    { intros first rest ->. unfold Py.days. split; intros Ht.
      - assert (0 <= (now - conv_timestamp first) / 86400000000)%Z
          by (apply Z.div_pos; lia). lia.
      - assert (21 <= (now - conv_timestamp first) / 86400000000)%Z
          by (apply Z.div_le_lower_bound; lia). lia. }
    destruct (PrimFloat.ltb 0 _); cbn.
    + destruct (Py.truediv _ _); cbn; [|discriminate].
      intros [= <-]. cbn. split; [lia|]. split; [apply confidence_of_not_negative|].
      exact Hdays.
    + intros [= <-]. cbn. split; [lia|]. split; [apply confidence_of_not_negative|].
      exact Hdays.
Qed.

(** The [track_campaign_roi] tool reports the ledger with what the call has
    just recorded: with an investment and a revenue among its arguments,
    the reported totals are the former ones plus these amounts; the
    conversion is filed for student [unknown] when no [conversion_data] comes
    with it.  With neither key the tracker is left as it was. *)
Theorem track_campaign_roi_reports_new_totals (tracker : ROITracker)
    (arguments : Server.TrackArguments) (conversion_time now : Z) :
  exists before, calculate_real_time_roi tracker (Server.arg_campaign_id arguments) now
                 = Some before /\
  exists reported,
    snd (Server._track_campaign_roi tracker arguments conversion_time now) = Some reported /\
    total_investment reported
      = match Server.arg_investment arguments with
        | Some amount => (total_investment before + amount)%float
        | None => total_investment before
        end /\
    total_revenue reported
      = match Server.arg_revenue arguments with
        | Some rev => (total_revenue before + rev)%float
        | None => total_revenue before
        end /\
    net_profit reported = (total_revenue reported - total_investment reported)%float /\
    (Server.arg_investment arguments = None -> Server.arg_revenue arguments = None ->
     fst (Server._track_campaign_roi tracker arguments conversion_time now) = tracker) /\
    (forall rev, Server.arg_revenue arguments = Some rev ->
       Server.arg_conversion_data arguments = None ->
       List.last (get_list (conversion_tracking
                    (fst (Server._track_campaign_roi tracker arguments conversion_time now)))
                    (Server.arg_campaign_id arguments))
                 {| student_id := ""; revenue := 0; conversion_type := "";
                    conv_timestamp := 0; conv_campaign_id := "" |}
       = {| student_id := "unknown"; revenue := rev; conversion_type := "reactivation";
            conv_timestamp := conversion_time;
            conv_campaign_id := Server.arg_campaign_id arguments |}).
Proof.
  destruct arguments as [c inv cat rev data]. cbn [Server.arg_campaign_id
    Server.arg_investment Server.arg_revenue Server.arg_conversion_data].
  destruct (calculate_real_time_roi_reads tracker c now)
    as (r & Hr & _ & _ & Hi & Hv & _ & _).
  exists r. split; [exact Hr|].
  unfold Server._track_campaign_roi. cbn [snd fst Server.arg_campaign_id
    Server.arg_investment Server.arg_revenue Server.arg_conversion_data
    Server.arg_investment_category].
  match goal with |- context [calculate_real_time_roi ?t c now] =>
    destruct (calculate_real_time_roi_fields t c now) as (r' & Hr' & Hi' & Hv' & Hn' & _)
  end.
  exists r'. split; [exact Hr'|]. rewrite Hn'. rewrite Hi', Hv', Hi, Hv.
  destruct inv as [amount|], rev as [rv|]; cbn;
    rewrite ?get_list_insert, ?decide_True, ?sum_snoc by done;
    repeat split; try done.
  - intros ? [= <-] Hd. rewrite Hd. cbn. now rewrite last_last.
  - intros ? [= <-] Hd. rewrite Hd. cbn. now rewrite last_last.
Qed.

End LedgerProperties.

(** ** Thresholds, alerts and the metric ring *)

Section MonitorProperties.
Import Monitoring AlertSpec ThresholdSpec.

Lemma below_Some (value : float) (t : option float) (x : float) :
  below value t = Some x <-> t = Some x /\ PrimFloat.ltb value x = true.
Proof.
  unfold below. destruct t as [y|].
  - destruct (PrimFloat.ltb value y) eqn:E.
    + split; [by intros [= <-]|by intros [[= <-] _]].
    + split; [discriminate|]. intros [[= <-] H]. congruence.
  - split; [discriminate|]. by intros [? _].
Qed.

Lemma above_Some (value : float) (t : option float) (x : float) :
  above value t = Some x <-> t = Some x /\ PrimFloat.ltb x value = true.
Proof.
  unfold above. destruct t as [y|].
  - destruct (PrimFloat.ltb y value) eqn:E.
    + split; [by intros [= <-]|by intros [[= <-] _]].
    + split; [discriminate|]. intros [[= <-] H]. congruence.
  - split; [discriminate|]. by intros [? _].
Qed.

Lemma below_None (value : float) (t : option float) :
  below value t = None <-> ~ is_below value t.
Proof.
  unfold is_below. split.
  - intros H (x & Hx). apply below_Some in Hx. congruence.
  - intros H. destruct (below value t) as [x|] eqn:E; [|done].
    apply below_Some in E. exfalso. apply H. by exists x.
Qed.

Lemma above_None (value : float) (t : option float) :
  above value t = None <-> ~ is_above value t.
Proof.
  unfold is_above. split.
  - intros H (x & Hx). apply above_Some in Hx. congruence.
  - intros H. destruct (above value t) as [x|] eqn:E; [|done].
    apply above_Some in E. exfalso. apply H. by exists x.
Qed.

(** The level and the threshold [breach] finds. *)
Lemma breach_cases (value : float) (th : Thresholds) :
  match breach value th with
  | Some (l, t) =>
      (l = CRITICAL /\ critical_breach value th /\
       (is_below value (critical_low th) -> critical_low th = Some t) /\
       (~ is_below value (critical_low th) -> critical_high th = Some t))
      \/ (l = WARNING /\ ~ critical_breach value th /\ warning_breach value th /\
          (is_below value (warning_low th) -> warning_low th = Some t) /\
          (~ is_below value (warning_low th) -> warning_high th = Some t))
  | None => ~ critical_breach value th /\ ~ warning_breach value th
  end.
Proof.
  unfold breach, critical_breach, warning_breach.
  destruct (below value (critical_low th)) as [t|] eqn:E1.
  { left. apply below_Some in E1 as [E1 E1']. split; [done|]. split.
    - left. by exists t.
    - split; [done|]. intros H. exfalso. apply H. by exists t. }
  apply below_None in E1.
  destruct (above value (critical_high th)) as [t|] eqn:E2.
  { left. apply above_Some in E2 as [E2 E2']. split; [done|]. split.
    - right. by exists t.
    - split; [by intros ?|done]. }
  apply above_None in E2.
  destruct (below value (warning_low th)) as [t|] eqn:E3.
  { right. apply below_Some in E3 as [E3 E3']. split; [done|]. split; [tauto|]. split.
    - left. by exists t.
    - split; [done|]. intros H. exfalso. apply H. by exists t. }
  apply below_None in E3.
  destruct (above value (warning_high th)) as [t|] eqn:E4.
  { right. apply above_Some in E4 as [E4 E4']. split; [done|]. split; [tauto|]. split.
    - right. by exists t.
    - split; [by intros ?|done]. }
  apply above_None in E4. tauto.
Qed.

(** [_evaluate_threshold] gives no alert exactly when the value crosses none
    of the four limits that are configured.  An alert it gives is critical
    exactly when a critical limit is crossed, whether or not a warning limit
    is crossed too, and a warning otherwise; it is never of level info or
    emergency.  It carries the value, the metric and the limit crossed, the
    low one when both are, and starts unacknowledged with no action.  A
    value that is not a number crosses no limit. *)
Theorem threshold_evaluation (campaign : string) (m : MetricType) (value : float)
    (th : Thresholds) (now : Z) :
  (_evaluate_threshold campaign m value th now = None
   <-> ~ critical_breach value th /\ ~ warning_breach value th) /\
  (forall alert, _evaluate_threshold campaign m value th now = Some alert ->
     (level alert = CRITICAL <-> critical_breach value th) /\
     (level alert = WARNING <-> ~ critical_breach value th) /\
     (is_below value (critical_low th) -> critical_low th = Some (threshold_value alert)) /\
     metric_type alert = m /\ current_value alert = value /\
     alert_timestamp alert = now /\
     acknowledged alert = false /\ actions_taken alert = []) /\
  (PrimFloat.eqb value value = false ->
   _evaluate_threshold campaign m value th now = None).
Proof.
  pose proof (breach_cases value th) as Hb.
  unfold _evaluate_threshold.
  destruct (breach value th) as [[l t]|] eqn:E.
  - split; [|split].
    + split; [discriminate|]. intros [Hc Hw]. exfalso.
      destruct Hb as [(_ & Hc' & _)|(_ & _ & Hw' & _)]; tauto.
    + intros alert [= <-]. cbn.
      destruct Hb as [(-> & Hc & Hlow & _)|(-> & Hc & _)].
      * split; [split; [by intros _|done]|].
        split; [split; [discriminate|tauto]|].
        split; [exact Hlow|done].
      * split; [split; [discriminate|tauto]|].
        split; [split; [by intros _|done]|].
        split; [|done]. intros H. exfalso. apply Hc. by left.
    + intros Hnan. exfalso.
      assert (Hno : forall t', ~ is_below value t' /\ ~ is_above value t').
      { intros t'. split; intros (x & _ & Hx).
        - destruct (nan_compares_false value x Hnan). congruence.
        - destruct (nan_compares_false value x Hnan). congruence. }
      unfold critical_breach, warning_breach in Hb.
      destruct Hb as [(_ & [Hc|Hc] & _)|(_ & _ & [Hw|Hw] & _)].
      * exact (proj1 (Hno _) Hc).
      * exact (proj2 (Hno _) Hc).
      * exact (proj1 (Hno _) Hw).
      * exact (proj2 (Hno _) Hw).
  - split; [|split]; [tauto|discriminate|done].
Qed.

(** *** Acknowledging *)

(** [acknowledge_alert] answers whether the id is known.  For an unknown id
    it changes nothing.  For a known one it marks that alert, keeps its
    other fields, and touches no other alert; the alert stays in
    [active_alerts], whose keys are the same before and after; doing it
    again changes nothing more. *)
Theorem acknowledge_alert_marks_one (self : PerformanceMonitor) (alert_id : string) :
  let self' := fst (acknowledge_alert self alert_id) in
  (snd (acknowledge_alert self alert_id) = true
   <-> is_Some (active_alerts self !! alert_id)) /\
  (active_alerts self !! alert_id = None -> self' = self) /\
  (forall a, active_alerts self !! alert_id = Some a ->
     exists a', active_alerts self' !! alert_id = Some a' /\
       acknowledged a' = true /\ id a' = id a /\ level a' = level a /\
       metric_type a' = metric_type a /\ current_value a' = current_value a /\
       threshold_value a' = threshold_value a /\
       alert_timestamp a' = alert_timestamp a /\
       actions_taken a' = actions_taken a) /\
  (forall k, k <> alert_id -> active_alerts self' !! k = active_alerts self !! k) /\
  (forall k, is_Some (active_alerts self' !! k) <-> is_Some (active_alerts self !! k)) /\
  metric_history self' = metric_history self /\
  fst (acknowledge_alert self' alert_id) = self'.
Proof.
  unfold acknowledge_alert.
  destruct (active_alerts self !! alert_id) as [a|] eqn:E; cbn.
  - split; [split; [by eexists|done]|]. split; [done|]. split.
    { intros ? [= <-]. rewrite lookup_alter_eq, E. cbn. eexists. split; [done|]. done. }
    split.
    { intros k Hk. by rewrite lookup_alter_ne. }
    split.
    { intros k. by rewrite lookup_alter_is_Some. }
    split; [done|].
    rewrite lookup_alter_eq, E. cbn. unfold set_active_alerts. cbn. f_equal.
    apply map_eq. intros k. destruct (decide (k = alert_id)) as [->|Hne].
    + rewrite !lookup_alter_eq, E. done.
    + by rewrite !lookup_alter_ne.
  - rewrite E. cbn. split; [split; [done|by intros [? ?]]|]. done.
Qed.

(** *** What a check does to the alerts *)

Lemma handle_alert_effect (self : PerformanceMonitor) (alert : Alert) (k : string) :
  actions_taken alert = [] ->
  active_alerts (_handle_alert self alert) !! k = active_alerts self !! k
  \/ (k = id alert /\
      exists a, active_alerts (_handle_alert self alert) !! k = Some a /\
        id a = id alert /\ level a = level alert /\ metric_type a = metric_type alert /\
        current_value a = current_value alert /\
        threshold_value a = threshold_value alert /\
        alert_timestamp a = alert_timestamp alert /\
        acknowledged a = acknowledged alert /\
        actions_taken a = match level alert with
                          | CRITICAL => automatic_actions alert
                          | _ => []
                          end).
Proof.
  intros Hact. unfold _handle_alert.
  destruct (active_alerts self !! existing_alert_key alert); [by left|].
  destruct (decide (k = id alert)) as [->|Hne].
  - right. split; [done|].
    destruct (level alert) eqn:El; cbn;
      rewrite ?lookup_alter_eq, lookup_insert_eq; cbn; eexists; (split; [done|]);
      cbn; rewrite ?El; done.
  - left. destruct (level alert); cbn;
      rewrite ?lookup_alter_ne by done; by rewrite lookup_insert_ne.
Qed.

Lemma handle_alert_history (self : PerformanceMonitor) (alert : Alert) :
  metric_history (_handle_alert self alert) = metric_history self /\
  alert_thresholds (_handle_alert self alert) = alert_thresholds self.
Proof.
  unfold _handle_alert. destruct (active_alerts self !! _); [done|].
  by destruct (level alert).
Qed.

Lemma evaluate_threshold_fresh (campaign : string) (m : MetricType) (value : float)
    (th : Thresholds) (now : Z) (alert : Alert) :
  _evaluate_threshold campaign m value th now = Some alert ->
  metric_type alert = m /\ alert_timestamp alert = now /\
  acknowledged alert = false /\ actions_taken alert = [] /\
  (level alert = CRITICAL \/ level alert = WARNING).
Proof.
  unfold _evaluate_threshold. pose proof (breach_cases value th) as Hb.
  destruct (breach value th) as [[l t]|]; [|discriminate].
  intros [= <-]. cbn. repeat split; try done.
  destruct Hb as [(-> & _)|(-> & _)]; auto.
Qed.

Lemma check_keeps_history (self : PerformanceMonitor) (campaign : string)
    (metrics : list (MetricType * float)) (now : Z) :
  metric_history (_check_alert_conditions self campaign metrics now) = metric_history self.
Proof.
  unfold _check_alert_conditions. revert self.
  induction metrics as [|[m value] metrics IH]; intros self; [done|].
  cbn [fold_left]. rewrite IH.
  destruct (alert_thresholds self m) as [th|]; [|done].
  destruct (_evaluate_threshold campaign m value th now) as [alert|]; [|done].
  apply handle_alert_history.
Qed.

(** One sample checked: every key of [active_alerts] either holds what it
    held before, or holds an alert of this sample, made at [now] for one of
    the sampled metrics and not acknowledged.  So a check removes no alert,
    and it never touches the metric history. *)
Theorem check_only_adds_alerts (self : PerformanceMonitor) (campaign : string)
    (metrics : list (MetricType * float)) (now : Z) :
  let self' := _check_alert_conditions self campaign metrics now in
  metric_history self' = metric_history self /\
  forall k,
    active_alerts self' !! k = active_alerts self !! k
    \/ exists a, active_alerts self' !! k = Some a /\
         id a = k /\ alert_timestamp a = now /\ acknowledged a = false /\
         In (metric_type a) (map fst metrics).
Proof.
  cbn. unfold _check_alert_conditions.
  induction metrics as [|[m value] metrics IH] using rev_ind; [by auto|].
  rewrite fold_left_app. cbn [fold_left].
  set (prev := fold_left _ metrics self) in *.
  destruct IH as [IHh IHa].
  assert (Hin : forall x, In x (map fst metrics) -> In x (map fst (metrics ++ [(m, value)]))).
  { intros x Hx. rewrite map_app. apply in_or_app. by left. }
  assert (Hkeep : forall k,
            active_alerts prev !! k = active_alerts self !! k
            \/ exists a, active_alerts prev !! k = Some a /\
                 id a = k /\ alert_timestamp a = now /\ acknowledged a = false /\
                 In (metric_type a) (map fst (metrics ++ [(m, value)]))).
  { intros k. destruct (IHa k) as [H|(a & H1 & H2 & H3 & H4 & H5)]; [by left|].
    right. exists a. repeat (split; [done|]). by apply Hin. }
  destruct (alert_thresholds prev m) as [th|]; [|by split].
  destruct (_evaluate_threshold campaign m value th now) as [alert|] eqn:E; [|by split].
  destruct (evaluate_threshold_fresh _ _ _ _ _ _ E) as (Hm & Ht & Hack & Hact & _).
  split.
  { by rewrite (proj1 (handle_alert_history prev alert)). }
  intros k. destruct (handle_alert_effect prev alert k Hact) as [H|[-> (a & H1 & H2 & Hrest)]].
  - rewrite H. apply Hkeep.
  - right. exists a. split; [done|]. split; [done|].
    destruct Hrest as (_ & Hm' & _ & _ & Ht' & Hack' & _).
    rewrite Ht', Hack', Hm', Hm, Ht, Hack. repeat split; try done.
    rewrite map_app. apply in_or_app. right. by left.
Qed.

(** *** The stored alerts *)

Lemma automatic_actions_same (a b : Alert) :
  metric_type a = metric_type b -> current_value a = current_value b ->
  threshold_value a = threshold_value b ->
  automatic_actions a = automatic_actions b.
Proof. intros H1 H2 H3. unfold automatic_actions. now rewrite H1, H2, H3. Qed.

Lemma handle_alert_ok (self : PerformanceMonitor) (alert : Alert) :
  actions_taken alert = [] -> (level alert = CRITICAL \/ level alert = WARNING) ->
  (forall k a, active_alerts self !! k = Some a -> alert_ok k a) ->
  forall k a, active_alerts (_handle_alert self alert) !! k = Some a -> alert_ok k a.
Proof.
  intros Hact Hlevel IH k a Hk.
  destruct (handle_alert_effect self alert k Hact)
    as [H|[-> (a' & H1 & H2 & H3 & H4 & H5 & H6 & _ & _ & H9)]].
  - rewrite H in Hk. by apply IH.
  - rewrite Hk in H1. injection H1 as <-. unfold alert_ok.
    split; [done|]. rewrite H3. split; [done|]. rewrite H9.
    destruct (level alert); try done. symmetry. by apply automatic_actions_same.
Qed.

Lemma check_alerts_ok (self : PerformanceMonitor) (campaign : string)
    (metrics : list (MetricType * float)) (now : Z) :
  (forall k a, active_alerts self !! k = Some a -> alert_ok k a) ->
  forall k a, active_alerts (_check_alert_conditions self campaign metrics now) !! k = Some a ->
    alert_ok k a.
Proof.
  unfold _check_alert_conditions. revert self.
  induction metrics as [|[m value] metrics IH]; intros self Hok; [exact Hok|].
  cbn [fold_left]. apply IH.
  destruct (alert_thresholds self m) as [th|]; [|exact Hok].
  destruct (_evaluate_threshold campaign m value th now) as [alert|] eqn:E; [|exact Hok].
  destruct (evaluate_threshold_fresh _ _ _ _ _ _ E) as (_ & _ & _ & Hact & Hlevel).
  by apply handle_alert_ok.
Qed.

Lemma reachable_alerts_ok (self : PerformanceMonitor) :
  monitor_reachable self ->
  forall k a, active_alerts self !! k = Some a -> alert_ok k a.
Proof.
  induction 1 as [|self campaign m value now _ IH|self campaign metrics now _ IH
                  |self alert_id _ IH].
  - intros k a. cbn. by rewrite lookup_empty.
  - exact IH.
  - by apply check_alerts_ok.
  - intros k a. unfold acknowledge_alert.
    destruct (active_alerts self !! alert_id) as [b|] eqn:E; cbn; [|by apply IH].
    destruct (decide (k = alert_id)) as [->|Hne].
    + rewrite lookup_alter_eq, E. cbn. intros [= <-].
      destruct (IH _ _ E) as (H1 & H2 & H3). done.
    + rewrite lookup_alter_ne by done. apply IH.
Qed.

(** In a monitor that the monitoring loop and acknowledgements lead to, an
    alert that recorded automatic actions is a critical alert for a value
    under its limit, on the response rate, the conversion rate or the
    delivery rate, and it recorded three actions: no warning, no ROI or
    cost alert and no alert for a value over its limit ever records one. *)
Theorem automatic_actions_only_for_critical_lows (self : PerformanceMonitor)
    (k : string) (a : Alert) :
  monitor_reachable self ->
  active_alerts self !! k = Some a ->
  actions_taken a <> [] ->
  id a = k /\ level a = CRITICAL /\
  PrimFloat.ltb (current_value a) (threshold_value a) = true /\
  In (metric_type a) actionable /\
  length (actions_taken a) = 3.
Proof.
  intros Hreach Hk Hact.
  destruct (reachable_alerts_ok self Hreach k a Hk) as (Hid & Hlevel & Hactions).
  split; [done|].
  destruct Hlevel as [Hl|Hl]; rewrite Hl in Hactions; [|congruence].
  split; [done|]. rewrite Hactions in Hact |- *. unfold automatic_actions in *.
  unfold actionable.
  destruct (PrimFloat.ltb (current_value a) (threshold_value a)) eqn:Elt.
  2: { exfalso. apply Hact. by destruct (metric_type a). }
  split; [done|].
  destruct (metric_type a); cbn in *; try (exfalso; by apply Hact); split; auto.
Qed.

Lemma automatic_actions_only_for_critical_lows_witness :
  exists a, active_alerts after_first_sample !! "campaign_response_rate_1700000000" = Some a /\
  id a = "campaign_response_rate_1700000000" /\ level a = CRITICAL /\
  PrimFloat.ltb (current_value a) (threshold_value a) = true /\
  In (metric_type a) actionable /\
  length (actions_taken a) = 3.
Proof.
  assert (H : exists a,
             active_alerts after_first_sample !! "campaign_response_rate_1700000000"
             = Some a /\ actions_taken a <> []).
  { vm_compute. eexists. split; [reflexivity|]. discriminate. }
  destruct H as (a & Ha & Hact). exists a. split; [exact Ha|].
  apply (automatic_actions_only_for_critical_lows after_first_sample
           "campaign_response_rate_1700000000" a); [|exact Ha|exact Hact].
  unfold after_first_sample. apply monitor_check. apply monitor_init.
Defined.

Lemma count_by_level (alerts : list Alert) :
  Forall (fun a => level a = CRITICAL \/ level a = WARNING) alerts ->
  length (List.filter (fun a => negb (acknowledged a)) alerts)
  = length (List.filter (fun a => AlertLevel_eqb (level a) CRITICAL
                                  && negb (acknowledged a)) alerts)
    + length (List.filter (fun a => AlertLevel_eqb (level a) WARNING
                                    && negb (acknowledged a)) alerts).
Proof.
  induction 1 as [|a alerts Ha _ IH]; [done|].
  cbn. destruct Ha as [-> | ->]; cbn; destruct (acknowledged a); cbn; lia.
Qed.

(** In such a monitor every alert is critical or a warning, so the summary
    of any campaign counts as many active alerts as critical ones and
    warnings together. *)
Theorem summary_alert_counts_add_up (self : PerformanceMonitor) (campaign : string)
    (time_range now : Z) :
  monitor_reachable self ->
  let summary := get_performance_summary self campaign time_range now in
  alerts_active summary = (alerts_critical summary + alerts_warnings summary)%Z /\
  (0 <= alerts_critical summary)%Z /\ (0 <= alerts_warnings summary)%Z.
Proof.
  intros Hreach. cbn. unfold count_alerts, Py.len.
  rewrite count_by_level; [lia|].
  apply Forall_forall. intros a Ha.
  apply list_elem_of_fmap in Ha as ([k a'] & -> & Hin).
  apply elem_of_map_to_list in Hin.
  by destruct (reachable_alerts_ok self Hreach k a' Hin) as (_ & ? & _).
Qed.

Lemma summary_alert_counts_add_up_witness :
  let summary := get_performance_summary after_second_sample "campaign"
                   default_time_range third_sample_time in
  alerts_active summary = (alerts_critical summary + alerts_warnings summary)%Z /\
  (0 <= alerts_critical summary)%Z /\ (0 <= alerts_warnings summary)%Z.
Proof.
  apply (summary_alert_counts_add_up after_second_sample "campaign"
           default_time_range third_sample_time).
  unfold after_second_sample, after_first_sample.
  apply monitor_check. apply monitor_check. apply monitor_init.
Defined.

(** *** The ring of metric points *)

Lemma deque_append_spec {A} (maxlen : nat) (d : list A) (x : A) :
  0 < maxlen -> length d <= maxlen ->
  deque_append maxlen d x
  = (if length d <? maxlen then d else skipn 1 d) ++ [x]
  /\ length (deque_append maxlen d x) <= maxlen.
Proof.
  intros Hpos Hlen. unfold deque_append.
  destruct (Nat.leb_spec maxlen (length d)) as [H|H].
  - assert (E : length d = maxlen) by lia.
    destruct (Nat.ltb_spec (length d) maxlen) as [H'|_]; [lia|].
    replace (S (length d) - maxlen) with 1 by lia.
    destruct d as [|y d]; [cbn in E; lia|]. cbn. split; [done|].
    rewrite drop_0, length_app. cbn in *. lia.
  - destruct (Nat.ltb_spec (length d) maxlen) as [_|H']; [|lia].
    split; [done|]. rewrite length_app. cbn. lia.
Qed.

Lemma reachable_history_bounded (self : PerformanceMonitor) :
  monitor_reachable self ->
  forall key, length (get_list (metric_history self) key) <= 1000.
Proof.
  induction 1 as [|self campaign m value now _ IH|self campaign metrics now _ IH
                  |self alert_id _ IH]; intros key.
  - unfold get_list. cbn. rewrite lookup_empty. cbn. lia.
  - cbn. unfold get_list at 1.
    destruct (decide (metric_key campaign m = key)) as [->|Hne].
    + rewrite lookup_insert_eq. cbn. apply deque_append_spec; [lia|apply IH].
    + rewrite lookup_insert_ne by done. apply IH.
  - rewrite check_keeps_history. apply IH.
  - unfold acknowledge_alert. destruct (active_alerts self !! alert_id); apply IH.
Qed.

(** The history of a metric is a ring of 1000 points: in a monitor that the
    loop leads to, no history is longer; recording a point appends it, after
    dropping the oldest point when the ring is full, and changes no other
    history and no alert. *)
Theorem metric_history_is_a_ring (self : PerformanceMonitor) (campaign : string)
    (m : MetricType) (value : float) (now : Z) :
  monitor_reachable self ->
  let key := metric_key campaign m in
  let old := get_list (metric_history self) key in
  let self' := _process_metric self campaign m value now in
  length old <= 1000 /\
  get_list (metric_history self') key
  = (if length old <? 1000 then old else skipn 1 old) ++ [point_of campaign m value now] /\
  length (get_list (metric_history self') key) <= 1000 /\
  (forall key', key' <> key ->
     get_list (metric_history self') key' = get_list (metric_history self) key') /\
  active_alerts self' = active_alerts self.
Proof.
  intros Hreach. cbn.
  pose proof (reachable_history_bounded self Hreach (metric_key campaign m)) as Hlen.
  destruct (deque_append_spec 1000 (get_list (metric_history self) (metric_key campaign m))
              (point_of campaign m value now)) as [Heq Hle]; [lia|done|].
  split; [done|]. rewrite !get_list_insert, !decide_True by done.
  split; [exact Heq|]. split; [exact Hle|]. split; [|done].
  intros key' Hne. rewrite get_list_insert, decide_False; congruence.
Qed.

Lemma metric_history_is_a_ring_witness :
  let key := metric_key "campaign" ROI in
  let old := get_list (metric_history after_first_sample) key in
  let self' := _process_metric after_first_sample "campaign" ROI 1200 second_sample_time in
  length old <= 1000 /\
  get_list (metric_history self') key
  = (if length old <? 1000 then old else skipn 1 old)
    ++ [point_of "campaign" ROI 1200 second_sample_time] /\
  length (get_list (metric_history self') key) <= 1000 /\
  (forall key', key' <> key ->
     get_list (metric_history self') key' = get_list (metric_history after_first_sample) key') /\
  active_alerts self' = active_alerts after_first_sample.
Proof.
  apply (metric_history_is_a_ring after_first_sample "campaign" ROI 1200 second_sample_time).
  unfold after_first_sample. apply monitor_check. apply monitor_init.
Defined.

End MonitorProperties.

(** ** Sorting *)

Section SortedProperties.
Import PySorted HistorySpec.
Context {A : Type} (key : A -> Z).

Lemma insert_desc_permutation (x : A) (l : list A) :
  Permutation (insert_desc key x l) (x :: l).
Proof.
  induction l as [|y ys IH]; cbn; [done|].
  destruct (key x <? key y)%Z; [|done].
  rewrite IH. apply perm_swap.
Qed.

Lemma sorted_reverse_permutation (l : list A) : Permutation (sorted_reverse key l) l.
Proof.
  induction l as [|x l IH]; cbn; [done|].
  rewrite insert_desc_permutation. by constructor.
Qed.

Lemma insert_desc_descending (x : A) (l : list A) :
  descending key l -> descending key (insert_desc key x l).
Proof.
  unfold descending. induction 1 as [|y ys Hs IH Hy]; cbn.
  - repeat constructor.
  - destruct (Z.ltb_spec (key x) (key y)) as [Hlt|Hge].
    + constructor; [exact IH|].
      eapply Permutation_Forall; [symmetry; apply insert_desc_permutation|].
      constructor; [lia|exact Hy].
    + constructor; [by constructor|].
      constructor; [lia|].
      eapply Forall_impl; [exact Hy|]. cbn. intros z Hz. lia.
Qed.

Lemma sorted_reverse_descending (l : list A) : descending key (sorted_reverse key l).
Proof.
  induction l as [|x l IH]; cbn; [constructor|].
  by apply insert_desc_descending.
Qed.

(** Elements of equal key keep their order: a list that is already in
    descending order is left as it is. *)
Lemma sorted_reverse_stable (l : list A) :
  descending key l -> sorted_reverse key l = l.
Proof.
  unfold descending. induction 1 as [|x l Hs IH Hx]; [done|].
  change (sorted_reverse key (x :: l)) with (insert_desc key x (sorted_reverse key l)).
  rewrite IH. destruct l as [|y ys]; [done|].
  cbn. apply Forall_cons in Hx as [Hy _].
  destruct (Z.ltb_spec (key x) (key y)); [lia|done].
Qed.

End SortedProperties.

(** ** The optimization engine: analysis and history *)

Section EngineProperties.
Import Monitoring LedgerSpec HistorySpec OptimizationHistory.

Lemma in_first_n {B} (n : nat) (l : list B) (x : B) : In x (Py.first_n n l) -> In x l.
Proof.
  unfold Py.first_n. intros H. rewrite <- (firstn_skipn n l). apply in_or_app. by left.
Qed.

Lemma no_message_delivery_rate_key {B} (f : MetricType -> B) (l : list MetricType) :
  dict_get (map (fun m => (MetricType_value m, f m)) l) "message_delivery_rate" = None.
Proof.
  induction l as [|m l IH]; [done|].
  cbn [map dict_get]. rewrite IH. by destruct m.
Qed.

(** The analysis reads the delivery rate under the key
    [message_delivery_rate], and the summary files it under [delivery_rate]:
    whatever the monitor has recorded, the analysis finds no delivery issue,
    its risk list is empty, and no recommendation is labelled urgent or
    names [investigate_delivery_issues]. *)
Theorem analysis_never_finds_delivery_issues (self : OptimizationEngine)
    (campaign : string) (now : Z) :
  exists a, analyze_optimization_opportunities self campaign now = Some a /\
    risk_mitigation (opportunities a) = [] /\
    ~ In "URGENT" (recommendation_labels a) /\
    ~ In "investigate_delivery_issues" (recommended_actions a) /\
    dict_get (metrics (get_performance_summary (performance_monitor self) campaign
                         default_time_range now)) "message_delivery_rate" = None.
Proof.
  destruct (calculate_real_time_roi_fields (roi_tracker self) campaign now)
    as (r & Hr & _).
  unfold analyze_optimization_opportunities. rewrite Hr. cbn [mbind option_bind].
  eexists. split; [reflexivity|].
  unfold recommendation_labels, recommended_actions.
  cbn [opportunities recommended_next_steps].
  set (summary := get_performance_summary _ _ _ _).
  assert (Hkey : dict_get (metrics summary) "message_delivery_rate" = None).
  { subst summary. cbn [metrics get_performance_summary].
    apply no_message_delivery_rate_key. }
  assert (Hrisk : risk_mitigation (find_opportunities r summary) = []).
  { unfold find_opportunities. cbn [risk_mitigation]. by rewrite Hkey. }
  split; [exact Hrisk|].
  unfold _generate_recommendations. rewrite Hrisk. cbn [map app].
  rewrite !map_app, !map_map. cbn [fst snd].
  split; [|split; [|exact Hkey]].
  - rewrite !in_app_iff, !in_map_iff.
    intros [(x & Hx & _)|[(x & Hx & _)|(x & Hx & _)]]; discriminate.
  - rewrite !in_app_iff, !in_map_iff.
    unfold find_opportunities.
    cbn [immediate_actions strategic_improvements growth_opportunities].
    intros [(x & Hx & Hin)|[(x & Hx & Hin)|(x & Hx & Hin)]].
    + apply in_app_iff in Hin as [Hin|Hin].
      * destruct (PrimFloat.ltb (roi_percentage r) 1500); [|done].
        destruct Hin as [<-|[]]. discriminate.
      * destruct (dict_get (metrics summary) "response_rate") as [rm|]; [|done].
        destruct (PrimFloat.ltb (current rm) 0.15); [|done].
        destruct Hin as [<-|[]]. discriminate.
    + apply in_first_n in Hin. apply in_flat_map in Hin as ([metric trend] & _ & Hin).
      destruct (_ && _); [|done]. destruct Hin as [<-|[]]. cbn in Hx.
      discriminate.
    + apply in_first_n in Hin.
      destruct (PrimFloat.ltb 2000 (roi_percentage r)); [|done].
      destruct Hin as [<-|[]]. discriminate.
Qed.

(** [get_optimization_history] returns the recorded results of the campaign,
    each as often as it was recorded and no other, the newest first; results
    that are already in that order come back as they are.  Implementing a
    known action adds its result to the history of its campaign and to no
    other; an unknown action adds nothing. *)
Theorem optimization_history_newest_first (self : OptimizationEngine) (campaign : string) :
  let h := get_optimization_history self campaign in
  Permutation h (List.filter (fun r => String.eqb (impl_campaign_id r) campaign)
                   (optimization_history self)) /\
  descending impl_timestamp h /\
  (descending impl_timestamp
     (List.filter (fun r => String.eqb (impl_campaign_id r) campaign)
        (optimization_history self)) ->
   h = List.filter (fun r => String.eqb (impl_campaign_id r) campaign)
         (optimization_history self)) /\
  (forall r, In r h <-> In r (optimization_history self) /\ impl_campaign_id r = campaign) /\
  (forall optimization_action now,
     let after := fst (implement_optimization self campaign optimization_action now) in
     (In optimization_action known_actions ->
      exists r, snd (implement_optimization self campaign optimization_action now)
                = Py.Returned r /\
        In r (get_optimization_history after campaign) /\
        length (get_optimization_history after campaign) = S (length h) /\
        forall other, other <> campaign ->
          get_optimization_history after other = get_optimization_history self other) /\
     (~ In optimization_action known_actions ->
      get_optimization_history after campaign = h)).
Proof.
  cbn. unfold get_optimization_history.
  split; [apply sorted_reverse_permutation|].
  split; [apply sorted_reverse_descending|].
  split; [apply sorted_reverse_stable|].
  split.
  { intros r. rewrite (Permutation_in' (eq_refl r) (sorted_reverse_permutation _ _)).
    rewrite filter_In, String.eqb_eq. done. }
  intros optimization_action now. split.
  - intros Hknown.
    destruct (known_action_is_recorded self campaign optimization_action now Hknown)
      as (r & Hr & _).
    assert (Hc : impl_campaign_id r = campaign).
    { pose proof (f_equal snd Hr) as Hs.
      destruct Hknown as [<-|[<-|[<-|[<-|[]]]]]; cbn in Hs; by injection Hs as <-. }
    exists r. rewrite Hr. cbn [fst snd record_in_history optimization_history].
    split; [done|]. rewrite List.filter_app. cbn [List.filter].
    rewrite Hc, String.eqb_refl. split; [|split].
    + apply (Permutation_in' (eq_refl r) (sorted_reverse_permutation _ _)).
      apply in_or_app. right. by left.
    + rewrite !(Permutation_length (sorted_reverse_permutation _ _)).
      rewrite length_app. cbn. lia.
    + intros other Hne. rewrite List.filter_app. cbn [List.filter].
      rewrite Hc. destruct (String.eqb_spec campaign other) as [->|_]; [done|].
      by rewrite app_nil_r.
  - intros Hunknown. unfold implement_optimization.
    repeat match goal with
           | |- context [String.eqb optimization_action ?s] =>
               destruct (String.eqb_spec optimization_action s) as [E|_];
               [exfalso; apply Hunknown; rewrite E; cbn; tauto|]
           end.
    done.
Qed.

End EngineProperties.

(** ** Handling an error: classification, recovery, registry *)

Section HandlingProperties.
Import ErrorHandling ErrorSpec RecoverySpec.
Variable hash : string -> Z.

Lemma analyze_error_patterns_eq (patterns : gmap string (list ErrorRecord))
    (r : ErrorRecord) (now : Z) :
  let r' := snd (_analyze_error_patterns patterns r now) in
  fst (_analyze_error_patterns patterns r now)
  = <[pattern_key r := Monitoring.get_list patterns (pattern_key r) ++ [r']]> patterns
  /\ forall s, set_recovery_strategy s r' = set_recovery_strategy s r.
Proof.
  unfold _analyze_error_patterns. cbn [fst snd].
  destruct (Nat.leb_spec 5 (length (recent_errors
              (Monitoring.get_list patterns (pattern_key r) ++ [r]) now))); [|done].
  by destruct (recovery_strategy r).
Qed.

(** What [_execute_recovery] leaves of the record. *)
Lemma execute_recovery_record (breakers : gmap string CircuitBreaker)
    (history : list RecoveryEntry) (r : ErrorRecord) (now : Z) :
  let '(_, _, r', result) := _execute_recovery breakers history r now in
  error_id r' = error_id r /\ error_type r' = error_type r /\
  severity r' = severity r /\ category r' = category r /\ context r' = context r /\
  recovery_strategy r' = recovery_strategy r /\
  error_message r' = error_message r.
Proof.
  unfold _execute_recovery.
  destruct (recovery_strategy r) eqn:E; cbn; rewrite ?E;
    try destruct (_handle_circuit_breaker breakers r now); done.
Qed.

(** [handle_error], with the analysis of the patterns folded away: the
    strategy it writes is overwritten before it is read. *)
Lemma handle_error_eq (self : ErrorHandlingEngine) (error : PyException)
    (ctx : ErrorContext) (now : Z) :
  handle_error hash self error ctx now
  = let r := new_record hash error ctx now in
    let '(breakers, history, r', result) :=
      _execute_recovery (circuit_breakers self) (recovery_history self) r now in
    ({| error_registry := <[error_id r' := r']> (error_registry self);
        error_patterns :=
          <[pattern_key r' := Monitoring.get_list (error_patterns self) (pattern_key r')
                              ++ [r']]> (error_patterns self);
        circuit_breakers := breakers;
        recovery_history := history |},
     {| result_error_id := error_id r';
        result_severity := severity r';
        result_category := category r';
        result_recovery_strategy := reported_strategy error ctx;
        result_recovery_success := success result;
        result_next_steps := next_steps result |}).
Proof.
  unfold handle_error, new_record.
  pose proof (analyze_error_patterns_eq (error_patterns self)
                (_create_error_record hash error ctx now) now) as [Hp Hr].
  pose proof (analyze_keeps_classification (error_patterns self)
                (_create_error_record hash error ctx now) now) as (Hs & Hc & _).
  destruct (_analyze_error_patterns _ _ _) as [patterns r1]. cbn in Hp, Hr, Hs, Hc.
  rewrite Hr.
  replace (_determine_recovery_strategy r1) with (reported_strategy error ctx).
  2: { rewrite determine_recovery_strategy_specified, Hs, Hc. reflexivity. }
  pose proof (execute_recovery_record (circuit_breakers self) (recovery_history self)
                (set_recovery_strategy (reported_strategy error ctx)
                   (_create_error_record hash error ctx now)) now) as Hrec.
  destruct (_execute_recovery _ _ _ _) as [[[breakers history] r'] result].
  destruct Hrec as (_ & Ht & _ & Hc' & _).
  assert (Hk : pattern_key r' = pattern_key (_create_error_record hash error ctx now)).
  { unfold pattern_key. rewrite Ht, Hc'. reflexivity. }
  rewrite Hp, Hk, insert_insert_eq. reflexivity.
Qed.

Lemma classified_severity (error : PyException) (ctx : ErrorContext) :
  _classify_error_severity error ctx = CRITICAL
  \/ _classify_error_severity error ctx = HIGH
  \/ _classify_error_severity error ctx = MEDIUM.
Proof. unfold _classify_error_severity. repeat case_match; auto. Qed.

Lemma classified_category (error : PyException) (ctx : ErrorContext) :
  (is_connection_error error = true -> _classify_error_category error ctx = NETWORK) /\
  (is_connection_error error = false ->
   (mentions_authentication error = true
    <-> _classify_error_category error ctx = AUTHENTICATION)) /\
  (_classify_error_category error ctx = AUTHENTICATION -> is_connection_error error = false).
Proof.
  unfold _classify_error_category, is_connection_error, mentions_authentication.
  destruct (isinstance error ["ConnectionError"; "TimeoutError"]).
  - split; [done|]. split; [done|]. discriminate.
  - split; [done|]. split; [|done]. intros _.
    destruct (_ || _); [done|]. split; [done|]. repeat case_match; discriminate.
Qed.

Lemma reported_strategy_cases (error : PyException) (ctx : ErrorContext) :
  reported_strategy error ctx
  = match _classify_error_category error ctx with
    | NETWORK | DATABASE => RETRY_WITH_BACKOFF
    | RATE_LIMITING => CIRCUIT_BREAKER
    | AUTHENTICATION => ESCALATION
    | API => FALLBACK
    | _ => RETRY
    end.
Proof.
  unfold reported_strategy.
  destruct (classified_severity error ctx) as [->|[->| ->]];
    by destruct (_classify_error_category error ctx).
Qed.

(** The result of [handle_error] in terms of the error: its severity and
    category are those of the classification. *)
Lemma handle_error_result (self : ErrorHandlingEngine) (error : PyException)
    (ctx : ErrorContext) (now : Z) :
  let result := snd (handle_error hash self error ctx now) in
  result_severity result = _classify_error_severity error ctx /\
  result_category result = _classify_error_category error ctx /\
  result_recovery_strategy result = reported_strategy error ctx /\
  result_recovery_success result
  = match reported_strategy error ctx with
    | ESCALATION | MANUAL_INTERVENTION | IGNORE => false
    | _ => true
    end /\
  result_error_id result
  = error_id (_create_error_record hash error ctx now).
Proof.
  rewrite handle_error_eq. unfold new_record.
  pose proof (execute_recovery_record (circuit_breakers self) (recovery_history self)
                (set_recovery_strategy (reported_strategy error ctx)
                   (_create_error_record hash error ctx now)) now) as Hrec.
  unfold _execute_recovery in *. cbn [recovery_strategy set_recovery_strategy] in *.
  destruct (reported_strategy error ctx) eqn:E; cbn in *;
    try destruct (_handle_circuit_breaker _ _ _) as [b res] eqn:Eb; cbn in *;
    try done.
  by destruct (_ <=? _)%Z.
Qed.


(** For the errors [handle_error] retries with backoff, the wait it reports
    is always one second: the record is new each time, with no attempt
    counted, however often the same error has come.  The handler itself
    doubles the wait with each attempt of a record, up to 60 seconds. *)
Theorem backoff_is_always_one_second (self : ErrorHandlingEngine) (error : PyException)
    (ctx : ErrorContext) (now : Z) :
  (result_recovery_strategy (snd (handle_error hash self error ctx now))
   = RETRY_WITH_BACKOFF ->
   result_next_steps (snd (handle_error hash self error ctx now))
   = ["Retry after 1 seconds"]) /\
  (forall r : ErrorRecord, (0 <= recovery_attempts r)%Z ->
     exists wait, backoff_time (_handle_backoff_retry r) = Some wait /\
       (1 <= wait <= 60)%Z /\
       ((recovery_attempts r <= 5)%Z -> wait = (2 ^ recovery_attempts r)%Z) /\
       ((6 <= recovery_attempts r)%Z -> wait = 60%Z)).
Proof.
  split.
  - destruct (handle_error_result self error ctx now) as (_ & _ & Hst & _).
    rewrite Hst. intros Hstr.
    rewrite handle_error_eq. unfold new_record, _execute_recovery.
    cbn [recovery_strategy set_recovery_strategy]. rewrite Hstr. reflexivity.
  - intros r Hr. eexists. split; [reflexivity|].
    assert (H1 : (1 <= 2 ^ recovery_attempts r)%Z).
    { change 1%Z with (2 ^ 0)%Z at 1. apply Z.pow_le_mono_r; lia. }
    split; [lia|]. split.
    + intros H5.
      assert (2 ^ recovery_attempts r <= 2 ^ 5)%Z by (apply Z.pow_le_mono_r; lia).
      change (2 ^ 5)%Z with 32%Z in *. lia.
    + intros H6.
      assert (2 ^ 6 <= 2 ^ recovery_attempts r)%Z by (apply Z.pow_le_mono_r; lia).
      change (2 ^ 6)%Z with 64%Z in *. lia.
Qed.

Lemma handled_error_is_registered_aux (self : ErrorHandlingEngine) (error : PyException)
    (ctx : ErrorContext) (now : Z) :
  let self' := fst (handle_error hash self error ctx now) in
  let result := snd (handle_error hash self error ctx now) in
  exists r, error_registry self' !! result_error_id result = Some r /\
    context r = ctx /\
    (forall k, k <> result_error_id result ->
       error_registry self' !! k = error_registry self !! k).
Proof.
  cbv zeta. rewrite handle_error_eq. unfold new_record.
  pose proof (execute_recovery_record (circuit_breakers self) (recovery_history self)
                (set_recovery_strategy (reported_strategy error ctx)
                   (_create_error_record hash error ctx now)) now) as Hrec.
  destruct (_execute_recovery _ _ _ _) as [[[breakers history] r'] result].
  destruct Hrec as (_ & _ & _ & _ & Hctx & _). cbn.
  rewrite lookup_insert_eq. exists r'. split; [done|]. split; [done|].
  intros k Hk. by rewrite lookup_insert_ne.
Qed.

(** After [handle_error] the registry holds the record of the error under
    the id the result gives, with the classification, the strategy and the
    success the result gives, one attempt counted when a recovery ran, and
    the context as it was passed; the other entries of the registry are as
    before.  The record is also the last one of its pattern. *)
Theorem handled_error_is_registered (self : ErrorHandlingEngine) (error : PyException)
    (ctx : ErrorContext) (now : Z) :
  let self' := fst (handle_error hash self error ctx now) in
  let result := snd (handle_error hash self error ctx now) in
  exists r, error_registry self' !! result_error_id result = Some r /\
    error_id r = result_error_id result /\
    error_type r = class_name error /\ error_message r = str_error error /\
    severity r = result_severity result /\ category r = result_category result /\
    recovery_strategy r = result_recovery_strategy result /\
    recovery_success r = result_recovery_success result /\
    recovery_attempts r = (if result_recovery_success result then 1 else 0)%Z /\
    resolution_time r = (if result_recovery_success result then Some now else None) /\
    context r = ctx /\
    (forall k, k <> result_error_id result ->
       error_registry self' !! k = error_registry self !! k) /\
    Monitoring.get_list (error_patterns self') (pattern_key r)
    = Monitoring.get_list (error_patterns self) (pattern_key r) ++ [r].
Proof.
  cbv zeta. rewrite handle_error_eq. unfold new_record.
  unfold _execute_recovery. cbn [recovery_strategy set_recovery_strategy].
  destruct (reported_strategy error ctx) eqn:E; cbn;
    try destruct (_handle_circuit_breaker _ _ _) as [b res] eqn:Eb; cbn;
    rewrite lookup_insert_eq; eexists; (split; [reflexivity|]); cbn;
    rewrite ?get_list_insert, ?decide_True by done;
    repeat (split; [try done|]); try done;
    try (intros k Hk; by rewrite lookup_insert_ne).
  all: by destruct (_ <=? _)%Z.
Qed.

Lemma handle_error_history (self : ErrorHandlingEngine) (error : PyException)
    (ctx : ErrorContext) (now : Z) :
  let result := snd (handle_error hash self error ctx now) in
  recovery_history (fst (handle_error hash self error ctx now))
  = if result_recovery_success result
    then history_append (recovery_history self) (history_entry result now)
    else recovery_history self.
Proof.
  cbv zeta. rewrite handle_error_eq. unfold new_record, history_entry.
  unfold _execute_recovery. cbn [recovery_strategy set_recovery_strategy].
  destruct (reported_strategy error ctx) eqn:E; cbn; rewrite ?E; try done.
  by destruct (_ <=? _)%Z.
Qed.

Lemma reachable_history_is_bounded (self : ErrorHandlingEngine) :
  reachable hash self -> length (recovery_history self) <= 1000.
Proof.
  induction 1 as [|self error ctx now _ IH|self comp _ IH].
  - cbn. lia.
  - rewrite handle_error_history. destruct (result_recovery_success _); [|done].
    apply deque_append_spec; [lia|done].
  - unfold reset_circuit_breaker. by destruct (circuit_breakers self !! comp).
Qed.

(** The recovery history is a ring of 1000 entries: in an engine that
    handling errors and resetting breakers lead to, it is never longer.  An
    error whose recovery ran adds one entry, with its id, its strategy and
    the time, after the oldest entry is dropped from a full ring; an
    escalated error adds none. *)
Theorem recovery_history_is_a_ring (self : ErrorHandlingEngine) (error : PyException)
    (ctx : ErrorContext) (now : Z) :
  reachable hash self ->
  let self' := fst (handle_error hash self error ctx now) in
  let result := snd (handle_error hash self error ctx now) in
  let h := recovery_history self in
  length h <= 1000 /\
  length (recovery_history self') <= 1000 /\
  recovery_history self'
  = if result_recovery_success result
    then (if length h <? 1000 then h else skipn 1 h) ++ [history_entry result now]
    else h.
Proof.
  intros Hreach. cbv zeta.
  pose proof (reachable_history_is_bounded self Hreach) as Hlen.
  split; [done|]. split.
  { apply reachable_history_is_bounded. by constructor. }
  rewrite handle_error_history. destruct (result_recovery_success _); [|done].
  apply deque_append_spec; [lia|done].
Qed.

(** Two errors with the same text handled within the same second get the
    same id: the second takes the place of the first in the registry, which
    does not grow and from then on holds the context of the second. *)
Theorem same_second_errors_share_an_id (self : ErrorHandlingEngine)
    (error1 error2 : PyException) (ctx1 ctx2 : ErrorContext) (now1 now2 : Z) :
  str_error error1 = str_error error2 ->
  Py.timestamp_seconds now1 = Py.timestamp_seconds now2 ->
  let first := handle_error hash self error1 ctx1 now1 in
  let second := handle_error hash (fst first) error2 ctx2 now2 in
  result_error_id (snd second) = result_error_id (snd first) /\
  (forall k, is_Some (error_registry (fst second) !! k)
             <-> is_Some (error_registry (fst first) !! k)) /\
  (context <$> error_registry (fst first) !! result_error_id (snd first)) = Some ctx1 /\
  (context <$> error_registry (fst second) !! result_error_id (snd first)) = Some ctx2.
Proof.
  intros Hmsg Hsec. cbv zeta.
  destruct (handle_error_result self error1 ctx1 now1) as (_ & _ & _ & _ & Hid1).
  destruct (handle_error_result (fst (handle_error hash self error1 ctx1 now1))
              error2 ctx2 now2) as (_ & _ & _ & _ & Hid2).
  assert (Hid : result_error_id
                  (snd (handle_error hash (fst (handle_error hash self error1 ctx1 now1))
                          error2 ctx2 now2))
                = result_error_id (snd (handle_error hash self error1 ctx1 now1))).
  { rewrite Hid1, Hid2. cbn. by rewrite Hmsg, Hsec. }
  split; [exact Hid|].
  destruct (handled_error_is_registered_aux self error1 ctx1 now1)
    as (r1 & Hr1 & Hc1 & _).
  destruct (handled_error_is_registered_aux (fst (handle_error hash self error1 ctx1 now1))
              error2 ctx2 now2) as (r2 & Hr2 & Hc2 & Hother).
  rewrite Hid in Hr2, Hother.
  split; [|split].
  - intros k. destruct (decide (k = result_error_id
                                      (snd (handle_error hash self error1 ctx1 now1))))
      as [->|Hne].
    + rewrite Hr1, Hr2. split; by eexists.
    + by rewrite Hother.
  - by rewrite Hr1; cbn; rewrite Hc1.
  - by rewrite Hr2; cbn; rewrite Hc2.
Qed.

(** Resetting the breaker of a component that has none answers false and
    changes nothing.  Resetting an existing breaker closes it and clears its
    count and its last failure, leaves the other breakers and the registry
    alone, and the count starts again: the next failure counted for the
    component leaves the breaker closed with a count of 1. *)
Theorem reset_circuit_breaker_restarts_count (self : ErrorHandlingEngine) (comp : string) :
  reachable hash self ->
  let self' := fst (reset_circuit_breaker self comp) in
  (snd (reset_circuit_breaker self comp) = true
   <-> is_Some (circuit_breakers self !! comp)) /\
  (circuit_breakers self !! comp = None -> self' = self) /\
  (forall other, other <> comp ->
     circuit_breakers self' !! other = circuit_breakers self !! other) /\
  error_registry self' = error_registry self /\
  recovery_history self' = recovery_history self /\
  (is_Some (circuit_breakers self !! comp) ->
   circuit_breakers self' !! comp = Some new_breaker /\
   forall error ctx now,
     reported_strategy error ctx = CIRCUIT_BREAKER -> breaker_component ctx = comp ->
     exists b, circuit_breakers (fst (handle_error hash self' error ctx now)) !! comp
               = Some b /\
       state b = closed /\ failure_count b = 1%Z /\ last_failure b = Some now).
Proof.
  intros Hreach. cbv zeta. unfold reset_circuit_breaker.
  destruct (circuit_breakers self !! comp) as [b|] eqn:E; cbn [fst snd].
  - split; [split; [by eexists|done]|]. split; [done|]. split.
    { intros other Hne. cbn. by rewrite lookup_alter_ne. }
    split; [done|]. split; [done|]. intros _.
    destruct (reachable_breakers_ok hash self Hreach comp b E) as (Ht & Hto & _).
    assert (Hnew : alter reset_breaker comp (circuit_breakers self) !! comp
                   = Some new_breaker).
    { rewrite lookup_alter_eq, E. cbn. unfold reset_breaker, new_breaker.
      by rewrite Ht, Hto. }
    split; [exact Hnew|].
    intros error ctx now Hstr Hcomp. rewrite handle_error_breakers.
    fold (reported_strategy error ctx). rewrite Hstr, Hcomp. cbn [circuit_breakers].
    rewrite lookup_insert_eq, Hnew. cbn. eexists. split; [reflexivity|]. done.
  - split; [split; [done|by intros [? ?]]|]. done.
Qed.

(** An error reported through the [handle_error] tool of the server is
    wrapped in a [CampaignError]: whatever its description, it is classified
    as medium, never as a network or a data validation error, and it is
    retried with backoff only when its text makes it a database error.  Its
    recovery fails exactly when the description mentions authentication or
    [unauthorized]. *)
Theorem tool_errors_are_medium (self : ErrorHandlingEngine)
    (arguments : Server.ErrorArguments) (now handled_at : Z) :
  let result := snd (Server._handle_error hash self arguments now handled_at) in
  let error := Server.CampaignError (Server.arg_error_description arguments) in
  result_severity result = MEDIUM /\
  result_category result <> NETWORK /\
  result_category result <> DATA_VALIDATION /\
  (result_recovery_strategy result = RETRY_WITH_BACKOFF
   <-> result_category result = DATABASE) /\
  (result_recovery_success result = false <-> mentions_authentication error = true) /\
  (context <$> error_registry (fst (Server._handle_error hash self arguments now handled_at))
                 !! result_error_id result)
  = Some (Server.tool_context arguments now).
Proof.
  cbv zeta. unfold Server._handle_error.
  set (error := Server.CampaignError (Server.arg_error_description arguments)).
  set (ctx := Server.tool_context arguments now).
  destruct (handle_error_result self error ctx handled_at) as (Hs & Hc & Hst & Hok & _).
  destruct (handled_error_is_registered_aux self error ctx handled_at) as (r & Hr & Hctx & _).
  pose proof (reported_strategy_cases error ctx) as Hcases.
  destruct (classified_category error ctx) as (_ & Ha & _).
  assert (Hconn : is_connection_error error = false) by reflexivity.
  rewrite Hs, Hc, Hst, Hok, Hr. cbn [fmap option_fmap option_map]. rewrite Hctx.
  split.
  { unfold _classify_error_severity.
    change (isinstance error ["ConnectionError"; "TimeoutError"]) with false.
    change (isinstance error ["ValueError"; "KeyError"]) with false.
    cbn [andb]. by destruct (_ || _). }
  assert (Hcat : _classify_error_category error ctx <> NETWORK /\
                 _classify_error_category error ctx <> DATA_VALIDATION).
  { unfold _classify_error_category.
    change (isinstance error ["ConnectionError"; "TimeoutError"]) with false.
    change (isinstance error ["ValueError"; "TypeError"]) with false.
    repeat case_match; done. }
  destruct Hcat as [Hn Hd].
  split; [exact Hn|]. split; [exact Hd|]. split.
  { rewrite Hcases. destruct (_classify_error_category error ctx); done. }
  split; [|done].
  rewrite (Ha Hconn), Hcases. by destruct (_classify_error_category error ctx).
Qed.

End HandlingProperties.

Section HandlingWitnesses.
Import ErrorHandling ErrorSpec RecoverySpec.

Lemma recovery_history_is_a_ring_witness :
  let self' := fst (handle_error sample_hash throttled_engine stalled
                      (waha_context fifth_time) fifth_time) in
  let result := snd (handle_error sample_hash throttled_engine stalled
                       (waha_context fifth_time) fifth_time) in
  let h := recovery_history throttled_engine in
  length h <= 1000 /\
  length (recovery_history self') <= 1000 /\
  recovery_history self'
  = if result_recovery_success result
    then (if length h <? 1000 then h else skipn 1 h) ++ [history_entry result fifth_time]
    else h.
Proof.
  apply (recovery_history_is_a_ring sample_hash throttled_engine stalled
           (waha_context fifth_time) fifth_time).
  apply handle_all_reachable, reachable_init.
Defined.

Lemma same_second_errors_share_an_id_witness :
  let first := handle_error sample_hash ErrorHandlingEngine_init stalled
                 (waha_context 0) 0 in
  let second := handle_error sample_hash (fst first) stalled
                  (waha_context 500000) 500000 in
  result_error_id (snd second) = result_error_id (snd first) /\
  (forall k, is_Some (error_registry (fst second) !! k)
             <-> is_Some (error_registry (fst first) !! k)) /\
  (context <$> error_registry (fst first) !! result_error_id (snd first))
  = Some (waha_context 0) /\
  (context <$> error_registry (fst second) !! result_error_id (snd first))
  = Some (waha_context 500000).
Proof.
  apply (same_second_errors_share_an_id sample_hash ErrorHandlingEngine_init
           stalled stalled (waha_context 0) (waha_context 500000) 0 500000).
  - reflexivity.
  - reflexivity.
Defined.

Lemma reset_circuit_breaker_restarts_count_witness :
  let self' := fst (reset_circuit_breaker throttled_engine "waha-send") in
  (snd (reset_circuit_breaker throttled_engine "waha-send") = true
   <-> is_Some (circuit_breakers throttled_engine !! "waha-send")) /\
  (circuit_breakers throttled_engine !! "waha-send" = None -> self' = throttled_engine) /\
  (forall other, other <> "waha-send" ->
     circuit_breakers self' !! other = circuit_breakers throttled_engine !! other) /\
  error_registry self' = error_registry throttled_engine /\
  recovery_history self' = recovery_history throttled_engine /\
  (is_Some (circuit_breakers throttled_engine !! "waha-send") ->
   circuit_breakers self' !! "waha-send" = Some new_breaker /\
   forall error ctx now,
     reported_strategy error ctx = CIRCUIT_BREAKER ->
     breaker_component ctx = "waha-send" ->
     exists b, circuit_breakers (fst (handle_error sample_hash self' error ctx now))
                 !! "waha-send" = Some b /\
       state b = closed /\ failure_count b = 1%Z /\ last_failure b = Some now).
Proof.
  apply (reset_circuit_breaker_restarts_count sample_hash throttled_engine "waha-send").
  apply handle_all_reachable, reachable_init.
Defined.

End HandlingWitnesses.

(** ** The resilient wrapper *)

Section WrapperProperties.
Import ErrorHandling ErrorSpec Resilience ResilienceSpec.
Variable hash : string -> Z.
Context {A : Type}.
Variable func : nat -> Attempt A.
Variable clock : nat -> Z.

Lemma attempts_loop_success (max_retries : Z) (n : nat) :
  forall (k j : nat) (a : A) (self : ErrorHandlingEngine) (ctx : ErrorContext)
         (made : nat) (slept : list Z),
  k <= j < k + n ->
  (forall i, k <= i < j -> exists e, func i = Fails e) ->
  func j = Succeeds a ->
  (Z.of_nat j <= max_retries)%Z ->
  attempts_loop hash func clock self ctx max_retries (seq k n) made slept
  = {| engine := self; outcome := Py.Returned (Some a);
       calls := made + (j - k) + 1;
       waits := slept ++ map wait_before_retry (seq k (j - k)) |}.
Proof.
  induction n as [|n IH]; intros k j a self ctx made slept Hj Hfail Hok Hle; [lia|].
  cbn [seq attempts_loop].
  destruct (decide (j = k)) as [->|Hne].
  - rewrite Hok. replace (k - k) with 0 by lia. cbn. rewrite app_nil_r.
    f_equal. lia.
  - destruct (Hfail k) as [e He]; [lia|]. rewrite He.
    destruct (Z.eqb_spec (Z.of_nat k) max_retries) as [E|_]; [lia|].
    rewrite (IH (S k) j a); [|lia|intros i Hi; apply Hfail; lia|done|done].
    replace (j - k) with (S (j - S k)) by lia. cbn [seq map].
    rewrite <- app_assoc. cbn. f_equal. lia.
Qed.

Lemma attempts_loop_failure (max_retries : Z) (n : nat) :
  forall (k : nat) (self : ErrorHandlingEngine) (ctx : ErrorContext)
         (made : nat) (slept : list Z),
  Z.of_nat (k + n) = max_retries ->
  (forall i, k <= i <= k + n -> exists e, func i = Fails e) ->
  exists e, func (k + n) = Fails e /\
    attempts_loop hash func clock self ctx max_retries (seq k (S n)) made slept
    = {| engine := fst (handle_error hash self e (set_timestamp ctx (clock (k + n)))
                          (clock (k + n)));
         outcome := Py.Raised (str_error e);
         calls := made + S n;
         waits := slept ++ map wait_before_retry (seq k n) |}.
Proof.
  induction n as [|n IH]; intros k self ctx made slept Hlast Hfail.
  - destruct (Hfail k) as [e He]; [lia|]. exists e.
    replace (k + 0) with k in * by lia. split; [exact He|].
    cbn [seq attempts_loop]. rewrite He.
    destruct (Z.eqb_spec (Z.of_nat k) max_retries) as [_|E]; [|lia].
    cbn. rewrite app_nil_r. f_equal. lia.
  - destruct (Hfail k) as [e0 He0]; [lia|].
    destruct (IH (S k) self (set_timestamp ctx (clock k)) (S made)
                (slept ++ [wait_before_retry k])) as (e & He & Hloop).
    { rewrite <- Hlast. f_equal. lia. }
    { intros i Hi. apply Hfail. lia. }
    replace (S k + n) with (k + S n) in * by lia.
    exists e. split; [exact He|].
    change (seq k (S (S n))) with (k :: seq (S k) (S n)).
    cbn [attempts_loop]. rewrite He0.
    destruct (Z.eqb_spec (Z.of_nat k) max_retries) as [E|_]; [lia|].
    fold (wait_before_retry k). rewrite Hloop.
    cbn [seq map]. rewrite <- app_assoc. cbn. f_equal. lia.
Qed.

Lemma wait_before_retry_bounds (attempt : nat) : (1 <= wait_before_retry attempt <= 30)%Z.
Proof.
  unfold wait_before_retry.
  assert (2 ^ 0 <= 2 ^ Z.of_nat attempt)%Z by (apply Z.pow_le_mono_r; lia).
  change (2 ^ 0)%Z with 1%Z in *. lia.
Qed.

(** When the wrapped operation succeeds at an attempt the wrapper still
    makes, after failing at every earlier one, the wrapper returns its
    result: the operation was called once more than it failed, the engine
    has recorded none of the failures, and the wrapper slept 1, 2, 4, ...
    seconds between the attempts, never more than 30 at a time. *)
Theorem resilient_returns_first_success (self : ErrorHandlingEngine)
    (operation_name comp : string) (max_retries : Z)
    (kw_campaign_id kw_workflow_id : option string) (entered : Z) (j : nat) (a : A) :
  (forall i, i < j -> exists e, func i = Fails e) ->
  func j = Succeeds a ->
  (Z.of_nat j <= max_retries)%Z ->
  let run := resilient hash func clock self operation_name comp max_retries
               kw_campaign_id kw_workflow_id entered in
  outcome run = Py.Returned (Some a) /\
  calls run = S j /\
  engine run = self /\
  waits run = map wait_before_retry (seq 0 j) /\
  Forall (fun w => (1 <= w <= 30)%Z) (waits run).
Proof.
  intros Hfail Hok Hle. cbv zeta. unfold resilient.
  rewrite (attempts_loop_success max_retries _ 0 j a); [|lia| |done|done].
  2: { intros i Hi. apply Hfail. lia. }
  cbn [outcome calls engine waits]. replace (j - 0) with j by lia. cbn [app].
  split; [done|]. split; [lia|]. split; [done|]. split; [done|].
  apply Forall_forall. intros w Hw.
  apply list_elem_of_In, in_map_iff in Hw as (i & <- & _).
  apply wait_before_retry_bounds.
Qed.

(** When the operation fails at every attempt, the wrapper calls it
    [max_retries + 1] times and raises the last exception again; the engine
    has handled that exception, once, under the component and operation of
    the wrapper with the time of the last failure, and none of the earlier
    ones.  With a negative [max_retries] the operation is not called at all
    and the wrapper returns [None]. *)
Theorem resilient_gives_up_after_last_retry (self : ErrorHandlingEngine)
    (operation_name comp : string) (max_retries : Z)
    (kw_campaign_id kw_workflow_id : option string) (entered : Z) :
  (forall i, (Z.of_nat i <= max_retries)%Z -> exists e, func i = Fails e) ->
  let run := resilient hash func clock self operation_name comp max_retries
               kw_campaign_id kw_workflow_id entered in
  let last := Z.to_nat max_retries in
  ((max_retries < 0)%Z ->
   outcome run = Py.Returned None /\ calls run = 0 /\ engine run = self /\ waits run = []) /\
  ((0 <= max_retries)%Z ->
   exists e, func last = Fails e /\
     outcome run = Py.Raised (str_error e) /\
     calls run = S last /\
     waits run = map wait_before_retry (seq 0 last) /\
     engine run
     = fst (handle_error hash self e
              (failure_context operation_name comp kw_campaign_id kw_workflow_id
                 (clock last))
              (clock last))).
Proof.
  intros Hfail. cbv zeta. unfold resilient. split.
  - intros Hneg. replace (Z.to_nat (max_retries + 1)) with 0 by lia. done.
  - intros Hpos. replace (Z.to_nat (max_retries + 1)) with (S (Z.to_nat max_retries)) by lia.
    match goal with |- context [attempts_loop _ _ _ _ ?c _ _ _ _] => set (ctx := c) end.
    destruct (attempts_loop_failure max_retries (Z.to_nat max_retries) 0 self ctx 0 [])
      as (e & He & Hloop).
    { cbn. lia. }
    { intros i Hi. apply Hfail. lia. }
    cbn [Nat.add] in He, Hloop. exists e. split; [exact He|].
    rewrite Hloop. cbn [outcome calls engine waits app Nat.add]. done.
Qed.

End WrapperProperties.

Section WrapperWitnesses.
Import ErrorHandling ErrorSpec Resilience ResilienceSpec.

Lemma resilient_returns_first_success_witness :
  let run := resilient sample_hash third_time_lucky ten_seconds_apart
               ErrorHandlingEngine_init "send_message" "whatsapp" 3
               (Some "campaign") None 0 in
  outcome run = Py.Returned (Some "sent") /\
  calls run = 3 /\
  engine run = ErrorHandlingEngine_init /\
  waits run = map wait_before_retry (seq 0 2) /\
  Forall (fun w => (1 <= w <= 30)%Z) (waits run).
Proof.
  apply (resilient_returns_first_success sample_hash third_time_lucky ten_seconds_apart
           ErrorHandlingEngine_init "send_message" "whatsapp" 3 (Some "campaign") None 0
           2 "sent").
  - intros i Hi. exists unreachable. unfold third_time_lucky.
    destruct (Nat.ltb_spec i 2); [reflexivity|lia].
  - reflexivity.
  - lia.
Defined.

Lemma resilient_gives_up_after_last_retry_witness :
  let run := resilient sample_hash never_works ten_seconds_apart
               ErrorHandlingEngine_init "send_message" "whatsapp" 3
               (Some "campaign") None 0 in
  ((3 < 0)%Z ->
   outcome run = Py.Returned None /\ calls run = 0 /\
   engine run = ErrorHandlingEngine_init /\ waits run = []) /\
  ((0 <= 3)%Z ->
   exists e, never_works (Z.to_nat 3) = Fails e /\
     outcome run = Py.Raised (str_error e) /\
     calls run = S (Z.to_nat 3) /\
     waits run = map wait_before_retry (seq 0 (Z.to_nat 3)) /\
     engine run
     = fst (handle_error sample_hash ErrorHandlingEngine_init e
              (failure_context "send_message" "whatsapp" (Some "campaign") None
                 (ten_seconds_apart (Z.to_nat 3)))
              (ten_seconds_apart (Z.to_nat 3)))).
Proof.
  apply (resilient_gives_up_after_last_retry sample_hash never_works ten_seconds_apart
           ErrorHandlingEngine_init "send_message" "whatsapp" 3 (Some "campaign") None 0).
  intros i _. exists unreachable. reflexivity.
Defined.

End WrapperWitnesses.

(** ** Error statistics *)

Section CountingProperties.
Import Monitoring PySorted ErrorStatistics HistorySpec StatisticsSpec.

Lemma dict_get_bump (k k' : string) (d : list (string * Z)) :
  dict_get (bump k d) k'
  = if String.eqb k k' then Some (default 0%Z (dict_get d k) + 1)%Z else dict_get d k'.
Proof.
  induction d as [|[k0 n] d IH]; cbn.
  - by destruct (String.eqb k k').
  - destruct (String.eqb_spec k0 k) as [->|Hne]; cbn.
    + by destruct (String.eqb k k').
    + rewrite IH. destruct (String.eqb_spec k k') as [->|Hne'].
      * by destruct (String.eqb_spec k0 k').
      * done.
Qed.

Lemma bump_keys (k : string) (d : list (string * Z)) :
  NoDup (map fst d) ->
  NoDup (map fst (bump k d)) /\
  forall k', In k' (map fst (bump k d)) <-> k' = k \/ In k' (map fst d).
Proof.
  induction d as [|[k0 n] d IH]; cbn; intros Hnd.
  - split.
    + apply NoDup_cons. split; [apply not_elem_of_nil|constructor].
    + intros k'. split; [intros [<-|[]]; by left|intros [->|[]]; by left].
  - apply NoDup_cons in Hnd as [Hk0 Hnd]. destruct (IH Hnd) as [IH1 IH2].
    destruct (String.eqb_spec k0 k) as [->|Hne]; cbn.
    + split; [by apply NoDup_cons|]. intros k'. intuition congruence.
    + split.
      * apply NoDup_cons. split; [|done]. rewrite list_elem_of_In, IH2.
        rewrite list_elem_of_In in Hk0. intros [?|?]; [congruence|done].
      * intros k'. rewrite IH2. intuition congruence.
Qed.

Lemma sum_counts_bump (k : string) (d : list (string * Z)) :
  sum_counts (bump k d) = (sum_counts d + 1)%Z.
Proof.
  unfold sum_counts. induction d as [|[k0 n] d IH]; cbn; [lia|].
  destruct (String.eqb k0 k); cbn; lia.
Qed.

Lemma count_by_snoc {B} (f : B -> string) (l : list B) (x : B) :
  count_by f (l ++ [x]) = bump (f x) (count_by f l).
Proof. unfold count_by. by rewrite fold_left_app. Qed.

Lemma occurrences_snoc {B} (f : B -> string) (k : string) (l : list B) (x : B) :
  occurrences f k (l ++ [x])
  = (occurrences f k l + if String.eqb (f x) k then 1 else 0)%Z.
Proof.
  unfold occurrences, Py.len. rewrite List.filter_app, length_app. cbn.
  destruct (String.eqb (f x) k); cbn; lia.
Qed.

Lemma occurrences_nonneg {B} (f : B -> string) (k : string) (l : list B) :
  (0 <= occurrences f k l)%Z.
Proof. unfold occurrences, Py.len. lia. Qed.

(** What the counting loop leaves: for each key the number of elements that
    have it, and no entry for a key that none has. *)
Lemma dict_get_count_by {B} (f : B -> string) (l : list B) (k : string) :
  dict_get (count_by f l) k
  = if (0 <? occurrences f k l)%Z then Some (occurrences f k l) else None.
Proof.
  induction l as [|x l IH] using rev_ind; [done|].
  rewrite count_by_snoc, dict_get_bump, occurrences_snoc.
  pose proof (occurrences_nonneg f k l) as Hnn.
  destruct (String.eqb_spec (f x) k) as [E|Hne].
  - subst k. rewrite IH. destruct (Z.ltb_spec 0 (occurrences f (f x) l)); cbn.
    + destruct (Z.ltb_spec 0 (occurrences f (f x) l + 1)); [done|lia].
    + replace (occurrences f (f x) l) with 0%Z by lia. done.
  - rewrite IH, Z.add_0_r. done.
Qed.

Lemma count_by_keys {B} (f : B -> string) (l : list B) : NoDup (map fst (count_by f l)).
Proof.
  induction l as [|x l IH] using rev_ind; [constructor|].
  rewrite count_by_snoc. by apply bump_keys.
Qed.

Lemma sum_counts_count_by {B} (f : B -> string) (l : list B) :
  sum_counts (count_by f l) = Py.len l.
Proof.
  induction l as [|x l IH] using rev_ind; [done|].
  rewrite count_by_snoc, sum_counts_bump, IH. unfold Py.len. rewrite length_app. cbn. lia.
Qed.

Lemma dict_get_in (d : list (string * Z)) (k : string) (n : Z) :
  NoDup (map fst d) -> In (k, n) d -> dict_get d k = Some n.
Proof.
  induction d as [|[k0 n0] d IH]; cbn; [done|].
  intros Hnd Hin. apply NoDup_cons in Hnd as [Hk0 Hnd].
  destruct Hin as [[= -> ->]|Hin].
  - by rewrite String.eqb_refl.
  - destruct (String.eqb_spec k0 k) as [->|_]; [|by apply IH].
    exfalso. apply Hk0. apply list_elem_of_In, in_map_iff. by exists (k, n).
Qed.

Lemma dict_get_some_in {B} (d : list (string * B)) (k : string) (v : B) :
  dict_get d k = Some v -> In (k, v) d.
Proof.
  induction d as [|[k0 v0] d IH]; cbn; [done|].
  destruct (String.eqb_spec k0 k) as [->|_]; [intros [= ->]; by left|].
  intros H. right. by apply IH.
Qed.

Lemma descending_app {B} (key : B -> Z) (l1 l2 : list B) :
  descending key (l1 ++ l2) ->
  descending key l1 /\ forall a b, In a l1 -> In b l2 -> (key b <= key a)%Z.
Proof.
  unfold descending. induction l1 as [|x l1 IH]; cbn; intros H.
  - split; [constructor|]. by intros a b [].
  - apply StronglySorted_inv in H as [Hs Hx]. destruct (IH Hs) as [IH1 IH2].
    split.
    + constructor; [done|]. apply Forall_app in Hx. tauto.
    + intros a b [<-|Ha] Hb; [|by apply IH2].
      rewrite List.Forall_forall in Hx. apply Hx. apply in_or_app. by right.
Qed.

(** [_get_most_common_errors] with a limit that is not negative gives at most
    [limit] pairs of an error type and a count, the greatest counts first
    and no type twice; each count is the number of the errors that have the
    type; and a type of the errors is left out only when the list is full
    and no type in it has fewer errors. *)
Theorem most_common_errors_are_the_top (errors : list ErrorHandling.ErrorRecord)
    (limit : Z) :
  (0 <= limit)%Z ->
  let top := _get_most_common_errors errors limit in
  length top <= Z.to_nat limit /\
  descending snd top /\
  NoDup (map fst top) /\
  (forall t n, In (t, n) top ->
     n = occurrences ErrorHandling.error_type t errors /\ (1 <= n)%Z) /\
  (forall t, (1 <= occurrences ErrorHandling.error_type t errors)%Z ->
     In t (map fst top) \/
     (length top = Z.to_nat limit /\
      forall t' n', In (t', n') top ->
        (occurrences ErrorHandling.error_type t errors <= n')%Z)).
Proof.
  intros Hlimit. cbv zeta. unfold _get_most_common_errors, slice_to.
  destruct (Z.ltb_spec limit 0) as [?|_]; [lia|].
  set (counts := count_by ErrorHandling.error_type errors).
  set (sorted := sorted_reverse snd counts).
  pose proof (sorted_reverse_permutation snd counts) as Hperm. fold sorted in Hperm.
  pose proof (sorted_reverse_descending snd counts) as Hdesc. fold sorted in Hdesc.
  rewrite <- (firstn_skipn (Z.to_nat limit) sorted) in Hdesc.
  apply descending_app in Hdesc as [Hd1 Hd2].
  assert (Hsub : forall p, In p (firstn (Z.to_nat limit) sorted) -> In p counts).
  { intros p Hp. apply (Permutation_in _ Hperm).
    rewrite <- (firstn_skipn (Z.to_nat limit) sorted). apply in_or_app. by left. }
  assert (Hcount : forall t n, In (t, n) counts ->
            n = occurrences ErrorHandling.error_type t errors /\ (1 <= n)%Z).
  { intros t n Hin. apply dict_get_in in Hin; [|apply count_by_keys].
    subst counts. rewrite dict_get_count_by in Hin.
    destruct (Z.ltb_spec 0 (occurrences ErrorHandling.error_type t errors));
      [|discriminate].
    injection Hin as <-. split; [done|lia]. }
  split; [apply firstn_le_length|].
  split; [exact Hd1|].
  split.
  { assert (Hnd : NoDup (map fst sorted)).
    { apply (NoDup_Permutation_proper _ _ (Permutation_map fst Hperm)).
      apply count_by_keys. }
    rewrite <- (firstn_skipn (Z.to_nat limit) sorted), map_app in Hnd.
    by apply NoDup_app in Hnd as [? _]. }
  split.
  { intros t n Hin. apply Hcount. by apply Hsub. }
  intros t Ht.
  assert (Hin : In (t, occurrences ErrorHandling.error_type t errors) sorted).
  { apply (Permutation_in _ (Permutation_sym Hperm)). apply dict_get_some_in.
    subst counts. rewrite dict_get_count_by.
    destruct (Z.ltb_spec 0 (occurrences ErrorHandling.error_type t errors)); [done|lia]. }
  rewrite <- (firstn_skipn (Z.to_nat limit) sorted) in Hin.
  apply in_app_or in Hin as [Hin|Hin].
  - left. apply in_map_iff. by exists (t, occurrences ErrorHandling.error_type t errors).
  - right. split.
    + rewrite length_firstn. apply Nat.min_l.
      destruct (Nat.le_gt_cases (Z.to_nat limit) (length sorted)) as [?|Hlt]; [done|].
      rewrite skipn_all2 in Hin by lia. destruct Hin.
    + intros t' n' Hin'. apply (Hd2 _ _ Hin' Hin).
Qed.

Lemma most_common_errors_are_the_top_witness :
  let top := _get_most_common_errors three_records 5 in
  length top <= Z.to_nat 5 /\
  descending snd top /\
  NoDup (map fst top) /\
  (forall t n, In (t, n) top ->
     n = occurrences ErrorHandling.error_type t three_records /\ (1 <= n)%Z) /\
  (forall t, (1 <= occurrences ErrorHandling.error_type t three_records)%Z ->
     In t (map fst top) \/
     (length top = Z.to_nat 5 /\
      forall t' n', In (t', n') top ->
        (occurrences ErrorHandling.error_type t three_records <= n')%Z)).
Proof.
  apply (most_common_errors_are_the_top three_records 5). lia.
Defined.

End CountingProperties.

Section StatisticsProperties.
Import ErrorHandling ErrorSpec ErrorStatistics StatisticsSpec.

Lemma truediv_zero (x : float) : Py.truediv x (hours_of 0) = None.
Proof. reflexivity. Qed.

Lemma truediv_one_day (x : float) :
  Py.truediv x (hours_of one_day) = Some (x / 24)%float.
Proof. reflexivity. Qed.

(** [get_error_statistics] over the records of the registry.  When none is
    recent enough it returns the short dict: no error, rate 0.  With a time
    range of zero and a record that is not older than the clock, it raises
    [ZeroDivisionError].  With the default range of 24 hours it raises
    nothing: when some record is recent enough, the total is the number of
    recent records, at least one, the counts by severity and the counts by
    category each add up to the total, the rate is the total by 24, and at
    most five error types are listed as most common. *)
Theorem error_statistics_edges (self : ErrorHandlingEngine)
    (registry_values : list ErrorRecord) (now : Z) :
  (forall time_range, relevant registry_values time_range now = [] ->
     get_error_statistics self registry_values time_range now
     = Py.Returned {| total_errors := 0; time_range_hours := hours_of time_range;
                      error_rate := 0; details := None |}) /\
  (relevant registry_values 0 now <> [] ->
   get_error_statistics self registry_values 0 now = Py.Raised "float division by zero") /\
  (relevant registry_values one_day now <> [] ->
   exists stats d,
     get_error_statistics self registry_values one_day now = Py.Returned stats /\
     details stats = Some d /\
     total_errors stats = Py.len (relevant registry_values one_day now) /\
     (1 <= total_errors stats)%Z /\
     error_rate stats = (Py.float_of_Z (total_errors stats) / 24)%float /\
     sum_counts (errors_by_severity d) = total_errors stats /\
     sum_counts (errors_by_category d) = total_errors stats /\
     length (most_common_errors d) <= 5 /\
     circuit_breaker_status d = _get_circuit_breaker_status self).
Proof.
  unfold get_error_statistics, relevant. split; [|split].
  - intros time_range ->. reflexivity.
  - destruct (List.filter _ registry_values) as [|e l] eqn:E; [done|]. intros _.
    by rewrite truediv_zero.
  - destruct (List.filter _ registry_values) as [|e l] eqn:E; [done|]. intros _.
    rewrite truediv_one_day. eexists. eexists. split; [reflexivity|].
    cbn [details]. split; [reflexivity|].
    cbn [details total_errors error_rate errors_by_severity errors_by_category
         most_common_errors circuit_breaker_status].
    split; [done|].
    split; [unfold Py.len; cbn; lia|]. split; [done|].
    rewrite !sum_counts_count_by. split; [done|]. split; [done|]. split; [|done].
    unfold _get_most_common_errors, PySorted.slice_to. cbn [Z.ltb Z.compare].
    apply firstn_le_length.
Qed.

End StatisticsProperties.

(** ** The status of a pattern *)

Section PatternProperties.
Import Thinking PatternStatus PatternRuns.

Lemma count_status_bounds (s : ThinkingStatus) (l : list ThinkingStep) :
  (0 <= count_status s l <= Py.len l)%Z.
Proof.
  unfold count_status, Py.len. pose proof (filter_length_le
    (fun step => ThinkingStatus_eqb (status step) s) l). lia.
Qed.

Lemma counts_are_disjoint (l : list ThinkingStep) :
  (count_status COMPLETED l + count_status FAILED l + count_status IN_PROGRESS l
   <= Py.len l)%Z.
Proof.
  unfold count_status, Py.len. induction l as [|step l IH]; cbn; [lia|].
  destruct (status step); cbn; lia.
Qed.

Lemma stage_value_not_completed (s : ThinkingStage) : ThinkingStage_value s <> "completed".
Proof. by destruct s. Qed.

Lemma current_stage_completed (l : list ThinkingStep) :
  _get_current_stage l = "completed" <-> List.filter unfinished l = [].
Proof.
  induction l as [|step l IH]; [done|].
  cbn. unfold unfinished at 1.
  destruct (status step); cbn; try exact IH;
    (split; [intros H; by apply stage_value_not_completed in H|discriminate]).
Qed.

Lemma estimate_completion_time_eq (l : list ThinkingStep) (now : Z) :
  _estimate_completion_time l now = (now + remaining_time l)%Z.
Proof.
  unfold _estimate_completion_time, remaining_time. f_equal.
  assert (H : forall acc,
             fold_left (fun remaining step =>
                          match status step with
                          | PENDING | IN_PROGRESS => (remaining + estimated_duration step)%Z
                          | _ => remaining
                          end) l acc
             = (acc + fold_right Z.add 0 (map estimated_duration (List.filter unfinished l)))%Z).
  { induction l as [|step l IH]; intros acc; cbn; [lia|].
    rewrite IH. unfold unfinished at 2. destruct (status step); cbn; lia. }
  rewrite H. lia.
Qed.

(** [get_pattern_status] answers [Pattern not found] for an id that is not
    active and raises [ZeroDivisionError] for a pattern without steps.  For
    a pattern with steps it reports their number and the numbers of the
    completed, failed and running ones, which together are at most the
    total.  The current stage is [completed] exactly when no step is
    pending or in progress, failed steps included; the estimated
    completion is the clock plus the estimated durations of the pending and
    running steps, so it is the clock itself when the stage is
    [completed].  A pattern just started is found under the id
    [start_thinking] returns. *)
Theorem pattern_status_report (self : ThinkingEngine) (pattern_id : string) (now : Z) :
  (active_patterns self !! pattern_id = None ->
   get_pattern_status self pattern_id now = Py.Returned pattern_not_found) /\
  (forall pattern, active_patterns self !! pattern_id = Some pattern ->
     steps pattern = [] ->
     get_pattern_status self pattern_id now = Py.Raised "division by zero") /\
  (forall pattern, active_patterns self !! pattern_id = Some pattern ->
     steps pattern <> [] ->
     exists s, get_pattern_status self pattern_id now = Py.Returned (pattern_status s) /\
       pattern_name s = name pattern /\
       total_steps s = Py.len (steps pattern) /\ (1 <= total_steps s)%Z /\
       (0 <= completed_steps s)%Z /\ (0 <= failed_steps s)%Z /\
       (0 <= in_progress_steps s)%Z /\
       (completed_steps s + failed_steps s + in_progress_steps s <= total_steps s)%Z /\
       (current_stage s = "completed" <-> List.filter unfinished (steps pattern) = []) /\
       estimated_completion s = (now + remaining_time (steps pattern))%Z /\
       (current_stage s = "completed" -> estimated_completion s = now)) /\
  (forall pattern stamp,
     let started := start_thinking self pattern stamp in
     snd started = name pattern +:+ "_" +:+ stamp /\
     active_patterns (fst started) !! snd started = Some pattern /\
     thinking_queue (fst started) = thinking_queue self ++ [snd started] /\
     forall other, other <> snd started ->
       get_pattern_status (fst started) other now = get_pattern_status self other now).
Proof.
  unfold get_pattern_status. split; [|split; [|split]].
  - by intros ->.
  - intros pattern -> ->. reflexivity.
  - intros pattern -> Hsteps.
    destruct (Z.eqb_spec (Py.len (steps pattern)) 0) as [E|Hne].
    { unfold Py.len in E. destruct (steps pattern); [done|]. cbn in E. lia. }
    eexists. split; [reflexivity|]. cbn.
    pose proof (count_status_bounds COMPLETED (steps pattern)).
    pose proof (count_status_bounds FAILED (steps pattern)).
    pose proof (count_status_bounds IN_PROGRESS (steps pattern)).
    pose proof (counts_are_disjoint (steps pattern)).
    assert (0 <= Py.len (steps pattern))%Z by (unfold Py.len; lia).
    split; [done|]. split; [done|]. split; [lia|]. split; [lia|]. split; [lia|].
    split; [lia|]. split; [lia|].
    split; [apply current_stage_completed|].
    split; [apply estimate_completion_time_eq|].
    intros Hc. apply current_stage_completed in Hc.
    rewrite estimate_completion_time_eq. unfold remaining_time. rewrite Hc. cbn. lia.
  - intros pattern stamp. cbn. split; [done|].
    rewrite lookup_insert_eq. split; [done|]. split; [done|].
    intros other Hne. by rewrite lookup_insert_ne.
Qed.

(** *** Processing the steps in the order of the list *)

Lemma finish_completes (start_time end_time : Z) (step : ThinkingStep) :
  status (finish start_time end_time step) = COMPLETED /\
  id (finish start_time end_time step) = id step /\
  dependencies (finish start_time end_time step) = dependencies step.
Proof.
  unfold finish.
  destruct (execute_step_logic_returns (set_status IN_PROGRESS step)) as [r ->]. done.
Qed.

Lemma process_thinking_step_eq (l : list ThinkingStep) (i : nat) (step : ThinkingStep)
    (start_time end_time : Z) :
  l !! i = Some step ->
  exists run, process_thinking_step l i start_time end_time = Some run /\
    started run = <[i := set_status IN_PROGRESS step]> l /\
    finished run = <[i := finish start_time end_time step]> l.
Proof.
  intros Hi. unfold process_thinking_step, finish. rewrite Hi. cbn.
  destruct (_execute_step_logic (set_status IN_PROGRESS step)); eexists; done.
Qed.

(** After the first [n] steps were processed in order, these are completed
    and the others are as they were. *)
Lemma process_in_order_lookup (clock : nat -> Z) (l : list ThinkingStep) (n j : nat) :
  n <= length l ->
  process_in_order clock l n !! j
  = if decide (j < n) then finish (clock (2 * j)) (clock (2 * j + 1)) <$> l !! j
    else l !! j.
Proof.
  unfold process_in_order. revert j.
  induction n as [|n IH]; intros j Hn; [done|].
  rewrite seq_S, fold_left_app. cbn [fold_left Nat.add].
  set (before := fold_left (process_next clock) (seq 0 n) l) in *.
  assert (Hlen : n < length l) by lia.
  destruct (lookup_lt_is_Some_2 l n Hlen) as [step Hstep].
  assert (Hbefore : before !! n = Some step).
  { rewrite IH by lia. rewrite decide_False by lia. done. }
  unfold process_next.
  destruct (process_thinking_step_eq before n step (clock (2 * n)) (clock (2 * n + 1))
              Hbefore) as (run & -> & _ & ->).
  destruct (decide (j = n)) as [->|Hne].
  - rewrite list_lookup_insert_eq by (by eapply lookup_lt_Some).
    rewrite decide_True by lia. by rewrite Hstep.
  - rewrite list_lookup_insert_ne by done. rewrite IH by lia.
    destruct (decide (j < n)), (decide (j < S n)); try lia; done.
Qed.

Lemma declared_before_lookup (earlier : list string) (l : list ThinkingStep)
    (i : nat) (step : ThinkingStep) (d : string) :
  declared_before earlier l = true -> l !! i = Some step -> In d (dependencies step) ->
  In d earlier \/ exists j other, j < i /\ l !! j = Some other /\ id other = d.
Proof.
  revert earlier i. induction l as [|first l IH]; intros earlier i Hwo Hi Hd; [done|].
  cbn in Hwo. apply andb_true_iff in Hwo as [Hdeps Hrest].
  destruct i as [|i]; cbn in Hi.
  - injection Hi as ->. left.
    rewrite forallb_forall in Hdeps. apply Hdeps in Hd.
    apply existsb_exists in Hd as (x & Hx & Heq). apply String.eqb_eq in Heq. by subst.
  - destruct (IH _ _ Hrest Hi Hd) as [Hin|(j & other & Hj & Hother & Hid)].
    + apply in_app_or in Hin as [Hin|[<-|[]]]; [by left|].
      right. exists 0, first. split; [lia|]. done.
    + right. exists (S j), other. split; [lia|]. done.
Qed.

(** When every dependency of a step names a step declared before it, as in
    the campaign pattern, a caller that processes the steps in the order of
    the list starts each step with all its dependencies completed; and
    after the last step every step is completed. *)
Theorem declared_order_respects_dependencies (clock : nat -> Z) (l : list ThinkingStep)
    (i : nat) (step : ThinkingStep) :
  well_ordered l = true ->
  l !! i = Some step ->
  (exists run started_step,
     process_thinking_step (process_in_order clock l i) i
       (clock (2 * i)) (clock (2 * i + 1)) = Some run /\
     started run !! i = Some started_step /\
     id started_step = id step /\ status started_step = IN_PROGRESS /\
     dependencies_completed (started run) started_step = true) /\
  Forall (fun s => status s = COMPLETED) (process_in_order clock l (length l)) /\
  _get_current_stage (process_in_order clock l (length l)) = "completed".
Proof.
  intros Hwo Hi.
  assert (Hlt : i < length l) by (by eapply lookup_lt_Some).
  assert (Hall : Forall (fun s => status s = COMPLETED) (process_in_order clock l (length l))).
  { apply Forall_lookup. intros j s Hj.
    rewrite process_in_order_lookup in Hj by lia.
    destruct (decide (j < length l)) as [Hjl|Hjl].
    - destruct (l !! j) as [orig|]; [|done]. injection Hj as <-.
      apply finish_completes.
    - apply lookup_lt_Some in Hj. lia. }
  split; [|split; [exact Hall|]].
  - assert (Hbefore : process_in_order clock l i !! i = Some step).
    { rewrite process_in_order_lookup by lia. by rewrite decide_False by lia. }
    destruct (process_thinking_step_eq _ i step (clock (2 * i)) (clock (2 * i + 1)) Hbefore)
      as (run & Hrun & Hstarted & _).
    exists run, (set_status IN_PROGRESS step). split; [exact Hrun|].
    rewrite Hstarted.
    assert (Hlen : i < length (process_in_order clock l i)) by (by eapply lookup_lt_Some).
    split; [by rewrite list_lookup_insert_eq|]. split; [done|]. split; [done|].
    unfold dependencies_completed. apply forallb_forall. intros d Hd. cbn in Hd.
    destruct (declared_before_lookup [] l i step d Hwo Hi Hd)
      as [[]|(j & other & Hj & Hother & Hid)].
    apply existsb_exists. exists (finish (clock (2 * j)) (clock (2 * j + 1)) other).
    destruct (finish_completes (clock (2 * j)) (clock (2 * j + 1)) other) as (Hs & Hid' & _).
    split.
    + apply list_elem_of_In, list_elem_of_lookup. exists j.
      rewrite list_lookup_insert_ne by lia.
      rewrite process_in_order_lookup by lia. rewrite decide_True by done.
      by rewrite Hother.
    + rewrite Hs, Hid', Hid, String.eqb_refl. done.
  - apply current_stage_completed.
    induction Hall as [|s rest Hs _ IH]; [done|].
    cbn. unfold unfinished at 1. rewrite Hs. cbn. exact IH.
Qed.

Lemma declared_order_respects_dependencies_witness :
  (exists run started_step,
     process_thinking_step (process_in_order seconds _generate_campaign_steps 5) 5
       (seconds (2 * 5)) (seconds (2 * 5 + 1)) = Some run /\
     started run !! 5 = Some started_step /\
     id started_step = "optimize_message_timing" /\ status started_step = IN_PROGRESS /\
     dependencies_completed (started run) started_step = true) /\
  Forall (fun s => status s = COMPLETED)
    (process_in_order seconds _generate_campaign_steps (length _generate_campaign_steps)) /\
  _get_current_stage
    (process_in_order seconds _generate_campaign_steps (length _generate_campaign_steps))
  = "completed".
Proof.
  apply (declared_order_respects_dependencies seconds _generate_campaign_steps 5
           (new_step "optimize_message_timing" OPTIMIZATION
              ["timing_strategy"; "audience_behavior_patterns"]
              ["optimized_schedule"; "send_times"]
              ["plan_message_sequences"; "execute_smart_segmentation"]
              PRIORITY_HIGH (minutes 25))).
  - reflexivity.
  - reflexivity.
Defined.

End PatternProperties.
